(** * The FFmpeg AMF encoder adapter of obs-ffmpeg

    A shallow embedding of [plugins/obs-ffmpeg/obs-ffmpeg-amf.c]: the session
    configurator [ffmpeg_amf_update], the live reconfiguration
    [ffmpeg_amf_reconfigure], the plane copier [copy_data], the encode step
    [ffmpeg_amf_encode], and the lifecycle functions [ffmpeg_amf_create] and
    [ffmpeg_amf_destroy].

    C integers are mathematical integers ([Z]) with the conversions of the C
    code written out ([to_int], [to_int64], [to_uint32]).  Pointers that may
    be [NULL] are options.  A dereference of [NULL], an access outside a
    buffer and a division by zero have no defined result in C: the embedded
    function returns [None] there.  libavcodec, libavutil and the parts of
    libobs the file calls are collaborators whose code is elsewhere: they
    are the fields of the class [Externals]. *)

From Stdlib Require Import ZArith String Ascii List Bool Lia.
From Stdlib.Strings Require Import Byte.
From stdpp Require Import base option list gmap strings.

Open Scope Z_scope.

(** ** C integer conversions *)

(** Conversion of a mathematical integer to a signed integer of [bits] bits,
    as every compiler OBS builds with does it: reduction modulo [2^bits]. *)
Definition wrap_signed (bits x : Z) : Z :=
  (x + 2 ^ (bits - 1)) mod 2 ^ bits - 2 ^ (bits - 1).

Definition INT_MIN : Z := - 2 ^ 31.
Definition INT_MAX : Z := 2 ^ 31 - 1.
Definition INT64_MIN : Z := - 2 ^ 63.
Definition INT64_MAX : Z := 2 ^ 63 - 1.
Definition UINT32_MAX : Z := 2 ^ 32 - 1.

(** [(int)x] *)
Definition to_int (x : Z) : Z := wrap_signed 32 x.
(** [(int64_t)x] *)
Definition to_int64 (x : Z) : Z := wrap_signed 64 x.
(** [(uint32_t)x], also [(unsigned int)x] *)
Definition to_uint32 (x : Z) : Z := x mod 2 ^ 32.

(** ** Strings: [astrcmpi] *)

Definition toupper (c : ascii) : ascii :=
  let n := nat_of_ascii c in
  if ((97 <=? n) && (n <=? 122))%nat then ascii_of_nat (n - 32) else c.

(** Modelled from the spec: [astrcmpi] is declared in libobs'
    [util/dstr.h] and its body is not among the sources.  The settings
    interface of the spec lists the modes as [CBR], [VBR], [CQP] while the
    adapter compares with ["cqp"], ["vbr"], ["CBR"] and ["VBR"]: the
    comparison ignores the case of letters.  It walks both strings,
    compares the upper-cased characters and answers -1, 1 or, when the
    strings agree up to their ends, 0. *)
Fixpoint astrcmpi (str1 str2 : string) : Z :=
  match str1, str2 with
  | EmptyString, EmptyString => 0
  | EmptyString, String _ _ => -1
  | String _ _, EmptyString => 1
  | String c1 s1, String c2 s2 =>
      let ch1 := nat_of_ascii (toupper c1) in
      let ch2 := nat_of_ascii (toupper c2) in
      if (ch1 <? ch2)%nat then -1
      else if (ch2 <? ch1)%nat then 1
      else astrcmpi s1 s2
  end.

(** ** Settings: [obs_data_t] *)

Inductive obs_data_item : Type :=
  | OBS_DATA_STRING (s : string)
  | OBS_DATA_NUMBER (n : Z).

(** Modelled from the spec: [obs_data_t] and its getters live in libobs'
    [obs-data.c], not among the sources.  The spec calls the settings a
    key/value configuration with the keys [rate_control], [bitrate], [cqp],
    [keyint_sec], [preset] and [profile]; a getter answers the value stored
    under the key, and the empty string or zero when there is none of the
    requested kind.  [obs_data_get_int] answers a [long long]. *)
Definition obs_data_get_string (settings : gmap string obs_data_item)
    (name : string) : string :=
  match settings !! name with
  | Some (OBS_DATA_STRING s) => s
  | _ => EmptyString
  end.

Definition obs_data_get_int (settings : gmap string obs_data_item)
    (name : string) : Z :=
  match settings !! name with
  | Some (OBS_DATA_NUMBER n) => n
  | _ => 0
  end.

(** ** Enumerations of libobs and libavutil *)

(** [enum video_format] of libobs.  The adapter names two of its members;
    the others are kept by their number. *)
Inductive video_format : Type :=
  | VIDEO_FORMAT_I420
  | VIDEO_FORMAT_NV12
  | VIDEO_FORMAT_unlisted (code : Z).

Inductive video_range_type : Type :=
  | VIDEO_RANGE_DEFAULT
  | VIDEO_RANGE_PARTIAL
  | VIDEO_RANGE_FULL.

(** [enum video_colorspace]: the four members the [switch] of
    [ffmpeg_amf_update] lists, and any other value. *)
Inductive video_colorspace : Type :=
  | VIDEO_CS_DEFAULT
  | VIDEO_CS_601
  | VIDEO_CS_709
  | VIDEO_CS_SRGB
  | VIDEO_CS_unlisted (code : Z).

Inductive AVColorRange : Type :=
  | AVCOL_RANGE_UNSPECIFIED
  | AVCOL_RANGE_MPEG
  | AVCOL_RANGE_JPEG.

Inductive AVColorTransferCharacteristic : Type :=
  | AVCOL_TRC_UNSPECIFIED
  | AVCOL_TRC_BT709
  | AVCOL_TRC_SMPTE170M
  | AVCOL_TRC_IEC61966_2_1.

Inductive AVColorPrimaries : Type :=
  | AVCOL_PRI_UNSPECIFIED
  | AVCOL_PRI_BT709
  | AVCOL_PRI_SMPTE170M.

Inductive AVColorSpace : Type :=
  | AVCOL_SPC_UNSPECIFIED
  | AVCOL_SPC_BT709
  | AVCOL_SPC_SMPTE170M.

(** [enum AVPixelFormat] is kept as the number libavutil gives the format. *)
Definition AVPixelFormat : Type := Z.

(** ** Host objects *)

Record video_output_info : Type := {
  voi_format : video_format;
  fps_num : Z;                    (* uint32_t *)
  fps_den : Z;                    (* uint32_t *)
  voi_colorspace : video_colorspace;
  voi_range : video_range_type
}.

Record video_scale_info : Type := {
  info_format : video_format;
  info_range : video_range_type;
  info_colorspace : video_colorspace
}.

(** What the adapter asks of its [obs_encoder_t]: the preferred format, the
    output it is bound to, its size and its last error. *)
Record obs_encoder_t : Type := {
  obs_encoder_get_preferred_video_format : video_format;
  obs_encoder_video : video_output_info;
  obs_encoder_get_width : Z;      (* uint32_t *)
  obs_encoder_get_height : Z;     (* uint32_t *)
  obs_encoder_get_last_error : option string
}.

Definition obs_encoder_set_last_error (e : obs_encoder_t) (message : string)
    : obs_encoder_t :=
  {| obs_encoder_get_preferred_video_format :=
       obs_encoder_get_preferred_video_format e;
     obs_encoder_video := obs_encoder_video e;
     obs_encoder_get_width := obs_encoder_get_width e;
     obs_encoder_get_height := obs_encoder_get_height e;
     obs_encoder_get_last_error := Some message |}.

(** ** libavcodec objects *)

Record AVCodec : Type := { codec_name : string }.

Inductive option_value : Type :=
  | opt_string (s : string)
  | opt_int (n : Z).

(** The fields of [AVCodecContext] the adapter reads or writes.
    [priv_data] is the list of private options set with [av_opt_set], the
    last one first; [extradata] holds the [extradata_size] bytes at
    [extradata]; [internal] is whatever libavcodec keeps behind the
    context. *)
Record AVCodecContext (St : Type) : Type := {
  flags : Z;
  priv_data : list (string * option_value);
  bit_rate : Z;                   (* int64_t *)
  rc_min_rate : Z;                (* int64_t *)
  rc_max_rate : Z;                (* int64_t *)
  rc_buffer_size : Z;             (* int *)
  global_quality : Z;             (* int *)
  width : Z;                      (* int *)
  height : Z;                     (* int *)
  time_base : Z * Z;              (* AVRational: num, den *)
  pix_fmt : AVPixelFormat;
  color_range : AVColorRange;
  color_trc : AVColorTransferCharacteristic;
  color_primaries : AVColorPrimaries;
  colorspace : AVColorSpace;
  gop_size : Z;                   (* int *)
  extradata : list byte;
  internal : St
}.

Arguments flags {St} _.
Arguments priv_data {St} _.
Arguments bit_rate {St} _.
Arguments rc_min_rate {St} _.
Arguments rc_max_rate {St} _.
Arguments rc_buffer_size {St} _.
Arguments global_quality {St} _.
Arguments width {St} _.
Arguments height {St} _.
Arguments time_base {St} _.
Arguments pix_fmt {St} _.
Arguments color_range {St} _.
Arguments color_trc {St} _.
Arguments color_primaries {St} _.
Arguments colorspace {St} _.
Arguments gop_size {St} _.
Arguments extradata {St} _.
Arguments internal {St} _.

(** Assignment to one field of a context: [ctx->field = v]. *)
Section context_assignment.
Context {St : Type}.

Definition set_flags v (ctx : AVCodecContext St) : AVCodecContext St :=
  {| flags := v; priv_data := priv_data ctx; bit_rate := bit_rate ctx;
     rc_min_rate := rc_min_rate ctx; rc_max_rate := rc_max_rate ctx;
     rc_buffer_size := rc_buffer_size ctx;
     global_quality := global_quality ctx; width := width ctx;
     height := height ctx; time_base := time_base ctx;
     pix_fmt := pix_fmt ctx; color_range := color_range ctx;
     color_trc := color_trc ctx; color_primaries := color_primaries ctx;
     colorspace := colorspace ctx; gop_size := gop_size ctx;
     extradata := extradata ctx; internal := internal ctx |}.

Definition set_priv_data v (ctx : AVCodecContext St) : AVCodecContext St :=
  {| flags := flags ctx; priv_data := v; bit_rate := bit_rate ctx;
     rc_min_rate := rc_min_rate ctx; rc_max_rate := rc_max_rate ctx;
     rc_buffer_size := rc_buffer_size ctx;
     global_quality := global_quality ctx; width := width ctx;
     height := height ctx; time_base := time_base ctx;
     pix_fmt := pix_fmt ctx; color_range := color_range ctx;
     color_trc := color_trc ctx; color_primaries := color_primaries ctx;
     colorspace := colorspace ctx; gop_size := gop_size ctx;
     extradata := extradata ctx; internal := internal ctx |}.

Definition set_bit_rate v (ctx : AVCodecContext St) : AVCodecContext St :=
  {| flags := flags ctx; priv_data := priv_data ctx; bit_rate := v;
     rc_min_rate := rc_min_rate ctx; rc_max_rate := rc_max_rate ctx;
     rc_buffer_size := rc_buffer_size ctx;
     global_quality := global_quality ctx; width := width ctx;
     height := height ctx; time_base := time_base ctx;
     pix_fmt := pix_fmt ctx; color_range := color_range ctx;
     color_trc := color_trc ctx; color_primaries := color_primaries ctx;
     colorspace := colorspace ctx; gop_size := gop_size ctx;
     extradata := extradata ctx; internal := internal ctx |}.

Definition set_rc_min_rate v (ctx : AVCodecContext St) : AVCodecContext St :=
  {| flags := flags ctx; priv_data := priv_data ctx;
     bit_rate := bit_rate ctx; rc_min_rate := v;
     rc_max_rate := rc_max_rate ctx; rc_buffer_size := rc_buffer_size ctx;
     global_quality := global_quality ctx; width := width ctx;
     height := height ctx; time_base := time_base ctx;
     pix_fmt := pix_fmt ctx; color_range := color_range ctx;
     color_trc := color_trc ctx; color_primaries := color_primaries ctx;
     colorspace := colorspace ctx; gop_size := gop_size ctx;
     extradata := extradata ctx; internal := internal ctx |}.

Definition set_rc_max_rate v (ctx : AVCodecContext St) : AVCodecContext St :=
  {| flags := flags ctx; priv_data := priv_data ctx;
     bit_rate := bit_rate ctx; rc_min_rate := rc_min_rate ctx;
     rc_max_rate := v; rc_buffer_size := rc_buffer_size ctx;
     global_quality := global_quality ctx; width := width ctx;
     height := height ctx; time_base := time_base ctx;
     pix_fmt := pix_fmt ctx; color_range := color_range ctx;
     color_trc := color_trc ctx; color_primaries := color_primaries ctx;
     colorspace := colorspace ctx; gop_size := gop_size ctx;
     extradata := extradata ctx; internal := internal ctx |}.

Definition set_rc_buffer_size v (ctx : AVCodecContext St) : AVCodecContext St :=
  {| flags := flags ctx; priv_data := priv_data ctx;
     bit_rate := bit_rate ctx; rc_min_rate := rc_min_rate ctx;
     rc_max_rate := rc_max_rate ctx; rc_buffer_size := v;
     global_quality := global_quality ctx; width := width ctx;
     height := height ctx; time_base := time_base ctx;
     pix_fmt := pix_fmt ctx; color_range := color_range ctx;
     color_trc := color_trc ctx; color_primaries := color_primaries ctx;
     colorspace := colorspace ctx; gop_size := gop_size ctx;
     extradata := extradata ctx; internal := internal ctx |}.

Definition set_global_quality v (ctx : AVCodecContext St) : AVCodecContext St :=
  {| flags := flags ctx; priv_data := priv_data ctx;
     bit_rate := bit_rate ctx; rc_min_rate := rc_min_rate ctx;
     rc_max_rate := rc_max_rate ctx; rc_buffer_size := rc_buffer_size ctx;
     global_quality := v; width := width ctx; height := height ctx;
     time_base := time_base ctx; pix_fmt := pix_fmt ctx;
     color_range := color_range ctx; color_trc := color_trc ctx;
     color_primaries := color_primaries ctx; colorspace := colorspace ctx;
     gop_size := gop_size ctx; extradata := extradata ctx;
     internal := internal ctx |}.

Definition set_width v (ctx : AVCodecContext St) : AVCodecContext St :=
  {| flags := flags ctx; priv_data := priv_data ctx;
     bit_rate := bit_rate ctx; rc_min_rate := rc_min_rate ctx;
     rc_max_rate := rc_max_rate ctx; rc_buffer_size := rc_buffer_size ctx;
     global_quality := global_quality ctx; width := v;
     height := height ctx; time_base := time_base ctx;
     pix_fmt := pix_fmt ctx; color_range := color_range ctx;
     color_trc := color_trc ctx; color_primaries := color_primaries ctx;
     colorspace := colorspace ctx; gop_size := gop_size ctx;
     extradata := extradata ctx; internal := internal ctx |}.

Definition set_height v (ctx : AVCodecContext St) : AVCodecContext St :=
  {| flags := flags ctx; priv_data := priv_data ctx;
     bit_rate := bit_rate ctx; rc_min_rate := rc_min_rate ctx;
     rc_max_rate := rc_max_rate ctx; rc_buffer_size := rc_buffer_size ctx;
     global_quality := global_quality ctx; width := width ctx; height := v;
     time_base := time_base ctx; pix_fmt := pix_fmt ctx;
     color_range := color_range ctx; color_trc := color_trc ctx;
     color_primaries := color_primaries ctx; colorspace := colorspace ctx;
     gop_size := gop_size ctx; extradata := extradata ctx;
     internal := internal ctx |}.

Definition set_time_base v (ctx : AVCodecContext St) : AVCodecContext St :=
  {| flags := flags ctx; priv_data := priv_data ctx;
     bit_rate := bit_rate ctx; rc_min_rate := rc_min_rate ctx;
     rc_max_rate := rc_max_rate ctx; rc_buffer_size := rc_buffer_size ctx;
     global_quality := global_quality ctx; width := width ctx;
     height := height ctx; time_base := v; pix_fmt := pix_fmt ctx;
     color_range := color_range ctx; color_trc := color_trc ctx;
     color_primaries := color_primaries ctx; colorspace := colorspace ctx;
     gop_size := gop_size ctx; extradata := extradata ctx;
     internal := internal ctx |}.

Definition set_pix_fmt v (ctx : AVCodecContext St) : AVCodecContext St :=
  {| flags := flags ctx; priv_data := priv_data ctx;
     bit_rate := bit_rate ctx; rc_min_rate := rc_min_rate ctx;
     rc_max_rate := rc_max_rate ctx; rc_buffer_size := rc_buffer_size ctx;
     global_quality := global_quality ctx; width := width ctx;
     height := height ctx; time_base := time_base ctx; pix_fmt := v;
     color_range := color_range ctx; color_trc := color_trc ctx;
     color_primaries := color_primaries ctx; colorspace := colorspace ctx;
     gop_size := gop_size ctx; extradata := extradata ctx;
     internal := internal ctx |}.

Definition set_color_range v (ctx : AVCodecContext St) : AVCodecContext St :=
  {| flags := flags ctx; priv_data := priv_data ctx;
     bit_rate := bit_rate ctx; rc_min_rate := rc_min_rate ctx;
     rc_max_rate := rc_max_rate ctx; rc_buffer_size := rc_buffer_size ctx;
     global_quality := global_quality ctx; width := width ctx;
     height := height ctx; time_base := time_base ctx;
     pix_fmt := pix_fmt ctx; color_range := v; color_trc := color_trc ctx;
     color_primaries := color_primaries ctx; colorspace := colorspace ctx;
     gop_size := gop_size ctx; extradata := extradata ctx;
     internal := internal ctx |}.

Definition set_color_trc v (ctx : AVCodecContext St) : AVCodecContext St :=
  {| flags := flags ctx; priv_data := priv_data ctx;
     bit_rate := bit_rate ctx; rc_min_rate := rc_min_rate ctx;
     rc_max_rate := rc_max_rate ctx; rc_buffer_size := rc_buffer_size ctx;
     global_quality := global_quality ctx; width := width ctx;
     height := height ctx; time_base := time_base ctx;
     pix_fmt := pix_fmt ctx; color_range := color_range ctx;
     color_trc := v; color_primaries := color_primaries ctx;
     colorspace := colorspace ctx; gop_size := gop_size ctx;
     extradata := extradata ctx; internal := internal ctx |}.

Definition set_color_primaries v (ctx : AVCodecContext St)
    : AVCodecContext St :=
  {| flags := flags ctx; priv_data := priv_data ctx;
     bit_rate := bit_rate ctx; rc_min_rate := rc_min_rate ctx;
     rc_max_rate := rc_max_rate ctx; rc_buffer_size := rc_buffer_size ctx;
     global_quality := global_quality ctx; width := width ctx;
     height := height ctx; time_base := time_base ctx;
     pix_fmt := pix_fmt ctx; color_range := color_range ctx;
     color_trc := color_trc ctx; color_primaries := v;
     colorspace := colorspace ctx; gop_size := gop_size ctx;
     extradata := extradata ctx; internal := internal ctx |}.

Definition set_colorspace v (ctx : AVCodecContext St) : AVCodecContext St :=
  {| flags := flags ctx; priv_data := priv_data ctx;
     bit_rate := bit_rate ctx; rc_min_rate := rc_min_rate ctx;
     rc_max_rate := rc_max_rate ctx; rc_buffer_size := rc_buffer_size ctx;
     global_quality := global_quality ctx; width := width ctx;
     height := height ctx; time_base := time_base ctx;
     pix_fmt := pix_fmt ctx; color_range := color_range ctx;
     color_trc := color_trc ctx; color_primaries := color_primaries ctx;
     colorspace := v; gop_size := gop_size ctx; extradata := extradata ctx;
     internal := internal ctx |}.

Definition set_gop_size v (ctx : AVCodecContext St) : AVCodecContext St :=
  {| flags := flags ctx; priv_data := priv_data ctx;
     bit_rate := bit_rate ctx; rc_min_rate := rc_min_rate ctx;
     rc_max_rate := rc_max_rate ctx; rc_buffer_size := rc_buffer_size ctx;
     global_quality := global_quality ctx; width := width ctx;
     height := height ctx; time_base := time_base ctx;
     pix_fmt := pix_fmt ctx; color_range := color_range ctx;
     color_trc := color_trc ctx; color_primaries := color_primaries ctx;
     colorspace := colorspace ctx; gop_size := v;
     extradata := extradata ctx; internal := internal ctx |}.

End context_assignment.

(** [struct AVPacket]: [pkt_data] holds the [size] bytes at [data]. *)
Record AVPacket : Type := {
  pkt_data : list byte;
  pkt_pts : Z;
  pkt_dts : Z;
  pkt_flags : Z
}.

Definition pkt_size (pkt : AVPacket) : Z := Z.of_nat (length (pkt_data pkt)).

(** [AVPacket pkt = {0}] *)
Definition blank_packet : AVPacket :=
  {| pkt_data := []; pkt_pts := 0; pkt_dts := 0; pkt_flags := 0 |}.

Definition AV_PKT_FLAG_KEY : Z := 1.
Definition AV_CODEC_FLAG_GLOBAL_HEADER : Z := Z.shiftl 1 22.

(** [struct AVFrame].  [vf_data] lists, plane by plane, the bytes from
    [data[plane]] to the end of the buffer behind it, and [vf_linesize] the
    row strides.  A plane the list does not reach has no buffer and stride
    zero. *)
Record AVFrame : Type := {
  vf_data : list (list byte);
  vf_linesize : list Z;           (* int linesize[] *)
  vf_format : AVPixelFormat;
  vf_width : Z;
  vf_height : Z;
  vf_colorspace : AVColorSpace;
  vf_color_range : AVColorRange;
  vf_pts : Z                      (* int64_t *)
}.

Definition set_vf_data v (x : AVFrame) : AVFrame :=
  {| vf_data := v; vf_linesize := vf_linesize x; vf_format := vf_format x;
     vf_width := vf_width x; vf_height := vf_height x;
     vf_colorspace := vf_colorspace x; vf_color_range := vf_color_range x;
     vf_pts := vf_pts x |}.

Definition set_vf_format v (x : AVFrame) : AVFrame :=
  {| vf_data := vf_data x; vf_linesize := vf_linesize x; vf_format := v;
     vf_width := vf_width x; vf_height := vf_height x;
     vf_colorspace := vf_colorspace x; vf_color_range := vf_color_range x;
     vf_pts := vf_pts x |}.

Definition set_vf_width v (x : AVFrame) : AVFrame :=
  {| vf_data := vf_data x; vf_linesize := vf_linesize x;
     vf_format := vf_format x; vf_width := v; vf_height := vf_height x;
     vf_colorspace := vf_colorspace x; vf_color_range := vf_color_range x;
     vf_pts := vf_pts x |}.

Definition set_vf_height v (x : AVFrame) : AVFrame :=
  {| vf_data := vf_data x; vf_linesize := vf_linesize x;
     vf_format := vf_format x; vf_width := vf_width x; vf_height := v;
     vf_colorspace := vf_colorspace x; vf_color_range := vf_color_range x;
     vf_pts := vf_pts x |}.

Definition set_vf_colorspace v (x : AVFrame) : AVFrame :=
  {| vf_data := vf_data x; vf_linesize := vf_linesize x;
     vf_format := vf_format x; vf_width := vf_width x;
     vf_height := vf_height x; vf_colorspace := v;
     vf_color_range := vf_color_range x; vf_pts := vf_pts x |}.

Definition set_vf_color_range v (x : AVFrame) : AVFrame :=
  {| vf_data := vf_data x; vf_linesize := vf_linesize x;
     vf_format := vf_format x; vf_width := vf_width x;
     vf_height := vf_height x; vf_colorspace := vf_colorspace x;
     vf_color_range := v; vf_pts := vf_pts x |}.

Definition set_vf_pts v (x : AVFrame) : AVFrame :=
  {| vf_data := vf_data x; vf_linesize := vf_linesize x;
     vf_format := vf_format x; vf_width := vf_width x;
     vf_height := vf_height x; vf_colorspace := vf_colorspace x;
     vf_color_range := vf_color_range x; vf_pts := v |}.

(** ** libobs frames and packets *)

(** [struct encoder_frame]: the caller's raw frame.  [ef_data] lists the
    plane pointers, [None] for [NULL]; a plane the list does not reach is
    [NULL] as well. *)
Record encoder_frame : Type := {
  ef_data : list (option (list byte));
  ef_linesize : list Z;           (* uint32_t linesize[MAX_AV_PLANES] *)
  ef_pts : Z                      (* int64_t *)
}.

Inductive obs_encoder_type : Type :=
  | OBS_ENCODER_AUDIO
  | OBS_ENCODER_VIDEO.

(** [struct encoder_packet], the fields [ffmpeg_amf_encode] fills.
    [ep_data] is a view of the session's output buffer. *)
Record encoder_packet : Type := {
  ep_data : list byte;
  ep_size : Z;                    (* size_t *)
  ep_pts : Z;
  ep_dts : Z;
  ep_type : obs_encoder_type;
  ep_keyframe : bool
}.

(** ** The adapter's state *)

(** [struct ffmpeg_amf_encoder].  A [DARRAY(uint8_t)] is the list of its
    [num] bytes. *)
Record ffmpeg_amf_encoder (St : Type) : Type := {
  encoder : obs_encoder_t;
  ffmpeg_amf : option AVCodec;
  context : option (AVCodecContext St);
  vframe : option AVFrame;
  buffer : list byte;
  header : list byte;
  enc_height : Z;                 (* int height *)
  first_packet : bool;
  initialized : bool
}.

Arguments encoder {St} _.
Arguments ffmpeg_amf {St} _.
Arguments context {St} _.
Arguments vframe {St} _.
Arguments buffer {St} _.
Arguments header {St} _.
Arguments enc_height {St} _.
Arguments first_packet {St} _.
Arguments initialized {St} _.

(** Assignment to one field of the adapter's state: [enc->field = v]. *)
Section encoder_assignment.
Context {St : Type}.

Definition with_encoder v (x : ffmpeg_amf_encoder St)
    : ffmpeg_amf_encoder St :=
  {| encoder := v; ffmpeg_amf := ffmpeg_amf x; context := context x;
     vframe := vframe x; buffer := buffer x; header := header x;
     enc_height := enc_height x; first_packet := first_packet x;
     initialized := initialized x |}.

Definition with_context v (x : ffmpeg_amf_encoder St)
    : ffmpeg_amf_encoder St :=
  {| encoder := encoder x; ffmpeg_amf := ffmpeg_amf x; context := v;
     vframe := vframe x; buffer := buffer x; header := header x;
     enc_height := enc_height x; first_packet := first_packet x;
     initialized := initialized x |}.

Definition with_vframe v (x : ffmpeg_amf_encoder St)
    : ffmpeg_amf_encoder St :=
  {| encoder := encoder x; ffmpeg_amf := ffmpeg_amf x;
     context := context x; vframe := v; buffer := buffer x;
     header := header x; enc_height := enc_height x;
     first_packet := first_packet x; initialized := initialized x |}.

Definition with_buffer v (x : ffmpeg_amf_encoder St)
    : ffmpeg_amf_encoder St :=
  {| encoder := encoder x; ffmpeg_amf := ffmpeg_amf x;
     context := context x; vframe := vframe x; buffer := v;
     header := header x; enc_height := enc_height x;
     first_packet := first_packet x; initialized := initialized x |}.

Definition with_header v (x : ffmpeg_amf_encoder St)
    : ffmpeg_amf_encoder St :=
  {| encoder := encoder x; ffmpeg_amf := ffmpeg_amf x;
     context := context x; vframe := vframe x; buffer := buffer x;
     header := v; enc_height := enc_height x;
     first_packet := first_packet x; initialized := initialized x |}.

Definition with_enc_height v (x : ffmpeg_amf_encoder St)
    : ffmpeg_amf_encoder St :=
  {| encoder := encoder x; ffmpeg_amf := ffmpeg_amf x;
     context := context x; vframe := vframe x; buffer := buffer x;
     header := header x; enc_height := v; first_packet := first_packet x;
     initialized := initialized x |}.

Definition with_first_packet v (x : ffmpeg_amf_encoder St)
    : ffmpeg_amf_encoder St :=
  {| encoder := encoder x; ffmpeg_amf := ffmpeg_amf x;
     context := context x; vframe := vframe x; buffer := buffer x;
     header := header x; enc_height := enc_height x; first_packet := v;
     initialized := initialized x |}.

Definition with_initialized v (x : ffmpeg_amf_encoder St)
    : ffmpeg_amf_encoder St :=
  {| encoder := encoder x; ffmpeg_amf := ffmpeg_amf x;
     context := context x; vframe := vframe x; buffer := buffer x;
     header := header x; enc_height := enc_height x;
     first_packet := first_packet x; initialized := v |}.

End encoder_assignment.

(** ** Allocation ledger *)

(** What a session can hold while it lives: the adapter's own structure
    ([bzalloc]), the session handle ([avcodec_alloc_context3]), the
    internal frame and its pixel buffers ([av_frame_alloc],
    [av_frame_get_buffer]) and the two byte arrays, which the encode calls
    fill.  The ledger of a session is the set of those it holds. *)
Inductive resource : Type :=
  | R_enc
  | R_context
  | R_vframe
  | R_vframe_data
  | R_buffer
  | R_header.

#[global] Instance resource_eq_dec : EqDecision resource.
Proof. solve_decision. Defined.

Definition resource_code (r : resource) : nat :=
  match r with
  | R_enc => 0 | R_context => 1 | R_vframe => 2
  | R_vframe_data => 3 | R_buffer => 4 | R_header => 5
  end%nat.

Definition resource_of_code (n : nat) : resource :=
  match n with
  | 0 => R_enc | 1 => R_context | 2 => R_vframe
  | 3 => R_vframe_data | 4 => R_buffer | _ => R_header
  end%nat.

#[global] Instance resource_countable : Countable resource.
Proof.
  apply (inj_countable' resource_code resource_of_code).
  intros []; reflexivity.
Defined.

(** Every resource of a session. *)
Definition session_resources : gset resource :=
  {[ R_enc; R_context; R_vframe; R_vframe_data; R_buffer; R_header ]}.

(** ** The collaborators *)

(** [AV_VERSION_INT(a, b, c)] of libavutil. *)
Definition AV_VERSION_INT (a b c : Z) : Z :=
  Z.lor (Z.shiftl a 16) (Z.lor (Z.shiftl b 8) c).

(** [MKTAG] and [AVERROR_EOF] of libavutil. *)
Definition MKTAG (a b c d : ascii) : Z :=
  Z.lor (Z.of_nat (nat_of_ascii a))
    (Z.lor (Z.shiftl (Z.of_nat (nat_of_ascii b)) 8)
       (Z.lor (Z.shiftl (Z.of_nat (nat_of_ascii c)) 16)
          (Z.shiftl (Z.of_nat (nat_of_ascii d)) 24))).

Definition AVERROR_EOF : Z := - MKTAG "E" "O" "F" " ".

(** What the adapter calls and does not define.  The two version numbers
    are those of the libavcodec and libavformat headers the file is built
    against; [EAGAIN] is the platform's [errno] value and [MAX_AV_PLANES]
    the number of planes libobs gives a frame.  A libavcodec call
    on a context answers its [int] and the context as the call leaves it;
    the retrieval calls also answer the packet they fill.
    [av_pix_fmt_get_chroma_sub_sample] answers the horizontal and the
    vertical shift, and nothing for a format it does not know.
    [nvenc_error_text] is the text lines 96 to 104 assemble from
    [obs_module_text], [dstr_replace], [dstr_cat] and [av_err2str]. *)
Class Externals (St : Type) : Type := {
  LIBAVCODEC_VERSION_INT : Z;
  LIBAVFORMAT_VERSION_INT : Z;
  EAGAIN : Z;
  MAX_AV_PLANES : nat;
  base_get_alignment : Z;
  obs_to_ffmpeg_video_format : video_format -> AVPixelFormat;
  av_pix_fmt_get_chroma_sub_sample : AVPixelFormat -> option (Z * Z);
  nvenc_error_text : Z -> string;
  avcodec_find_encoder_by_name : string -> option AVCodec;
  avcodec_alloc_context3 : AVCodec -> option (AVCodecContext St);
  avcodec_open2 :
    AVCodecContext St -> option AVCodec -> Z * AVCodecContext St;
  av_frame_alloc : option AVFrame;
  av_frame_get_buffer : AVFrame -> Z -> Z * AVFrame;
  avcodec_send_frame :
    AVCodecContext St -> AVFrame -> Z * AVCodecContext St;
  avcodec_receive_packet :
    AVCodecContext St -> Z * AVPacket * AVCodecContext St;
  avcodec_encode_video2 :
    AVCodecContext St -> option AVFrame ->
    Z * AVPacket * Z * AVCodecContext St
}.

(** [AVERROR(e)] *)
Definition AVERROR (e : Z) : Z := - e.

(** The build has [avcodec_send_frame] and [avcodec_receive_packet]. *)
Definition send_receive_api {St} `{Externals St} : bool :=
  AV_VERSION_INT 57 40 101 <=? LIBAVFORMAT_VERSION_INT.

(** The build lets the rates of an open context change. *)
Definition dynamic_bitrate_api {St} `{Externals St} : bool :=
  AV_VERSION_INT 58 19 101 <=? LIBAVCODEC_VERSION_INT.

(** [av_opt_set(ctx->priv_data, name, val, 0)] and [av_opt_set_int]; the
    adapter ignores what they return. *)
Definition av_opt_set {St} (name val : string) (ctx : AVCodecContext St)
    : AVCodecContext St :=
  set_priv_data ((name, opt_string val) :: priv_data ctx) ctx.

Definition av_opt_set_int {St} (name : string) (val : Z)
    (ctx : AVCodecContext St) : AVCodecContext St :=
  set_priv_data ((name, opt_int val) :: priv_data ctx) ctx.

(** ** Session configurator *)

Section adapter.
Context {St : Type} `{Ext : Externals St}.

Definition valid_format (format : video_format) : bool :=
  match format with
  | VIDEO_FORMAT_I420 | VIDEO_FORMAT_NV12 => true
  | VIDEO_FORMAT_unlisted _ => false
  end.

Definition ffmpeg_amf_video_info (enc : ffmpeg_amf_encoder St)
    (info : video_scale_info) : video_scale_info :=
  let pref_format :=
    obs_encoder_get_preferred_video_format (encoder enc) in
  let pref_format :=
    if negb (valid_format pref_format)
    then (if valid_format (info_format info)
          then info_format info else VIDEO_FORMAT_NV12)
    else pref_format in
  {| info_format := pref_format;
     info_range := info_range info;
     info_colorspace := info_colorspace info |}.

(** The rate-control part of [ffmpeg_amf_update], lines 161 to 179: the
    context and the value of the local [bitrate] it leaves. *)
Definition update_rate_control (rc : string) (bitrate cqp : Z)
    (ctx : AVCodecContext St) : Z * AVCodecContext St :=
  if astrcmpi rc "cqp" =? 0 then
    let ctx := av_opt_set "rc" "cqp" ctx in
    (0, set_global_quality cqp ctx)
  else
    let rate := to_int64 (bitrate * 1000) in
    let ctx :=
      if astrcmpi rc "vbr" =? 0 then av_opt_set "rc" "vbr_peak" ctx
      else (* CBR by default *)
        set_rc_min_rate rate (av_opt_set "rc" "cbr" ctx) in
    (bitrate, set_rc_max_rate rate ctx).

(** The colour part, lines 195 to 212. *)
Definition update_colorspace (cs : video_colorspace)
    (ctx : AVCodecContext St) : AVCodecContext St :=
  match cs with
  | VIDEO_CS_601 =>
      set_colorspace AVCOL_SPC_SMPTE170M
        (set_color_primaries AVCOL_PRI_SMPTE170M
           (set_color_trc AVCOL_TRC_SMPTE170M ctx))
  | VIDEO_CS_DEFAULT | VIDEO_CS_709 =>
      set_colorspace AVCOL_SPC_BT709
        (set_color_primaries AVCOL_PRI_BT709
           (set_color_trc AVCOL_TRC_BT709 ctx))
  | VIDEO_CS_SRGB =>
      set_colorspace AVCOL_SPC_BT709
        (set_color_primaries AVCOL_PRI_BT709
           (set_color_trc AVCOL_TRC_IEC61966_2_1 ctx))
  | VIDEO_CS_unlisted _ => ctx
  end.

(** The keyframe interval, lines 214 to 218.  [keyint_sec] is an [int]
    and the two frame-rate fields are [uint32_t]: the product and the
    quotient are computed in [unsigned int], and the quotient is stored
    in the [int] field.  A zero denominator has no quotient. *)
Definition update_gop_size (keyint_sec : Z) (voi : video_output_info)
    (ctx : AVCodecContext St) : option (AVCodecContext St) :=
  if negb (keyint_sec =? 0) then
    if fps_den voi =? 0 then None
    else
      Some (set_gop_size
              (to_int (to_uint32 (to_uint32 keyint_sec * fps_num voi)
                       / fps_den voi)) ctx)
  else Some (set_gop_size 250 ctx).

(** [ffmpeg_amf_update] up to its last statement (lines 140 to 232):
    every assignment the function makes before it hands the context to
    [ffmpeg_amf_init_codec].  The locals [cqp] and [bitrate] only feed
    the log after line 186.  The two fields of the time base are [int]s
    and take the [uint32_t] frame-rate fields by conversion.  Line 184
    multiplies two [int]s: the definition stores the product as the [int]
    it wraps to, which is the product itself whenever that fits an [int];
    where it does not fit the C multiplication has no defined value, and
    what is proved of [bit_rate] and [rc_buffer_size] is stated for
    products that fit. *)
Definition ffmpeg_amf_update_settings (enc : ffmpeg_amf_encoder St)
    (settings : gmap string obs_data_item)
    : option (ffmpeg_amf_encoder St) :=
  let rc := obs_data_get_string settings "rate_control" in
  let bitrate := to_int (obs_data_get_int settings "bitrate") in
  let cqp := to_int (obs_data_get_int settings "cqp") in
  let keyint_sec := to_int (obs_data_get_int settings "keyint_sec") in
  let preset := obs_data_get_string settings "preset" in
  let profile := obs_data_get_string settings "profile" in
  let voi := obs_encoder_video (encoder enc) in
  let info :=
    {| info_format := voi_format voi;
       info_range := voi_range voi;
       info_colorspace := voi_colorspace voi |} in
  let info := ffmpeg_amf_video_info enc info in
  ctx ← context enc;
  let ctx := av_opt_set "profile" profile ctx in
  let ctx := av_opt_set "preset" preset ctx in
  let '(bitrate, ctx) := update_rate_control rc bitrate cqp ctx in
  let ctx := av_opt_set "level" "auto" ctx in
  let ctx := av_opt_set_int "2pass" 0 ctx in
  let rate := to_int (bitrate * 1000) in
  let ctx := set_bit_rate rate ctx in
  let ctx := set_rc_buffer_size rate ctx in
  let ctx := set_width (to_int (obs_encoder_get_width (encoder enc))) ctx in
  let ctx :=
    set_height (to_int (obs_encoder_get_height (encoder enc))) ctx in
  let ctx :=
    set_time_base (to_int (fps_den voi), to_int (fps_num voi)) ctx in
  let ctx :=
    set_pix_fmt (obs_to_ffmpeg_video_format (info_format info)) ctx in
  let ctx :=
    set_color_range
      (match info_range info with
       | VIDEO_RANGE_FULL => AVCOL_RANGE_JPEG
       | _ => AVCOL_RANGE_MPEG
       end) ctx in
  let ctx := update_colorspace (info_colorspace info) ctx in
  ctx ← update_gop_size keyint_sec voi ctx;
  Some (with_enc_height (height ctx) (with_context (Some ctx) enc)).

(** [ffmpeg_amf_init_codec]: opens the session and allocates the frame
    buffer.  The answer carries the [bool] the C function returns. *)
Definition ffmpeg_amf_init_codec (enc : ffmpeg_amf_encoder St)
    (heap : gset resource)
    : option (bool * ffmpeg_amf_encoder St * gset resource) :=
  ctx ← context enc;
  let ctx :=
    set_flags (Z.lor (flags ctx) AV_CODEC_FLAG_GLOBAL_HEADER) ctx in
  let '(ret, ctx) := avcodec_open2 ctx (ffmpeg_amf enc) in
  let enc := with_context (Some ctx) enc in
  if ret <? 0 then
    let enc :=
      match obs_encoder_get_last_error (encoder enc) with
      | None =>
          with_encoder
            (obs_encoder_set_last_error (encoder enc)
               (nvenc_error_text ret)) enc
      | Some _ => enc
      end in
    Some (false, enc, heap)
  else
    match av_frame_alloc with
    | None => Some (false, with_vframe None enc, heap)
    | Some vf =>
        let heap := {[ R_vframe ]} ∪ heap in
        let vf := set_vf_format (pix_fmt ctx) vf in
        let vf := set_vf_width (width ctx) vf in
        let vf := set_vf_height (height ctx) vf in
        let vf := set_vf_colorspace (colorspace ctx) vf in
        let vf := set_vf_color_range (color_range ctx) vf in
        let '(ret, vf) := av_frame_get_buffer vf base_get_alignment in
        let enc := with_vframe (Some vf) enc in
        if ret <? 0 then Some (false, enc, heap)
        else
          Some (true, with_initialized true enc,
                {[ R_vframe_data ]} ∪ heap)
    end.

(** [ffmpeg_amf_update] *)
Definition ffmpeg_amf_update (enc : ffmpeg_amf_encoder St)
    (settings : gmap string obs_data_item) (heap : gset resource)
    : option (bool * ffmpeg_amf_encoder St * gset resource) :=
  enc ← ffmpeg_amf_update_settings enc settings;
  ffmpeg_amf_init_codec enc heap.

(** ** Reconfiguration *)

(** [ffmpeg_amf_reconfigure]: here [bitrate] is the [int64_t] the
    settings hold and the product is an [int64_t] one. *)
Definition ffmpeg_amf_reconfigure (enc : ffmpeg_amf_encoder St)
    (settings : gmap string obs_data_item)
    : option (bool * ffmpeg_amf_encoder St) :=
  if dynamic_bitrate_api then
    let bitrate := obs_data_get_int settings "bitrate" in
    let rc := obs_data_get_string settings "rate_control" in
    let cbr := astrcmpi rc "CBR" =? 0 in
    let vbr := astrcmpi rc "VBR" =? 0 in
    if cbr || vbr then
      ctx ← context enc;
      let rate := to_int64 (bitrate * 1000) in
      let ctx := set_bit_rate rate ctx in
      let ctx := set_rc_max_rate rate ctx in
      Some (true, with_context (Some ctx) enc)
    else Some (true, enc)
  else Some (true, enc).

End adapter.

(** ** Pixel plane copier *)

(** [memcpy(dst + pos_dst, src + pos_src, n)] on the bytes of two buffers:
    the destination with [n] bytes replaced.  A negative position or
    count, or a range that leaves one of the buffers, has no result. *)
Definition memcpy (dst : list byte) (pos_dst : Z) (src : list byte)
    (pos_src : Z) (n : Z) : option (list byte) :=
  if decide (0 <= n /\ 0 <= pos_dst /\ 0 <= pos_src /\
             pos_dst + n <= Z.of_nat (length dst) /\
             pos_src + n <= Z.of_nat (length src))
  then
    Some (take (Z.to_nat pos_dst) dst
          ++ take (Z.to_nat n) (drop (Z.to_nat pos_src) src)
          ++ drop (Z.to_nat (pos_dst + n)) dst)
  else None.

(** The row loop of [copy_data], lines 354 to 360, from row [y] on for
    [rows] rows. *)
Fixpoint copy_rows (rows : nat) (y : Z) (pic_plane frame_plane : list byte)
    (pic_rowsize frame_rowsize bytes : Z) : option (list byte) :=
  match rows with
  | O => Some pic_plane
  | S rows =>
      let pos_frame := to_int (y * frame_rowsize) in
      let pos_pic := to_int (y * pic_rowsize) in
      pic_plane ← memcpy pic_plane pos_pic frame_plane pos_frame bytes;
      copy_rows rows (y + 1) pic_plane frame_plane
        pic_rowsize frame_rowsize bytes
  end.

(** [int plane_height = height >> (plane ? v_chroma_shift : 0)] *)
Definition plane_height (height : Z) (plane : nat) (v_chroma_shift : Z) : Z :=
  Z.shiftr height (match plane with O => 0 | S _ => v_chroma_shift end).

(** [(int)frame->linesize[plane]] *)
Definition frame_rowsize (frame : encoder_frame) (plane : nat) : Z :=
  to_int (default 0 (ef_linesize frame !! plane)).

(** [pic->linesize[plane]] *)
Definition pic_rowsize (pic : AVFrame) (plane : nat) : Z :=
  default 0 (vf_linesize pic !! plane).

(** [int bytes = frame_rowsize < pic_rowsize ? frame_rowsize : pic_rowsize] *)
Definition row_bytes (pic : AVFrame) (frame : encoder_frame) (plane : nat)
    : Z :=
  if frame_rowsize frame plane <? pic_rowsize pic plane
  then frame_rowsize frame plane else pic_rowsize pic plane.

(** The plane loop of [copy_data], lines 344 to 361, from plane [plane] on
    for [planes] planes. *)
Fixpoint copy_planes (planes : nat) (plane : nat) (pic : AVFrame)
    (frame : encoder_frame) (height v_chroma_shift : Z) : option AVFrame :=
  match planes with
  | O => Some pic
  | S planes =>
      match ef_data frame !! plane with
      | Some (Some src) =>
          dst ← copy_rows
                  (Z.to_nat (plane_height height plane v_chroma_shift)) 0
                  (default [] (vf_data pic !! plane)) src
                  (pic_rowsize pic plane) (frame_rowsize frame plane)
                  (row_bytes pic frame plane);
          copy_planes planes (S plane)
            (set_vf_data (<[plane := dst]> (vf_data pic)) pic)
            frame height v_chroma_shift
      | _ => copy_planes planes (S plane) pic frame height v_chroma_shift
      end
  end.

Section encode_loop.
Context {St : Type} `{Ext : Externals St}.

(** [copy_data] *)
Definition copy_data (pic : AVFrame) (frame : encoder_frame) (height : Z)
    (format : AVPixelFormat) : option AVFrame :=
  '(h_chroma_shift, v_chroma_shift) ←
    av_pix_fmt_get_chroma_sub_sample format;
  copy_planes MAX_AV_PLANES 0 pic frame height v_chroma_shift.

(** ** Encode loop *)

(** Submission and retrieval, lines 378 to 390: the [ret] and [got_packet]
    the calls leave, the packet, and the context. *)
Definition submit_and_receive (ctx : AVCodecContext St) (vframe : AVFrame)
    : Z * bool * AVPacket * AVCodecContext St :=
  if send_receive_api then
    let '(ret, ctx) := avcodec_send_frame ctx vframe in
    let '(ret, av_pkt, ctx) :=
      if ret =? 0 then avcodec_receive_packet ctx
      else (ret, blank_packet, ctx) in
    let got_packet := ret =? 0 in
    let ret :=
      if (ret =? AVERROR_EOF) || (ret =? AVERROR EAGAIN) then 0 else ret in
    (ret, got_packet, av_pkt, ctx)
  else
    let '(ret, av_pkt, got_packet, ctx) :=
      avcodec_encode_video2 ctx (Some vframe) in
    (ret, negb (got_packet =? 0), av_pkt, ctx).

(** [ffmpeg_amf_encode].  The answer is the [bool] the C function returns,
    the session, and the caller's [*packet] and [*received_packet] as the
    call leaves them. *)
Definition ffmpeg_amf_encode (enc : ffmpeg_amf_encoder St)
    (frame : encoder_frame) (packet : encoder_packet)
    (received_packet : bool)
    : option (bool * ffmpeg_amf_encoder St * encoder_packet * bool) :=
  ctx ← context enc;
  pic ← vframe enc;
  pic ← copy_data pic frame (enc_height enc) (pix_fmt ctx);
  let pic := set_vf_pts (ef_pts frame) pic in
  let '(ret, got_packet, av_pkt, ctx) := submit_and_receive ctx pic in
  let enc := with_vframe (Some pic) (with_context (Some ctx) enc) in
  if ret <? 0 then Some (false, enc, packet, received_packet)
  else if got_packet && negb (pkt_size av_pkt =? 0) then
    let enc :=
      if first_packet enc then
        let enc :=
          if negb (Z.of_nat (length (extradata ctx)) =? 0)
          then with_header (extradata ctx) enc
          else enc in
        with_first_packet false enc
      else enc in
    let enc := with_buffer (pkt_data av_pkt) enc in
    let packet :=
      {| ep_data := buffer enc;
         ep_size := Z.of_nat (length (buffer enc));
         ep_pts := pkt_pts av_pkt;
         ep_dts := pkt_dts av_pkt;
         ep_type := OBS_ENCODER_VIDEO;
         ep_keyframe := negb (Z.land (pkt_flags av_pkt) AV_PKT_FLAG_KEY =? 0)
      |} in
    Some (true, enc, packet, true)
  else Some (true, enc, packet, false).

(** [ffmpeg_amf_extra_data] *)
Definition ffmpeg_amf_extra_data (enc : ffmpeg_amf_encoder St)
    : bool * list byte * Z :=
  (true, header enc, Z.of_nat (length (header enc))).

(** ** Teardown *)

(** The [while (r_pkt)] loop of [ffmpeg_amf_destroy], lines 263 to 275.
    Every turn asks the session for a packet and drops the packet it gets.
    The answer lists the dropped packets.  [fuel] bounds the number of
    turns: the loop itself runs for as long as the session keeps answering
    with packets. *)
Fixpoint flush_packets (fuel : nat) (ctx : AVCodecContext St) (r_pkt : Z)
    : option (list AVPacket * AVCodecContext St) :=
  match fuel with
  | O => None
  | S fuel =>
      if r_pkt =? 0 then Some ([], ctx)
      else if send_receive_api then
        let '(ret, pkt, ctx) := avcodec_receive_packet ctx in
        if ret <? 0 then Some ([], ctx)
        else
          '(dropped, ctx) ← flush_packets fuel ctx r_pkt;
          Some (pkt :: dropped, ctx)         (* av_packet_unref(&pkt) *)
      else
        let '(ret, pkt, r_pkt, ctx) := avcodec_encode_video2 ctx None in
        if ret <? 0 then Some ([], ctx)
        else if negb (r_pkt =? 0) then
          '(dropped, ctx) ← flush_packets fuel ctx r_pkt;
          Some (pkt :: dropped, ctx)         (* av_packet_unref(&pkt) *)
        else flush_packets fuel ctx r_pkt
  end.

(** [ffmpeg_amf_destroy].  The answer lists the packets the flush dropped
    and the ledger after the releases.  [avcodec_close] closes the session
    and leaves the structure [avcodec_alloc_context3] handed out where it
    is: the function has no call that gives that structure back, so
    [R_context] stays on the ledger.  [av_frame_unref] and [av_frame_free]
    release the buffers and the frame the session points to, and do
    nothing for a null pointer.  The two arrays and the structure of the
    adapter are released whatever they hold. *)
Definition ffmpeg_amf_destroy (fuel : nat) (enc : ffmpeg_amf_encoder St)
    (heap : gset resource) : option (list AVPacket * gset resource) :=
  dropped ←
    (if initialized enc then
       ctx ← context enc;
       '(dropped, _) ← flush_packets fuel ctx 1;
       Some dropped
     else Some []);
  (* avcodec_close(enc->context): no release *)
  let heap :=                                (* av_frame_unref *)
    match vframe enc with
    | Some _ => heap ∖ {[ R_vframe_data ]}
    | None => heap
    end in
  let heap :=                                (* av_frame_free *)
    match vframe enc with
    | Some _ => heap ∖ {[ R_vframe ]}
    | None => heap
    end in
  let heap := heap ∖ {[ R_buffer ]} in       (* da_free(enc->buffer) *)
  let heap := heap ∖ {[ R_header ]} in       (* da_free(enc->header) *)
  let heap := heap ∖ {[ R_enc ]} in          (* bfree(enc) *)
  Some (dropped, heap).

(** ** Creation *)

(** The structure [bzalloc] hands out, with the three assignments that
    follow it (lines 296 to 300). *)
Definition new_encoder (encoder : obs_encoder_t) (hevc : bool)
    : ffmpeg_amf_encoder St :=
  {| encoder := encoder;
     ffmpeg_amf :=
       avcodec_find_encoder_by_name
         (if hevc then "hevc_amf" else "h264_amf");
     context := None;
     vframe := None;
     buffer := [];
     header := [];
     enc_height := 0;
     first_packet := true;
     initialized := false |}.

(** The [fail] label of [ffmpeg_amf_create], lines 322 to 324: the
    session built so far is destroyed and the answer is [NULL]. *)
Definition fail_label (fuel : nat) (enc : ffmpeg_amf_encoder St)
    (heap : gset resource)
    : option (option (ffmpeg_amf_encoder St) * gset resource) :=
  '(_, heap) ← ffmpeg_amf_destroy fuel enc heap;
  Some (None, heap).

(** [ffmpeg_amf_create].  The answer is the session, or [None] for
    [NULL], and the ledger of what the new session holds.  [fuel] is that
    of the destroy call of the [fail] label. *)
Definition ffmpeg_amf_create (fuel : nat)
    (settings : gmap string obs_data_item) (encoder : obs_encoder_t)
    (hevc : bool)
    : option (option (ffmpeg_amf_encoder St) * gset resource) :=
  let enc := new_encoder encoder hevc in
  let heap : gset resource := {[ R_enc ]} in
  match ffmpeg_amf enc with
  | None =>
      fail_label fuel
        (with_encoder
           (obs_encoder_set_last_error encoder "Couldn't find AMF encoder")
           enc) heap
  | Some codec =>
      match avcodec_alloc_context3 codec with
      | None => fail_label fuel enc heap
      | Some ctx =>
          let enc := with_context (Some ctx) enc in
          let heap := {[ R_context ]} ∪ heap in
          '(ok, enc, heap) ← ffmpeg_amf_update enc settings heap;
          if ok : bool then Some (Some enc, heap)
          else fail_label fuel enc heap
      end
  end.

End encode_loop.

(** ** What the spec says of the keyframe interval *)

(** Rounding of the quotient [a / b] of two positive integers to the
    nearest integer, halves upwards. *)
Definition round_div (a b : Z) : Z := (2 * a + b) / (2 * b).

(** The keyframe interval as the spec words it:
    [round(keyint_seconds * frame_rate_num / frame_rate_den)], and 250
    frames for zero seconds. *)
Definition spec_gop_size (keyint_sec num den : Z) : Z :=
  if keyint_sec =? 0 then 250 else round_div (keyint_sec * num) den.

(** The quotient of [keyint_sec * num] by [den] in arithmetic modulo
    [2 ^ 32], the fraction dropped: what [unsigned int] arithmetic gives
    for an [int] and two [uint32_t]. *)
Definition unsigned_quotient (keyint_sec num den : Z) : Z :=
  (keyint_sec mod 2 ^ 32 * num) mod 2 ^ 32 / den.

(** ** A scripted session

    A stand-in for libavcodec used to run the adapter on concrete inputs:
    the session answers its submit and retrieval calls from two scripts
    kept behind the context. *)

Record script : Type := {
  send_answers : list Z;
  receive_answers : list (Z * AVPacket)
}.

Definition set_internal {St St'} (st : St') (ctx : AVCodecContext St)
    : AVCodecContext St' :=
  {| flags := flags ctx; priv_data := priv_data ctx;
     bit_rate := bit_rate ctx; rc_min_rate := rc_min_rate ctx;
     rc_max_rate := rc_max_rate ctx; rc_buffer_size := rc_buffer_size ctx;
     global_quality := global_quality ctx; width := width ctx;
     height := height ctx; time_base := time_base ctx;
     pix_fmt := pix_fmt ctx; color_range := color_range ctx;
     color_trc := color_trc ctx; color_primaries := color_primaries ctx;
     colorspace := colorspace ctx; gop_size := gop_size ctx;
     extradata := extradata ctx; internal := st |}.

Definition set_extradata {St} (bytes : list byte) (ctx : AVCodecContext St)
    : AVCodecContext St :=
  {| flags := flags ctx; priv_data := priv_data ctx;
     bit_rate := bit_rate ctx; rc_min_rate := rc_min_rate ctx;
     rc_max_rate := rc_max_rate ctx; rc_buffer_size := rc_buffer_size ctx;
     global_quality := global_quality ctx; width := width ctx;
     height := height ctx; time_base := time_base ctx;
     pix_fmt := pix_fmt ctx; color_range := color_range ctx;
     color_trc := color_trc ctx; color_primaries := color_primaries ctx;
     colorspace := colorspace ctx; gop_size := gop_size ctx;
     extradata := bytes; internal := internal ctx |}.

Definition scripted_context (st : script) : AVCodecContext script :=
  {| flags := 0; priv_data := [];
     bit_rate := 0; rc_min_rate := 0; rc_max_rate := 0; rc_buffer_size := 0;
     global_quality := 0; width := 0; height := 0; time_base := (0, 1);
     pix_fmt := -1; color_range := AVCOL_RANGE_UNSPECIFIED;
     color_trc := AVCOL_TRC_UNSPECIFIED;
     color_primaries := AVCOL_PRI_UNSPECIFIED;
     colorspace := AVCOL_SPC_UNSPECIFIED; gop_size := 12;
     extradata := []; internal := st |}.

Definition scripted_send (ctx : AVCodecContext script) (_ : AVFrame)
    : Z * AVCodecContext script :=
  match send_answers (internal ctx) with
  | [] => (0, ctx)
  | ret :: rest =>
      (ret, set_internal
              {| send_answers := rest;
                 receive_answers := receive_answers (internal ctx) |} ctx)
  end.

Definition scripted_receive (ctx : AVCodecContext script)
    : Z * AVPacket * AVCodecContext script :=
  match receive_answers (internal ctx) with
  | [] => (AVERROR_EOF, blank_packet, ctx)
  | (ret, pkt) :: rest =>
      (ret, pkt,
       set_internal
         {| send_answers := send_answers (internal ctx);
            receive_answers := rest |} ctx)
  end.

Definition blank_frame : AVFrame :=
  {| vf_data := []; vf_linesize := []; vf_format := -1; vf_width := 0;
     vf_height := 0; vf_colorspace := AVCOL_SPC_UNSPECIFIED;
     vf_color_range := AVCOL_RANGE_UNSPECIFIED; vf_pts := 0 |}.

(** Two planes of zero bytes, the second of half the height, rows as wide
    as the picture. *)
Definition scripted_get_buffer (vf : AVFrame) (align : Z) : Z * AVFrame :=
  let w := vf_width vf in
  let h := vf_height vf in
  (0, {| vf_data := [repeat Byte.x00 (Z.to_nat (w * h));
                     repeat Byte.x00 (Z.to_nat (w * Z.shiftr h 1))];
         vf_linesize := [w; w];
         vf_format := vf_format vf; vf_width := w; vf_height := h;
         vf_colorspace := vf_colorspace vf;
         vf_color_range := vf_color_range vf; vf_pts := vf_pts vf |}).

(** The session of a build against FFmpeg 5.1 on a platform whose
    [EAGAIN] is 11.  [found] tells whether the AMF encoders are there,
    [open_ret] is what [avcodec_open2] answers, [sps] are the header bytes
    an open session shows and [st] the scripts a fresh one starts with. *)
Definition scripted_build (found : bool) (open_ret : Z) (sps : list byte)
    (st : script) : Externals script :=
  {| LIBAVCODEC_VERSION_INT := AV_VERSION_INT 59 37 100;
     LIBAVFORMAT_VERSION_INT := AV_VERSION_INT 59 27 100;
     EAGAIN := 11;
     MAX_AV_PLANES := 8;
     base_get_alignment := 32;
     obs_to_ffmpeg_video_format := fun f =>
       match f with
       | VIDEO_FORMAT_I420 => 0
       | VIDEO_FORMAT_NV12 => 23
       | VIDEO_FORMAT_unlisted _ => -1
       end;
     av_pix_fmt_get_chroma_sub_sample := fun f =>
       if (f =? 0) || (f =? 23) then Some (1, 1) else None;
     nvenc_error_text := fun _ => "NVENC.Error";
     avcodec_find_encoder_by_name := fun name =>
       if found then Some {| codec_name := name |} else None;
     avcodec_alloc_context3 := fun _ => Some (scripted_context st);
     avcodec_open2 := fun ctx _ => (open_ret, set_extradata sps ctx);
     av_frame_alloc := Some blank_frame;
     av_frame_get_buffer := scripted_get_buffer;
     avcodec_send_frame := scripted_send;
     avcodec_receive_packet := scripted_receive;
     avcodec_encode_video2 := fun ctx _ => (0, blank_packet, 0, ctx) |}.

Definition scripted (sps : list byte) (st : script) : Externals script :=
  scripted_build true 0 sps st.

(** A host encoder of 4 by 2 pixels at 30000/1001 frames a second. *)
Definition ntsc_encoder : obs_encoder_t :=
  {| obs_encoder_get_preferred_video_format := VIDEO_FORMAT_NV12;
     obs_encoder_video :=
       {| voi_format := VIDEO_FORMAT_NV12; fps_num := 30000; fps_den := 1001;
          voi_colorspace := VIDEO_CS_709; voi_range := VIDEO_RANGE_PARTIAL |};
     obs_encoder_get_width := 4;
     obs_encoder_get_height := 2;
     obs_encoder_get_last_error := None |}.

Definition make_settings (rc : string) (bitrate cqp keyint_sec : Z)
    : gmap string obs_data_item :=
  <["rate_control" := OBS_DATA_STRING rc]>
    (<["bitrate" := OBS_DATA_NUMBER bitrate]>
       (<["cqp" := OBS_DATA_NUMBER cqp]>
          (<["keyint_sec" := OBS_DATA_NUMBER keyint_sec]>
             (<["preset" := OBS_DATA_STRING "quality"]>
                (<["profile" := OBS_DATA_STRING "high"]> ∅))))).

(** A session structure that holds a fresh context and nothing else. *)
Definition allocated_encoder (st : script) : ffmpeg_amf_encoder script :=
  {| encoder := ntsc_encoder;
     ffmpeg_amf := Some {| codec_name := "h264_amf" |};
     context := Some (scripted_context st);
     vframe := None; buffer := []; header := []; enc_height := 0;
     first_packet := true; initialized := false |}.

Definition no_script : script :=
  {| send_answers := []; receive_answers := [] |}.

(** ** The configurator on the scripted session *)

Definition cbr_2500 : gmap string obs_data_item :=
  make_settings "CBR" 2500 20 2.

Definition cqp_2500 : gmap string obs_data_item :=
  make_settings "CQP" 2500 20 2.

Definition cbr_6000 : gmap string obs_data_item :=
  make_settings "CBR" 6000 20 2.

(** The context and the session structure that configuring
    [allocated_encoder] with [cbr_2500] leaves. *)
Definition cbr_context : AVCodecContext script := Eval vm_compute in
    default (scripted_context no_script)
      (@ffmpeg_amf_update_settings script (scripted [] no_script)
         (allocated_encoder no_script) cbr_2500 ≫= context).

Definition cbr_session : ffmpeg_amf_encoder script :=
  with_enc_height 2
    (with_context (Some cbr_context) (allocated_encoder no_script)).

(** ** What the plane copier is to do *)

(** The bytes of one plane after the copy: [ph] rows of [bytes] bytes
    taken from the source, row [y] read at [y * fr] and written at
    [y * pr]; every other byte of the destination as it was. *)
Definition plane_copied (dst' dst src : list byte) (pr fr bytes ph : Z)
    : Prop :=
  length dst' = length dst /\
  (forall y x, 0 <= y < ph -> 0 <= x < bytes ->
     is_Some (src !! Z.to_nat (y * fr + x)) /\
     dst' !! Z.to_nat (y * pr + x) = src !! Z.to_nat (y * fr + x)) /\
  (forall i : nat,
     (forall y x, 0 <= y < ph -> 0 <= x < bytes -> Z.of_nat i <> y * pr + x) ->
     dst' !! i = dst !! i).

(** Two buffers that hold the [ph] rows the copy touches, with strides
    [pr] and [fr] that are [int]s along with every row offset: the last
    row needs no more than the bytes copied from it. *)
Definition plane_fits (dst src : list byte) (pr fr ph : Z) : Prop :=
  0 <= fr /\ 0 <= pr /\
  ph * fr <= INT_MAX /\ ph * pr <= INT_MAX /\
  (0 < ph ->
     (ph - 1) * pr + Z.min fr pr <= Z.of_nat (length dst) /\
     (ph - 1) * fr + Z.min fr pr <= Z.of_nat (length src)).

(** Every plane the source has fits. *)
Definition frame_fits {St} `{Externals St} (pic : AVFrame)
    (frame : encoder_frame) (height v_chroma_shift : Z) : Prop :=
  forall (plane : nat) (src : list byte),
    (plane < MAX_AV_PLANES)%nat ->
    ef_data frame !! plane = Some (Some src) ->
    plane_fits (default [] (vf_data pic !! plane)) src
      (pic_rowsize pic plane) (frame_rowsize frame plane)
      (plane_height height plane v_chroma_shift).

(** ** A frame of 4 by 2 pixels

    The caller's rows are 4 bytes apart, those of the internal frame 8:
    a luma plane of two rows and a chroma plane of one. *)

Definition luma : list byte :=
  [Byte.x01; Byte.x02; Byte.x03; Byte.x04;
   Byte.x05; Byte.x06; Byte.x07; Byte.x08].

Definition chroma : list byte := [Byte.x09; Byte.x0a; Byte.x0b; Byte.x0c].

Definition nv12_frame : encoder_frame :=
  {| ef_data := [Some luma; Some chroma; None];
     ef_linesize := [4; 4; 0];
     ef_pts := 7 |}.

Definition nv12_pic : AVFrame :=
  {| vf_data := [repeat Byte.x00 16; repeat Byte.x00 8];
     vf_linesize := [8; 8];
     vf_format := 23; vf_width := 4; vf_height := 2;
     vf_colorspace := AVCOL_SPC_BT709;
     vf_color_range := AVCOL_RANGE_MPEG; vf_pts := 0 |}.

(** ** Sequences of encode calls *)

Section encode_sequences.
Context {St : Type} `{Ext : Externals St}.

(** What one call of [ffmpeg_amf_encode] answers. *)
Definition encode_answer : Type :=
  bool * ffmpeg_amf_encoder St * encoder_packet * bool.

Definition answer_ok (r : encode_answer) : bool := r.1.1.1.
Definition answer_session (r : encode_answer) : ffmpeg_amf_encoder St :=
  r.1.1.2.
Definition answer_packet (r : encode_answer) : encoder_packet := r.1.2.
Definition answer_received (r : encode_answer) : bool := r.2.

(** The call succeeded and handed a packet to the caller. *)
Definition produced (r : encode_answer) : bool :=
  answer_ok r && answer_received r.

(** One call after the other on the same session.  A call comes with the
    caller's frame and with the packet and flag variables it passes. *)
Fixpoint encode_sequence (enc : ffmpeg_amf_encoder St)
    (calls : list (encoder_frame * encoder_packet * bool))
    : option (list encode_answer) :=
  match calls with
  | [] => Some []
  | (frame, packet, received) :: calls =>
      r ← ffmpeg_amf_encode enc frame packet received;
      rs ← encode_sequence (answer_session r) calls;
      Some (r :: rs)
  end.

(** The header bytes the session shows after a call. *)
Definition shown_extradata (r : encode_answer) : list byte :=
  match context (answer_session r) with
  | Some ctx => extradata ctx
  | None => []
  end.

End encode_sequences.

(** ** An open scripted session *)

Definition sps : list byte := [Byte.x67; Byte.x42].

Definition key_packet : AVPacket :=
  {| pkt_data := [Byte.xaa; Byte.xbb; Byte.xcc];
     pkt_pts := 7; pkt_dts := 6; pkt_flags := 1 |}.

Definition delta_packet : AVPacket :=
  {| pkt_data := [Byte.xdd]; pkt_pts := 8; pkt_dts := 7; pkt_flags := 0 |}.

(** A session as [ffmpeg_amf_create] leaves it, whose context shows the
    header [sps] and answers from the script [st]. *)
Definition open_session (st : script) : ffmpeg_amf_encoder script :=
  {| encoder := ntsc_encoder;
     ffmpeg_amf := Some {| codec_name := "h264_amf" |};
     context := Some (set_pix_fmt 23
                        (set_extradata sps (set_internal st cbr_context)));
     vframe := Some nv12_pic;
     buffer := []; header := []; enc_height := 2;
     first_packet := true; initialized := true |}.

Definition no_packet : encoder_packet :=
  {| ep_data := []; ep_size := 0; ep_pts := 0; ep_dts := 0;
     ep_type := OBS_ENCODER_AUDIO; ep_keyframe := false |}.

(** The collaborators of the concrete runs. *)
Definition ffmpeg_5_1 : Externals script := scripted sps no_script.

(** The session has no packet ready at the first retrieval. *)
Definition busy_session : ffmpeg_amf_encoder script :=
  open_session
    {| send_answers := []; receive_answers := [(-11, blank_packet)] |}.

(** The session refuses the first frame submitted with [AVERROR(EAGAIN)]. *)
Definition refusing_session : ffmpeg_amf_encoder script :=
  open_session {| send_answers := [-11]; receive_answers := [] |}.

(** The session has no packet for the first frame, a key frame for the
    second and another packet for the third. *)
Definition streaming_session : ffmpeg_amf_encoder script :=
  open_session
    {| send_answers := [];
       receive_answers :=
         [(-11, blank_packet); (0, key_packet); (0, delta_packet)] |}.

Definition three_calls : list (encoder_frame * encoder_packet * bool) :=
  [(nv12_frame, no_packet, false); (nv12_frame, no_packet, false);
   (nv12_frame, no_packet, false)].

(** ** What the flush loop of teardown is answered *)

Section pending_output.
Context {St : Type} `{Ext : Externals St}.

(** One turn of the flush loop asks the session once: with
    [avcodec_receive_packet], which leaves [r_pkt] at 1, or in an older
    build with [avcodec_encode_video2] and no frame.  The answer is the
    [int] returned, the packet, [r_pkt] and the context. *)
Definition poll (ctx : AVCodecContext St)
    : Z * AVPacket * Z * AVCodecContext St :=
  if send_receive_api then
    let '(ret, pkt, ctx) := avcodec_receive_packet ctx in (ret, pkt, 1, ctx)
  else avcodec_encode_video2 ctx None.

(** The session reported output: no error, and a packet. *)
Definition has_output (answer : Z * AVPacket * Z * AVCodecContext St)
    : bool :=
  negb (answer.1.1.1 <? 0) && negb (answer.1.2 =? 0).

Fixpoint after_polls (n : nat) (ctx : AVCodecContext St)
    : AVCodecContext St :=
  match n with
  | O => ctx
  | S n => after_polls n (poll ctx).2
  end.

(** The packets the first [n] turns get. *)
Fixpoint polled (n : nat) (ctx : AVCodecContext St) : list AVPacket :=
  match n with
  | O => []
  | S n => (poll ctx).1.1.2 :: polled n (poll ctx).2
  end.

(** The flush loop stops after [n] packets: the first [n] asks report
    output and the next one does not.  That next answer is a negative
    number, [AVERROR(EAGAIN)] and [AVERROR_EOF] like any other, or in the
    older build an answer without a packet; it says nothing of what the
    session would hand out if it were asked again. *)
Definition flush_stops_after (n : nat) (ctx : AVCodecContext St) : Prop :=
  (forall i, (i < n)%nat -> has_output (poll (after_polls i ctx)) = true) /\
  has_output (poll (after_polls n ctx)) = false.

(** The frame [ffmpeg_amf_init_codec] asks buffers for: a fresh frame after
    the five assignments of lines 119 to 123. *)
Definition prepared_vframe (ctx : AVCodecContext St) (vf : AVFrame)
    : AVFrame :=
  set_vf_color_range (color_range ctx)
    (set_vf_colorspace (colorspace ctx)
       (set_vf_height (height ctx)
          (set_vf_width (width ctx) (set_vf_format (pix_fmt ctx) vf)))).

End pending_output.

(** A session that hands out two packets and then answers
    [AVERROR_EOF] when it is torn down. *)
Definition loaded_session : ffmpeg_amf_encoder script :=
  open_session
    {| send_answers := [];
       receive_answers := [(0, key_packet); (0, delta_packet)] |}.

(** A build without the AMF encoders. *)
Definition no_amf : Externals script :=
  scripted_build false 0 sps no_script.

(** A build whose session does not open. *)
Definition no_driver : Externals script :=
  scripted_build true (-1) sps no_script.

(** ** Conditions under which the C code has a result *)

Section preconditions.
Context {St : Type} `{Ext : Externals St}.

(** The settings that let [ffmpeg_amf_update] reach its last statement: a
    keyframe interval given in seconds needs a frame-rate denominator to
    divide by. *)
Definition divisible (enc : ffmpeg_amf_encoder St)
    (settings : gmap string obs_data_item) : Prop :=
  to_int (obs_data_get_int settings "keyint_sec") = 0 \/
  fps_den (obs_encoder_video (encoder enc)) <> 0.


End preconditions.

(** * Further observations *)

(** The value the private options hold for [name]: that of the last
    [av_opt_set] on it. *)
Fixpoint option_lookup (name : string) (opts : list (string * option_value))
    : option option_value :=
  match opts with
  | [] => None
  | (n, v) :: opts =>
      if String.eqb n name then Some v else option_lookup name opts
  end.

(** A string with its letters in upper case. *)
Fixpoint upper (s : string) : string :=
  match s with
  | EmptyString => EmptyString
  | String c s => String (toupper c) (upper s)
  end.

Section observations.
Context {St : Type} `{Ext : Externals St}.

(** The format [ffmpeg_amf_update] gets from [ffmpeg_amf_video_info]
    (lines 151 to 157). *)
Definition resolved_format (enc : ffmpeg_amf_encoder St) : video_format :=
  info_format
    (ffmpeg_amf_video_info enc
       {| info_format := voi_format (obs_encoder_video (encoder enc));
          info_range := voi_range (obs_encoder_video (encoder enc));
          info_colorspace :=
            voi_colorspace (obs_encoder_video (encoder enc)) |}).

End observations.

(** Settings with a keyframe interval of minus one second. *)
Definition negative_keyint : gmap string obs_data_item :=
  make_settings "CBR" 2500 20 (-1).

(** An open session with a key frame ready at the first retrieval. *)
Definition ready_session : ffmpeg_amf_encoder script :=
  open_session
    {| send_answers := []; receive_answers := [(0, key_packet)] |}.

(** A build against an FFmpeg that has neither the send/receive interface
    nor rates that change on an open context.  Its one encode call
    answers from the retrieval script and reports a packet when the
    script answers 0. *)
Definition legacy_build (st : script) : Externals script :=
  {| LIBAVCODEC_VERSION_INT := AV_VERSION_INT 57 24 102;
     LIBAVFORMAT_VERSION_INT := AV_VERSION_INT 57 25 100;
     EAGAIN := 11;
     MAX_AV_PLANES := 8;
     base_get_alignment := 32;
     obs_to_ffmpeg_video_format := fun f =>
       match f with
       | VIDEO_FORMAT_I420 => 0
       | VIDEO_FORMAT_NV12 => 23
       | VIDEO_FORMAT_unlisted _ => -1
       end;
     av_pix_fmt_get_chroma_sub_sample := fun f =>
       if (f =? 0) || (f =? 23) then Some (1, 1) else None;
     nvenc_error_text := fun _ => "NVENC.Error";
     avcodec_find_encoder_by_name := fun name =>
       Some {| codec_name := name |};
     avcodec_alloc_context3 := fun _ => Some (scripted_context st);
     avcodec_open2 := fun ctx _ => (0, set_extradata sps ctx);
     av_frame_alloc := Some blank_frame;
     av_frame_get_buffer := scripted_get_buffer;
     avcodec_send_frame := scripted_send;
     avcodec_receive_packet := scripted_receive;
     avcodec_encode_video2 := fun ctx _ =>
       let '(ret, pkt, ctx) := scripted_receive ctx in
       (ret, pkt, if ret =? 0 then 1 else 0, ctx) |}.

(** A build whose session has a packet at every retrieval, for ever. *)
Definition endless_build : Externals script :=
  {| LIBAVCODEC_VERSION_INT := AV_VERSION_INT 59 37 100;
     LIBAVFORMAT_VERSION_INT := AV_VERSION_INT 59 27 100;
     EAGAIN := 11;
     MAX_AV_PLANES := 8;
     base_get_alignment := 32;
     obs_to_ffmpeg_video_format := fun f =>
       match f with
       | VIDEO_FORMAT_I420 => 0
       | VIDEO_FORMAT_NV12 => 23
       | VIDEO_FORMAT_unlisted _ => -1
       end;
     av_pix_fmt_get_chroma_sub_sample := fun f =>
       if (f =? 0) || (f =? 23) then Some (1, 1) else None;
     nvenc_error_text := fun _ => "NVENC.Error";
     avcodec_find_encoder_by_name := fun name =>
       Some {| codec_name := name |};
     avcodec_alloc_context3 := fun _ => Some (scripted_context no_script);
     avcodec_open2 := fun ctx _ => (0, set_extradata sps ctx);
     av_frame_alloc := Some blank_frame;
     av_frame_get_buffer := scripted_get_buffer;
     avcodec_send_frame := scripted_send;
     avcodec_receive_packet := fun ctx => (0, key_packet, ctx);
     avcodec_encode_video2 := fun ctx _ => (0, key_packet, 1, ctx) |}.


(** An internal frame whose rows are as long as those of [nv12_frame]. *)
Definition packed_pic : AVFrame :=
  {| vf_data := [repeat Byte.x00 8; repeat Byte.x00 4];
     vf_linesize := [4; 4];
     vf_format := 23; vf_width := 4; vf_height := 2;
     vf_colorspace := AVCOL_SPC_BT709;
     vf_color_range := AVCOL_RANGE_MPEG; vf_pts := 0 |}.

(** * Defaults and property sheet *)

(** ** Defaults of the settings *)

(** Modelled from the spec: [obs_data_set_default_int] and
    [obs_data_set_default_string] live in libobs' [obs-data.c], not among
    the sources; the spec leaves the settings object to the host.  A
    default is the value a getter answers for a key the user has set
    nothing under.  The defaults of a settings object are kept as a map of
    their own, read with the getters above. *)
Definition obs_data_set_default_int (name : string) (val : Z)
    (defaults : gmap string obs_data_item) : gmap string obs_data_item :=
  <[name := OBS_DATA_NUMBER val]> defaults.

Definition obs_data_set_default_string (name val : string)
    (defaults : gmap string obs_data_item) : gmap string obs_data_item :=
  <[name := OBS_DATA_STRING val]> defaults.

(** [amf_defaults], on the defaults of [settings]. *)
Definition amf_defaults (settings : gmap string obs_data_item)
    : gmap string obs_data_item :=
  let settings := obs_data_set_default_int "bitrate" 2500 settings in
  let settings := obs_data_set_default_int "cqp" 20 settings in
  let settings := obs_data_set_default_string "rate_control" "CBR" settings in
  let settings := obs_data_set_default_string "preset" "hq" settings in
  let settings := obs_data_set_default_string "profile" "high" settings in
  settings.

(** ** Property sheet: [obs_properties_t] *)

Inductive obs_combo_type : Type :=
  | OBS_COMBO_TYPE_INVALID
  | OBS_COMBO_TYPE_EDITABLE
  | OBS_COMBO_TYPE_LIST.

Inductive obs_combo_format : Type :=
  | OBS_COMBO_FORMAT_INVALID
  | OBS_COMBO_FORMAT_INT
  | OBS_COMBO_FORMAT_FLOAT
  | OBS_COMBO_FORMAT_STRING.

(** The callbacks this file hands to a property. *)
Inductive obs_property_modified_t : Type :=
  | callback_rate_control_modified.

(** What a property is: a bounded number with an optional suffix, or a
    list of named values. *)
Inductive property_data : Type :=
  | int_data (min max step : Z) (suffix : option string)
  | list_data (type : obs_combo_type) (format : obs_combo_format)
      (items : list (string * string)).

Record obs_property_t : Type := {
  prop_name : string;
  prop_desc : string;
  prop_data : property_data;
  prop_visible : bool;
  prop_modified : option obs_property_modified_t
}.

(** Modelled from the spec: the property sheet lives in libobs'
    [obs-properties.c], not among the sources; the spec names the building
    of the settings schema as a collaborator of the host and says no more
    of it.  A sheet is kept as the list of its properties in the order they
    were added, each with the arguments of the call that added it; a new
    property is visible; a name already on the sheet is refused with a
    null handle, and a call on a null handle does nothing.  A handle is
    the name of the property it points to. *)
Definition obs_properties_t : Type := list obs_property_t.

Definition obs_properties_create : obs_properties_t := [].

Fixpoint obs_properties_get (props : obs_properties_t) (name : string)
    : option obs_property_t :=
  match props with
  | [] => None
  | p :: props =>
      if String.eqb (prop_name p) name then Some p
      else obs_properties_get props name
  end.

Definition has_prop (props : obs_properties_t) (name : string) : bool :=
  bool_decide (is_Some (obs_properties_get props name)).

Definition new_prop (props : obs_properties_t) (name desc : string)
    (data : property_data) : option string * obs_properties_t :=
  if has_prop props name then (None, props)
  else (Some name,
        props ++ [{| prop_name := name; prop_desc := desc;
                     prop_data := data; prop_visible := true;
                     prop_modified := None |}]).

Definition obs_properties_add_list (props : obs_properties_t)
    (name desc : string) (type : obs_combo_type) (format : obs_combo_format)
    : option string * obs_properties_t :=
  new_prop props name desc (list_data type format []).

Definition obs_properties_add_int (props : obs_properties_t)
    (name desc : string) (min max step : Z)
    : option string * obs_properties_t :=
  new_prop props name desc (int_data min max step None).

(** A change of the property a handle points to. *)
Definition on_property (p : option string)
    (f : obs_property_t -> obs_property_t) (props : obs_properties_t)
    : obs_properties_t :=
  match p with
  | None => props
  | Some name =>
      map (fun q => if String.eqb (prop_name q) name then f q else q) props
  end.

Definition obs_property_list_add_string (p : option string)
    (name val : string) : obs_properties_t -> obs_properties_t :=
  on_property p (fun q =>
    match prop_data q with
    | list_data type OBS_COMBO_FORMAT_STRING items =>
        {| prop_name := prop_name q; prop_desc := prop_desc q;
           prop_data :=
             list_data type OBS_COMBO_FORMAT_STRING (items ++ [(name, val)]);
           prop_visible := prop_visible q;
           prop_modified := prop_modified q |}
    | _ => q
    end).

Definition obs_property_int_set_suffix (p : option string)
    (suffix : string) : obs_properties_t -> obs_properties_t :=
  on_property p (fun q =>
    match prop_data q with
    | int_data min max step _ =>
        {| prop_name := prop_name q; prop_desc := prop_desc q;
           prop_data := int_data min max step (Some suffix);
           prop_visible := prop_visible q;
           prop_modified := prop_modified q |}
    | _ => q
    end).

Definition obs_property_set_modified_callback (p : option string)
    (modified : obs_property_modified_t)
    : obs_properties_t -> obs_properties_t :=
  on_property p (fun q =>
    {| prop_name := prop_name q; prop_desc := prop_desc q;
       prop_data := prop_data q; prop_visible := prop_visible q;
       prop_modified := Some modified |}).

Definition obs_property_set_visible (p : option string) (visible : bool)
    : obs_properties_t -> obs_properties_t :=
  on_property p (fun q =>
    {| prop_name := prop_name q; prop_desc := prop_desc q;
       prop_data := prop_data q; prop_visible := visible;
       prop_modified := prop_modified q |}).

(** The handle [obs_properties_get] answers. *)
Definition obs_properties_get_handle (props : obs_properties_t)
    (name : string) : option string :=
  prop_name <$> obs_properties_get props name.

Section properties.

(** [obs_module_text]: the text of the module's locale for a key. *)
Variable obs_module_text : string -> string.

(** [rate_control_modified]: the answer and the sheet it leaves. *)
Definition rate_control_modified (ppts : obs_properties_t)
    (p : option string) (settings : gmap string obs_data_item)
    : bool * obs_properties_t :=
  let rc := obs_data_get_string settings "rate_control" in
  let cqp := astrcmpi rc "CQP" =? 0 in
  let p := obs_properties_get_handle ppts "bitrate" in
  let ppts := obs_property_set_visible p (negb cqp) ppts in
  let p := obs_properties_get_handle ppts "cqp" in
  let ppts := obs_property_set_visible p cqp ppts in
  (true, ppts).

(** [add_preset(val)] and [add_profile(val)], the two macros of
    [amf_properties_internal]. *)
Definition add_preset (p : option string) (val : string)
    : obs_properties_t -> obs_properties_t :=
  obs_property_list_add_string p
    (obs_module_text ("NVENC.Preset." ++ val)) val.

Definition add_profile (p : option string) (val : string)
    : obs_properties_t -> obs_properties_t :=
  obs_property_list_add_string p val val.

Definition amf_properties_internal (hevc : bool) : obs_properties_t :=
  let props := obs_properties_create in
  let '(p, props) :=
    obs_properties_add_list props "rate_control"
      (obs_module_text "RateControl")
      OBS_COMBO_TYPE_LIST OBS_COMBO_FORMAT_STRING in
  let props := obs_property_list_add_string p "CBR" "CBR" props in
  let props := obs_property_list_add_string p "CQP" "CQP" props in
  let props := obs_property_list_add_string p "VBR" "VBR" props in
  let props :=
    obs_property_set_modified_callback p callback_rate_control_modified
      props in
  let '(p, props) :=
    obs_properties_add_int props "bitrate" (obs_module_text "Bitrate")
      50 300000 50 in
  let props := obs_property_int_set_suffix p " Kbps" props in
  let '(_, props) :=
    obs_properties_add_int props "cqp" (obs_module_text "NVENC.CQLevel")
      1 30 1 in
  let '(_, props) :=
    obs_properties_add_int props "keyint_sec"
      (obs_module_text "KeyframeIntervalSec") 0 10 1 in
  let '(p, props) :=
    obs_properties_add_list props "preset" (obs_module_text "Preset")
      OBS_COMBO_TYPE_LIST OBS_COMBO_FORMAT_STRING in
  let props := add_preset p "quality" props in
  let props := add_preset p "balanced" props in
  let props := add_preset p "speed" props in
  if negb hevc then
    let '(p, props) :=
      obs_properties_add_list props "profile" (obs_module_text "Profile")
        OBS_COMBO_TYPE_LIST OBS_COMBO_FORMAT_STRING in
    let props := add_profile p "high" props in
    let props := add_profile p "main" props in
    let props := add_profile p "baseline" props in
    props
  else props.

Definition amf_avc_properties : obs_properties_t :=
  amf_properties_internal false.

Definition amf_hevc_properties : obs_properties_t :=
  amf_properties_internal true.

End properties.

(** ** Reading a sheet *)

(** The values the list property [name] offers, and whether [val] is one
    of them. *)
Definition offered (props : obs_properties_t) (name : string)
    : list string :=
  match obs_properties_get props name with
  | Some {| prop_data := list_data _ _ items |} => items.*2
  | _ => []
  end.

Definition offers (props : obs_properties_t) (name val : string) : bool :=
  bool_decide (val ∈ offered props name).

(** Whether the number property [name] admits [val]. *)
Definition admits (props : obs_properties_t) (name : string) (val : Z)
    : bool :=
  match obs_properties_get props name with
  | Some {| prop_data := int_data min max _ _ |} =>
      (min <=? val) && (val <=? max)
  | _ => false
  end.

(** Whether the property [name] is on the sheet and shown. *)
Definition shown (props : obs_properties_t) (name : string) : option bool :=
  prop_visible <$> obs_properties_get props name.

(** The locale that answers every key with itself. *)
Definition plain_text (key : string) : string := key.

(** A host encoder whose frame-rate fields lie above [INT_MAX], and one
    whose frame-rate denominator is zero. *)
Definition wide_rate_encoder : obs_encoder_t :=
  {| obs_encoder_get_preferred_video_format := VIDEO_FORMAT_NV12;
     obs_encoder_video :=
       {| voi_format := VIDEO_FORMAT_NV12;
          fps_num := 4294967295; fps_den := 3000000000;
          voi_colorspace := VIDEO_CS_709; voi_range := VIDEO_RANGE_PARTIAL |};
     obs_encoder_get_width := 4;
     obs_encoder_get_height := 2;
     obs_encoder_get_last_error := None |}.

(** * Properties *)

(** ** Integer conversions *)

Lemma two_31 : 2 ^ (32 - 1) = 2147483648.
Proof. reflexivity. Qed.

Lemma two_32 : 2 ^ 32 = 4294967296.
Proof. reflexivity. Qed.

Lemma two_63 : 2 ^ (64 - 1) = 9223372036854775808.
Proof. reflexivity. Qed.

Lemma two_64 : 2 ^ 64 = 18446744073709551616.
Proof. reflexivity. Qed.

Lemma to_int_range x : INT_MIN <= to_int x <= INT_MAX.
Proof.
  unfold to_int, wrap_signed, INT_MIN, INT_MAX.
  rewrite two_31, two_32.
  pose proof (Z.mod_pos_bound (x + 2147483648) 4294967296 eq_refl). lia.
Qed.

Lemma to_int_id x : INT_MIN <= x <= INT_MAX -> to_int x = x.
Proof.
  unfold to_int, wrap_signed, INT_MIN, INT_MAX.
  rewrite two_31, two_32. intros Hx.
  rewrite Z.mod_small by lia. lia.
Qed.

Lemma to_int64_id x : INT64_MIN <= x <= INT64_MAX -> to_int64 x = x.
Proof.
  unfold to_int64, wrap_signed, INT64_MIN, INT64_MAX.
  rewrite two_63, two_64. intros Hx.
  rewrite Z.mod_small by lia. lia.
Qed.

Lemma to_uint32_id x : 0 <= x <= UINT32_MAX -> to_uint32 x = x.
Proof.
  unfold to_uint32, UINT32_MAX. rewrite two_32. intros Hx.
  apply Z.mod_small. lia.
Qed.

(** An [unsigned int] taken as an [int]. *)
Lemma to_int_of_uint32 x :
  0 <= x <= UINT32_MAX ->
  to_int x = if x <=? INT_MAX then x else x - 2 ^ 32.
Proof.
  unfold to_int, wrap_signed, INT_MAX, UINT32_MAX.
  change (2 ^ (32 - 1)) with 2147483648.
  change (2 ^ 31) with 2147483648. change (2 ^ 32) with 4294967296.
  intros Hx.
  destruct (Z.leb_spec x (2147483648 - 1)) as [Hle | Hgt].
  - rewrite Z.mod_small by lia. lia.
  - replace (x + 2147483648) with (x - 2147483648 + 1 * 4294967296) by lia.
    rewrite Z.mod_add by lia. rewrite Z.mod_small by lia. lia.
Qed.

(** An [int] times [1000LL] fits an [int64_t]. *)
Lemma int_rate_exact x : to_int64 (to_int x * 1000) = to_int x * 1000.
Proof.
  apply to_int64_id. pose proof (to_int_range x) as Hx.
  unfold INT_MIN, INT_MAX, INT64_MIN, INT64_MAX in *.
  change (2 ^ 31) with 2147483648 in Hx.
  change (2 ^ 63) with 9223372036854775808. lia.
Qed.

(** ** Mode names *)

Example astrcmpi_CQP : astrcmpi "CQP" "cqp" = 0.
Proof. reflexivity. Qed.

Example astrcmpi_VBR : astrcmpi "VBR" "vbr" = 0.
Proof. reflexivity. Qed.

Example astrcmpi_CBR_cqp : astrcmpi "CBR" "cqp" <> 0.
Proof. discriminate. Qed.

Example astrcmpi_lossless : astrcmpi "lossless" "vbr" <> 0.
Proof. discriminate. Qed.

(** ** Constants of libavutil *)

Example AVERROR_EOF_value : AVERROR_EOF = -541478725.
Proof. reflexivity. Qed.

Example AV_VERSION_INT_57_40_101 : AV_VERSION_INT 57 40 101 = 3745893.
Proof. reflexivity. Qed.

(** ** Session configurator *)

Section configurator_facts.
Context {St : Type} `{Ext : Externals St}.

Lemma update_colorspace_rates cs (ctx : AVCodecContext St) :
  bit_rate (update_colorspace cs ctx) = bit_rate ctx /\
  rc_min_rate (update_colorspace cs ctx) = rc_min_rate ctx /\
  rc_max_rate (update_colorspace cs ctx) = rc_max_rate ctx /\
  rc_buffer_size (update_colorspace cs ctx) = rc_buffer_size ctx /\
  global_quality (update_colorspace cs ctx) = global_quality ctx /\
  gop_size (update_colorspace cs ctx) = gop_size ctx.
Proof. destruct cs; repeat split; reflexivity. Qed.

Lemma update_gop_size_some keyint_sec voi (ctx : AVCodecContext St) :
  keyint_sec = 0 \/ fps_den voi <> 0 ->
  exists g,
    update_gop_size keyint_sec voi ctx = Some (set_gop_size g ctx) /\
    g = (if keyint_sec =? 0 then 250
         else to_int (to_uint32 (to_uint32 keyint_sec * fps_num voi)
                      / fps_den voi)).
Proof.
  intros Hdiv. unfold update_gop_size.
  destruct (Z.eqb_spec keyint_sec 0) as [Hk | Hk]; simpl.
  - eexists; split; reflexivity.
  - destruct (Z.eqb_spec (fps_den voi) 0) as [Hd | Hd].
    + destruct Hdiv; contradiction.
    + eexists; split; reflexivity.
Qed.

(** The context [ffmpeg_amf_update] hands to [ffmpeg_amf_init_codec], by
    what the rate-control part made of the one it found. *)
Lemma update_settings_fields enc settings (ctx : AVCodecContext St) :
  context enc = Some ctx ->
  divisible enc settings ->
  let rc := obs_data_get_string settings "rate_control" in
  let bitrate := to_int (obs_data_get_int settings "bitrate") in
  let cqp := to_int (obs_data_get_int settings "cqp") in
  let keyint_sec := to_int (obs_data_get_int settings "keyint_sec") in
  let voi := obs_encoder_video (encoder enc) in
  let ctx0 :=
    av_opt_set "preset" (obs_data_get_string settings "preset")
      (av_opt_set "profile" (obs_data_get_string settings "profile") ctx) in
  let rc_out := update_rate_control rc bitrate cqp ctx0 in
  exists enc' ctx',
    ffmpeg_amf_update_settings enc settings = Some enc' /\
    context enc' = Some ctx' /\
    encoder enc' = encoder enc /\
    bit_rate ctx' = to_int (fst rc_out * 1000) /\
    rc_buffer_size ctx' = to_int (fst rc_out * 1000) /\
    rc_min_rate ctx' = rc_min_rate (snd rc_out) /\
    rc_max_rate ctx' = rc_max_rate (snd rc_out) /\
    global_quality ctx' = global_quality (snd rc_out) /\
    gop_size ctx' =
      (if keyint_sec =? 0 then 250
       else to_int (to_uint32 (to_uint32 keyint_sec * fps_num voi)
                    / fps_den voi)).
Proof.
  intros Hctx Hdiv rc bitrate cqp keyint_sec voi ctx0 rc_out.
  unfold ffmpeg_amf_update_settings. rewrite Hctx. simpl.
  fold rc bitrate cqp keyint_sec voi ctx0 rc_out.
  destruct rc_out as [b c] eqn:Hrc. simpl.
  match goal with
  | |- context [update_gop_size keyint_sec voi ?c0] =>
      destruct (update_gop_size_some keyint_sec voi c0 Hdiv) as (g & Hg & Hgv);
      rewrite Hg; simpl
  end.
  eexists; eexists; split; [reflexivity |]. split; [reflexivity |].
  split; [reflexivity |]. simpl.
  match goal with
  | |- context [update_colorspace ?cs ?c0] =>
      destruct (update_colorspace_rates cs c0) as (H1 & H2 & H3 & H4 & H5 & _)
  end.
  rewrite H1, H2, H3, H4, H5. simpl.
  repeat split; try reflexivity. exact Hgv.
Qed.

(** What the rate-control part leaves, mode by mode. *)
Lemma update_rate_control_cqp rc bitrate cqp (ctx : AVCodecContext St) :
  astrcmpi rc "cqp" = 0 ->
  update_rate_control rc bitrate cqp ctx =
    (0, set_global_quality cqp (av_opt_set "rc" "cqp" ctx)).
Proof. intros H. unfold update_rate_control. rewrite H. reflexivity. Qed.

Lemma update_rate_control_vbr rc bitrate cqp (ctx : AVCodecContext St) :
  astrcmpi rc "cqp" <> 0 ->
  astrcmpi rc "vbr" = 0 ->
  update_rate_control rc bitrate cqp ctx =
    (bitrate,
     set_rc_max_rate (to_int64 (bitrate * 1000))
       (av_opt_set "rc" "vbr_peak" ctx)).
Proof.
  intros Hq Hv. unfold update_rate_control.
  destruct (Z.eqb_spec (astrcmpi rc "cqp") 0); [contradiction |].
  rewrite Hv. reflexivity.
Qed.

Lemma update_rate_control_cbr rc bitrate cqp (ctx : AVCodecContext St) :
  astrcmpi rc "cqp" <> 0 ->
  astrcmpi rc "vbr" <> 0 ->
  update_rate_control rc bitrate cqp ctx =
    (bitrate,
     set_rc_max_rate (to_int64 (bitrate * 1000))
       (set_rc_min_rate (to_int64 (bitrate * 1000))
          (av_opt_set "rc" "cbr" ctx))).
Proof.
  intros Hq Hv. unfold update_rate_control.
  destruct (Z.eqb_spec (astrcmpi rc "cqp") 0); [contradiction |].
  destruct (Z.eqb_spec (astrcmpi rc "vbr") 0); [contradiction |].
  reflexivity.
Qed.

(** C1.  Configuration maps the rate-control mode to the codec parameters
    of the context it hands to [ffmpeg_amf_init_codec]: in mode "cqp" the
    bit rate and the buffer size are zero and the global quality is the
    quantization level of the settings, the two rate bounds staying as
    they were; in mode "vbr" the maximum rate is the bitrate times 1000
    and the minimum rate stays as it was; in every other mode, "cbr" among
    them, the minimum and the maximum rate are both the bitrate times
    1000.  The bitrate and the level are the [int]s the function reads
    from the settings, and the mode is compared without regard to case. *)
Theorem update_maps_rate_control enc settings (ctx : AVCodecContext St) :
  context enc = Some ctx ->
  divisible enc settings ->
  let rc := obs_data_get_string settings "rate_control" in
  let bitrate := to_int (obs_data_get_int settings "bitrate") in
  let cqp := to_int (obs_data_get_int settings "cqp") in
  exists enc' ctx',
    ffmpeg_amf_update_settings enc settings = Some enc' /\
    (forall heap, ffmpeg_amf_update enc settings heap
                  = ffmpeg_amf_init_codec enc' heap) /\
    context enc' = Some ctx' /\
    (astrcmpi rc "cqp" = 0 ->
       bit_rate ctx' = 0 /\ rc_buffer_size ctx' = 0 /\
       global_quality ctx' = cqp /\
       rc_min_rate ctx' = rc_min_rate ctx /\
       rc_max_rate ctx' = rc_max_rate ctx) /\
    (astrcmpi rc "cqp" <> 0 -> astrcmpi rc "vbr" = 0 ->
       rc_max_rate ctx' = bitrate * 1000 /\
       rc_min_rate ctx' = rc_min_rate ctx /\
       global_quality ctx' = global_quality ctx) /\
    (astrcmpi rc "cqp" <> 0 -> astrcmpi rc "vbr" <> 0 ->
       rc_min_rate ctx' = bitrate * 1000 /\
       rc_max_rate ctx' = bitrate * 1000 /\
       global_quality ctx' = global_quality ctx).
Proof.
  intros Hctx Hdiv rc bitrate cqp.
  destruct (update_settings_fields enc settings ctx Hctx Hdiv)
    as (enc' & ctx' & Hup & Hc & _ & Hbr & Hbs & Hmin & Hmax & Hq & _).
  fold rc bitrate cqp in Hbr, Hbs, Hmin, Hmax, Hq.
  exists enc', ctx'. split; [exact Hup |].
  split; [intros heap; unfold ffmpeg_amf_update; rewrite Hup; reflexivity |].
  split; [exact Hc |].
  split; [| split].
  - intros Hcqp.
    rewrite (update_rate_control_cqp _ _ _ _ Hcqp) in Hbr, Hbs, Hmin, Hmax, Hq.
    simpl in *. repeat split; assumption.
  - intros Hn Hv.
    rewrite (update_rate_control_vbr _ _ _ _ Hn Hv) in Hmin, Hmax, Hq.
    simpl in *. unfold bitrate in Hmax at 1.
    rewrite int_rate_exact in Hmax. repeat split; assumption.
  - intros Hn Hv.
    rewrite (update_rate_control_cbr _ _ _ _ Hn Hv) in Hmin, Hmax, Hq.
    simpl in *. unfold bitrate in Hmin at 1, Hmax at 1.
    rewrite int_rate_exact in Hmin, Hmax. repeat split; assumption.
Qed.

End configurator_facts.

Lemma update_maps_rate_control_witness :
  exists enc' ctx',
    @ffmpeg_amf_update_settings script (scripted [] no_script)
      (allocated_encoder no_script) cbr_2500 = Some enc' /\
    context enc' = Some ctx' /\
    rc_min_rate ctx' = 2500000 /\
    rc_max_rate ctx' = 2500000 /\
    global_quality ctx' = 0.
Proof.
  destruct (@update_maps_rate_control script (scripted [] no_script)
              (allocated_encoder no_script) cbr_2500
              (scripted_context no_script))
    as (enc' & ctx' & Hup & _ & Hc & _ & _ & Hcbr).
  - reflexivity.
  - right. vm_compute. discriminate.
  - exists enc', ctx'. split; [exact Hup |]. split; [exact Hc |].
    apply Hcbr; vm_compute; discriminate.
Defined.

Section configured_values.
Context {St : Type} `{Ext : Externals St}.

(** C9, amended.  In every mode but "cqp", and for a bitrate whose product
    with 1000 is an [int], configuration sets the bit rate and the
    rate-control buffer size of the context it hands to
    [ffmpeg_amf_init_codec] to the bitrate times 1000; in mode "cqp" it
    sets both to zero. *)
Theorem update_bit_rate_and_buffer_size enc settings
    (ctx : AVCodecContext St) :
  context enc = Some ctx ->
  divisible enc settings ->
  let rc := obs_data_get_string settings "rate_control" in
  let bitrate := to_int (obs_data_get_int settings "bitrate") in
  exists enc' ctx',
    ffmpeg_amf_update_settings enc settings = Some enc' /\
    (forall heap, ffmpeg_amf_update enc settings heap
                  = ffmpeg_amf_init_codec enc' heap) /\
    context enc' = Some ctx' /\
    (astrcmpi rc "cqp" = 0 ->
       bit_rate ctx' = 0 /\ rc_buffer_size ctx' = 0) /\
    (astrcmpi rc "cqp" <> 0 ->
     INT_MIN <= bitrate * 1000 <= INT_MAX ->
       bit_rate ctx' = bitrate * 1000 /\
       rc_buffer_size ctx' = bitrate * 1000).
Proof.
  intros Hctx Hdiv rc bitrate.
  destruct (update_settings_fields enc settings ctx Hctx Hdiv)
    as (enc' & ctx' & Hup & Hc & _ & Hbr & Hbs & _).
  fold rc bitrate in Hbr, Hbs.
  exists enc', ctx'. split; [exact Hup |].
  split; [intros heap; unfold ffmpeg_amf_update; rewrite Hup; reflexivity |].
  split; [exact Hc |]. split.
  - intros Hcqp.
    rewrite (update_rate_control_cqp _ _ _ _ Hcqp) in Hbr, Hbs.
    simpl in *. split; assumption.
  - intros Hn Hrange.
    assert (fst (update_rate_control rc bitrate
                   (to_int (obs_data_get_int settings "cqp"))
                   (av_opt_set "preset" (obs_data_get_string settings "preset")
                      (av_opt_set "profile"
                         (obs_data_get_string settings "profile") ctx)))
            = bitrate) as Hfst.
    { unfold update_rate_control.
      destruct (Z.eqb_spec (astrcmpi rc "cqp") 0); [contradiction |].
      reflexivity. }
    rewrite Hfst in Hbr, Hbs. rewrite (to_int_id _ Hrange) in Hbr, Hbs.
    split; assumption.
Qed.

(** C2, amended.  Configuration sets the keyframe interval of the context
    it hands to [ffmpeg_amf_init_codec] to 250 frames when [keyint_sec]
    is zero.  For every other [keyint_sec], positive or negative, and
    every frame rate with a denominator to divide by, it sets it to the
    quotient of [keyint_sec * fps_num] by [fps_den] computed in
    [unsigned int] arithmetic, that is modulo [2 ^ 32] with the fraction
    dropped, and stored in the [int] field: a quotient above [INT_MAX]
    arrives with [2 ^ 32] taken off.  For a positive [keyint_sec] whose
    product with the numerator is an [unsigned int] and whose quotient is
    an [int] this is the plain quotient, rounded down.  Configuring
    again with the same inputs gives the same interval. *)
Theorem update_gop_size_truncates enc settings (ctx : AVCodecContext St) :
  context enc = Some ctx ->
  divisible enc settings ->
  let keyint_sec := to_int (obs_data_get_int settings "keyint_sec") in
  let voi := obs_encoder_video (encoder enc) in
  let quotient :=
    unsigned_quotient keyint_sec (fps_num voi) (fps_den voi) in
  exists enc' ctx',
    ffmpeg_amf_update_settings enc settings = Some enc' /\
    (forall heap, ffmpeg_amf_update enc settings heap
                  = ffmpeg_amf_init_codec enc' heap) /\
    context enc' = Some ctx' /\
    (keyint_sec = 0 -> gop_size ctx' = 250) /\
    (keyint_sec <> 0 -> 0 < fps_den voi ->
       gop_size ctx' =
         if quotient <=? INT_MAX then quotient else quotient - 2 ^ 32) /\
    (0 < keyint_sec -> 0 < fps_den voi -> 0 <= fps_num voi ->
     keyint_sec * fps_num voi <= UINT32_MAX ->
     keyint_sec * fps_num voi / fps_den voi <= INT_MAX ->
       gop_size ctx' = keyint_sec * fps_num voi / fps_den voi) /\
    (exists enc'' ctx'',
       ffmpeg_amf_update_settings enc' settings = Some enc'' /\
       context enc'' = Some ctx'' /\
       gop_size ctx'' = gop_size ctx').
Proof.
  intros Hctx Hdiv keyint_sec voi quotient.
  destruct (update_settings_fields enc settings ctx Hctx Hdiv)
    as (enc' & ctx' & Hup & Hc & He & _ & _ & _ & _ & _ & Hgop).
  fold keyint_sec voi in Hgop.
  exists enc', ctx'. split; [exact Hup |].
  split; [intros heap; unfold ffmpeg_amf_update; rewrite Hup; reflexivity |].
  split; [exact Hc |].
  split; [| split; [| split]].
  - intros Hk. rewrite Hk in Hgop. exact Hgop.
  - intros Hk Hden.
    destruct (Z.eqb_spec keyint_sec 0) as [Hz | _]; [contradiction |].
    rewrite Hgop.
    change (to_uint32 (to_uint32 keyint_sec * fps_num voi) / fps_den voi)
      with quotient.
    apply to_int_of_uint32.
    unfold quotient, unsigned_quotient, UINT32_MAX.
    pose proof (Z.mod_pos_bound (keyint_sec mod 2 ^ 32 * fps_num voi)
                  (2 ^ 32) eq_refl) as Hm.
    split; [apply Z.div_pos; lia |].
    apply Z.div_le_upper_bound; [exact Hden |]. nia.
  - intros Hk Hden Hnum Hprod Hquot.
    destruct (Z.eqb_spec keyint_sec 0) as [Hz | _]; [lia |].
    rewrite Hgop.
    rewrite (to_uint32_id keyint_sec)
      by (pose proof (to_int_range (obs_data_get_int settings "keyint_sec"));
          unfold keyint_sec, INT_MAX, UINT32_MAX in *; lia).
    rewrite (to_uint32_id (keyint_sec * fps_num voi))
      by (split; [apply Z.mul_nonneg_nonneg; lia | exact Hprod]).
    apply to_int_id. split; [| exact Hquot].
    assert (0 <= keyint_sec * fps_num voi / fps_den voi)
      by (apply Z.div_pos; [apply Z.mul_nonneg_nonneg; lia | lia]).
    unfold INT_MIN. lia.
  - assert (divisible enc' settings) as Hdiv'
        by (unfold divisible in *; rewrite He; exact Hdiv).
    destruct (update_settings_fields enc' settings ctx' Hc Hdiv')
      as (enc'' & ctx'' & Hup' & Hc' & _ & _ & _ & _ & _ & _ & Hgop').
    exists enc'', ctx''. split; [exact Hup' |]. split; [exact Hc' |].
    rewrite Hgop', Hgop, He. reflexivity.
Qed.

End configured_values.

Lemma update_bit_rate_and_buffer_size_witness :
  exists enc' ctx',
    @ffmpeg_amf_update_settings script (scripted [] no_script)
      (allocated_encoder no_script) cbr_2500 = Some enc' /\
    context enc' = Some ctx' /\
    bit_rate ctx' = 2500000 /\
    rc_buffer_size ctx' = 2500000.
Proof.
  destruct (@update_bit_rate_and_buffer_size script (scripted [] no_script)
              (allocated_encoder no_script) cbr_2500
              (scripted_context no_script))
    as (enc' & ctx' & Hup & _ & Hc & _ & Hrate).
  - reflexivity.
  - right. vm_compute. discriminate.
  - exists enc', ctx'. split; [exact Hup |]. split; [exact Hc |].
    apply Hrate; vm_compute; [discriminate | split; discriminate].
Defined.

(** C9 as the spec has it fails in mode "cqp": with a bitrate of 2500 the
    configured bit rate and buffer size are zero, not 2500000. *)
Lemma update_cqp_clears_bit_rate :
  obs_data_get_int cqp_2500 "bitrate" = 2500 /\
  exists enc' ctx',
    @ffmpeg_amf_update_settings script (scripted [] no_script)
      (allocated_encoder no_script) cqp_2500 = Some enc' /\
    context enc' = Some ctx' /\
    bit_rate ctx' = 0 /\ rc_buffer_size ctx' = 0 /\
    bit_rate ctx' <> 2500 * 1000 /\ rc_buffer_size ctx' <> 2500 * 1000.
Proof.
  split; [reflexivity |].
  eexists; eexists. split; [vm_compute; reflexivity |].
  split; [reflexivity |]. simpl. repeat split; discriminate.
Qed.

Lemma update_gop_size_truncates_witness :
  (exists enc' ctx',
     @ffmpeg_amf_update_settings script (scripted [] no_script)
       (allocated_encoder no_script) cbr_2500 = Some enc' /\
     context enc' = Some ctx' /\
     gop_size ctx' = 59 /\
     (exists enc'' ctx'',
        @ffmpeg_amf_update_settings script (scripted [] no_script)
          enc' cbr_2500 = Some enc'' /\
        context enc'' = Some ctx'' /\
        gop_size ctx'' = gop_size ctx')) /\
  (exists enc' ctx',
     @ffmpeg_amf_update_settings script (scripted [] no_script)
       (allocated_encoder no_script) negative_keyint = Some enc' /\
     context enc' = Some ctx' /\
     gop_size ctx' = 4290646).
Proof.
  split.
  - destruct (@update_gop_size_truncates script (scripted [] no_script)
                (allocated_encoder no_script) cbr_2500
                (scripted_context no_script))
      as (enc' & ctx' & Hup & _ & Hc & _ & _ & Hgop & Hagain).
    + reflexivity.
    + right. vm_compute. discriminate.
    + exists enc', ctx'. split; [exact Hup |]. split; [exact Hc |].
      split; [| exact Hagain].
      change 59 with (2 * 30000 / 1001).
      apply Hgop; vm_compute; first [reflexivity | discriminate].
  - destruct (@update_gop_size_truncates script (scripted [] no_script)
                (allocated_encoder no_script) negative_keyint
                (scripted_context no_script))
      as (enc' & ctx' & Hup & _ & Hc & _ & Hgop & _).
    + reflexivity.
    + right. vm_compute. discriminate.
    + exists enc', ctx'. split; [exact Hup |]. split; [exact Hc |].
      rewrite Hgop; [reflexivity | vm_compute; discriminate | reflexivity].
Defined.

(** C2 as the spec has it fails: two seconds at 30000/1001 frames a second
    configure an interval of 59 frames, and [round(2*30000/1001)] is 60. *)
Lemma update_gop_size_not_rounded :
  to_int (obs_data_get_int cbr_2500 "keyint_sec") = 2 /\
  fps_num (obs_encoder_video ntsc_encoder) = 30000 /\
  fps_den (obs_encoder_video ntsc_encoder) = 1001 /\
  spec_gop_size 2 30000 1001 = 60 /\
  exists enc' ctx',
    @ffmpeg_amf_update_settings script (scripted [] no_script)
      (allocated_encoder no_script) cbr_2500 = Some enc' /\
    context enc' = Some ctx' /\
    gop_size ctx' = 59 /\
    gop_size ctx' <> spec_gop_size 2 30000 1001.
Proof.
  repeat split; try reflexivity.
  eexists; eexists. split; [vm_compute; reflexivity |].
  split; [reflexivity |]. simpl. split; [reflexivity | discriminate].
Qed.

(** ** Reconfiguration *)

Section reconfiguration_facts.
Context {St : Type} `{Ext : Externals St}.

(** [ffmpeg_amf_reconfigure] on a live session, by the two tests it
    makes. *)
Lemma reconfigure_unfold enc settings (ctx : AVCodecContext St) :
  context enc = Some ctx ->
  let rate := to_int64 (obs_data_get_int settings "bitrate" * 1000) in
  let rc := obs_data_get_string settings "rate_control" in
  ffmpeg_amf_reconfigure enc settings =
    Some (true,
          if dynamic_bitrate_api &&
             ((astrcmpi rc "CBR" =? 0) || (astrcmpi rc "VBR" =? 0))
          then with_context
                 (Some (set_rc_max_rate rate (set_bit_rate rate ctx))) enc
          else enc).
Proof.
  intros Hctx rate rc. unfold ffmpeg_amf_reconfigure. fold rc rate.
  rewrite Hctx. simpl.
  destruct dynamic_bitrate_api; [| reflexivity]. simpl.
  destruct ((astrcmpi rc "CBR" =? 0) || (astrcmpi rc "VBR" =? 0));
    reflexivity.
Qed.

(** C6, amended.  On a live session [ffmpeg_amf_reconfigure] always
    answers [true].  In a build whose libavcodec lets the rates of an open
    context change (58.19.101 or later) and in mode CBR or VBR, it sets the
    bit rate and the maximum rate of the context to the bitrate times 1000
    and touches nothing else; in every other mode, CQP among them, it
    leaves the whole session as it found it.  In a build with an older
    libavcodec it leaves the whole session as it found it in every
    mode. *)
Theorem reconfigure_updates_rates enc settings (ctx : AVCodecContext St) :
  context enc = Some ctx ->
  let bitrate := obs_data_get_int settings "bitrate" in
  let rc := obs_data_get_string settings "rate_control" in
  exists enc',
    ffmpeg_amf_reconfigure enc settings = Some (true, enc') /\
    (dynamic_bitrate_api = true ->
     astrcmpi rc "CBR" = 0 \/ astrcmpi rc "VBR" = 0 ->
     INT64_MIN <= bitrate * 1000 <= INT64_MAX ->
       enc' = with_context
                (Some (set_rc_max_rate (bitrate * 1000)
                         (set_bit_rate (bitrate * 1000) ctx))) enc) /\
    (astrcmpi rc "CBR" <> 0 -> astrcmpi rc "VBR" <> 0 -> enc' = enc) /\
    (dynamic_bitrate_api = false -> enc' = enc).
Proof.
  intros Hctx bitrate rc.
  rewrite (reconfigure_unfold enc settings ctx Hctx). fold bitrate rc.
  eexists. split; [reflexivity |]. split; [| split].
  - intros -> Hmode Hrange. rewrite (to_int64_id _ Hrange). simpl.
    destruct Hmode as [-> | ->]; simpl; [reflexivity |].
    rewrite orb_true_r. reflexivity.
  - intros Hcbr Hvbr.
    destruct (Z.eqb_spec (astrcmpi rc "CBR") 0); [contradiction |].
    destruct (Z.eqb_spec (astrcmpi rc "VBR") 0); [contradiction |].
    rewrite andb_false_r. reflexivity.
  - intros ->. reflexivity.
Qed.

(** C10, amended.  Take a session configured in constant-bitrate mode, so
    that configuration set its minimum and its maximum rate to the
    configured bitrate times 1000, and whose minimum rate is still the
    configured one.  A reconfiguration in mode CBR with another bitrate
    leaves the minimum rate at the configured value.  In a build whose
    libavcodec lets the rates of an open context change (58.19.101 or
    later) it sets the bit rate and the maximum rate to the new bitrate
    times 1000, so that the two bounds differ afterwards; in a build with
    an older libavcodec it changes nothing of the session. *)
Theorem reconfigure_keeps_min_rate enc settings0 settings1
    (ctx : AVCodecContext St) (live : ffmpeg_amf_encoder St)
    (live_ctx : AVCodecContext St) :
  context enc = Some ctx ->
  divisible enc settings0 ->
  let rc0 := obs_data_get_string settings0 "rate_control" in
  let bitrate0 := to_int (obs_data_get_int settings0 "bitrate") in
  let rc1 := obs_data_get_string settings1 "rate_control" in
  let bitrate1 := obs_data_get_int settings1 "bitrate" in
  astrcmpi rc0 "cqp" <> 0 ->
  astrcmpi rc0 "vbr" <> 0 ->
  astrcmpi rc1 "CBR" = 0 ->
  INT64_MIN <= bitrate1 * 1000 <= INT64_MAX ->
  bitrate1 <> bitrate0 ->
  context live = Some live_ctx ->
  rc_min_rate live_ctx = bitrate0 * 1000 ->
  exists enc0 ctx0 enc1 ctx1,
    ffmpeg_amf_update_settings enc settings0 = Some enc0 /\
    context enc0 = Some ctx0 /\
    rc_min_rate ctx0 = bitrate0 * 1000 /\
    rc_max_rate ctx0 = bitrate0 * 1000 /\
    ffmpeg_amf_reconfigure live settings1 = Some (true, enc1) /\
    context enc1 = Some ctx1 /\
    rc_min_rate ctx1 = bitrate0 * 1000 /\
    (dynamic_bitrate_api = true ->
       bit_rate ctx1 = bitrate1 * 1000 /\
       rc_max_rate ctx1 = bitrate1 * 1000 /\
       rc_min_rate ctx1 <> rc_max_rate ctx1) /\
    (dynamic_bitrate_api = false -> enc1 = live).
Proof.
  intros Hctx Hdiv rc0 bitrate0 rc1 bitrate1 Hq Hv Hcbr Hrange Hne
    Hlive Hmin.
  destruct (update_settings_fields enc settings0 ctx Hctx Hdiv)
    as (enc0 & ctx0 & Hup & Hc0 & _ & _ & _ & Hmin0 & Hmax0 & _).
  fold rc0 bitrate0 in Hmin0, Hmax0.
  rewrite (update_rate_control_cbr _ _ _ _ Hq Hv) in Hmin0, Hmax0.
  simpl in Hmin0, Hmax0. unfold bitrate0 in Hmin0 at 1, Hmax0 at 1.
  rewrite int_rate_exact in Hmin0, Hmax0.
  pose proof (reconfigure_unfold live settings1 live_ctx Hlive) as Hre.
  cbv zeta in Hre. fold rc1 bitrate1 in Hre.
  rewrite Hcbr, (to_int64_id _ Hrange) in Hre.
  cbn [orb Z.eqb] in Hre.
  exists enc0, ctx0. rewrite Hre.
  destruct dynamic_bitrate_api; cbn [andb].
  - eexists; eexists. split; [exact Hup |]. split; [exact Hc0 |].
    split; [exact Hmin0 |]. split; [exact Hmax0 |].
    split; [reflexivity |]. split; [reflexivity |].
    split; [exact Hmin |]. split; [intros _ | discriminate].
    split; [reflexivity |]. split; [reflexivity |].
    simpl. rewrite Hmin. fold bitrate1. lia.
  - exists live, live_ctx. split; [exact Hup |]. split; [exact Hc0 |].
    split; [exact Hmin0 |]. split; [exact Hmax0 |].
    split; [reflexivity |]. split; [exact Hlive |].
    split; [exact Hmin |]. split; [discriminate | reflexivity].
Qed.

End reconfiguration_facts.


Lemma reconfigure_updates_rates_witness :
  exists enc',
    @ffmpeg_amf_reconfigure script (scripted [] no_script)
      cbr_session cbr_6000 = Some (true, enc') /\
    (bit_rate <$> context enc') = Some 6000000 /\
    (rc_max_rate <$> context enc') = Some 6000000 /\
    (rc_min_rate <$> context enc') = Some 2500000.
Proof.
  destruct (@reconfigure_updates_rates script (scripted [] no_script)
              cbr_session cbr_6000 cbr_context eq_refl)
    as (enc' & Hre & Hset & _).
  exists enc'. split; [exact Hre |].
  rewrite Hset.
  - repeat split; reflexivity.
  - reflexivity.
  - left. reflexivity.
  - vm_compute. split; discriminate.
Defined.

Lemma reconfigure_keeps_min_rate_witness :
  exists enc1 ctx1,
    @ffmpeg_amf_reconfigure script (scripted [] no_script)
      cbr_session cbr_6000 = Some (true, enc1) /\
    context enc1 = Some ctx1 /\
    bit_rate ctx1 = 6000000 /\
    rc_max_rate ctx1 = 6000000 /\
    rc_min_rate ctx1 = 2500000 /\
    rc_min_rate ctx1 <> rc_max_rate ctx1.
Proof.
  destruct (@reconfigure_keeps_min_rate script (scripted [] no_script)
              (allocated_encoder no_script) cbr_2500 cbr_6000
              (scripted_context no_script) cbr_session cbr_context)
    as (_ & _ & enc1 & ctx1 & _ & _ & _ & _ & Hre & Hc & Hmin & Hnew & _);
    try reflexivity; try (vm_compute; discriminate).
  - right. vm_compute. discriminate.
  - vm_compute. split; discriminate.
  - destruct (Hnew eq_refl) as (Hbr & Hmax & Hne).
    exists enc1, ctx1. repeat split; assumption.
Defined.

(** C6 as the spec has it fails in a build whose libavcodec is older than
    58.19.101: there a reconfiguration in mode CBR with a bitrate of 6000
    leaves the bit rate and the maximum rate of the context at the
    2500000 they had. *)
Lemma reconfigure_ignored_by_old_build :
  @dynamic_bitrate_api script (legacy_build no_script) = false /\
  astrcmpi (obs_data_get_string cbr_6000 "rate_control") "CBR" = 0 /\
  obs_data_get_int cbr_6000 "bitrate" * 1000 = 6000000 /\
  exists enc' ctx',
    @ffmpeg_amf_reconfigure script (legacy_build no_script)
      cbr_session cbr_6000 = Some (true, enc') /\
    context enc' = Some ctx' /\
    bit_rate ctx' = 2500000 /\ rc_max_rate ctx' = 2500000 /\
    bit_rate ctx' <> 6000000 /\ rc_max_rate ctx' <> 6000000.
Proof.
  split; [reflexivity |]. split; [reflexivity |]. split; [reflexivity |].
  eexists; eexists. split; [reflexivity |]. split; [reflexivity |].
  split; [reflexivity |]. split; [reflexivity |]. split; discriminate.
Qed.

(** C10 as the spec has it fails in the same build: the session that
    configuration in mode CBR at 2500 leaves is reconfigured in mode CBR
    at 6000, and its minimum rate still equals its maximum rate. *)
Lemma reconfigure_old_build_keeps_bounds :
  @ffmpeg_amf_update_settings script (legacy_build no_script)
    (allocated_encoder no_script) cbr_2500 = Some cbr_session /\
  astrcmpi (obs_data_get_string cbr_2500 "rate_control") "CBR" = 0 /\
  astrcmpi (obs_data_get_string cbr_6000 "rate_control") "CBR" = 0 /\
  obs_data_get_int cbr_6000 "bitrate" <> obs_data_get_int cbr_2500 "bitrate" /\
  exists enc1 ctx1,
    @ffmpeg_amf_reconfigure script (legacy_build no_script)
      cbr_session cbr_6000 = Some (true, enc1) /\
    context enc1 = Some ctx1 /\
    rc_min_rate ctx1 = 2500000 /\ rc_max_rate ctx1 = 2500000 /\
    ~ rc_min_rate ctx1 <> rc_max_rate ctx1.
Proof.
  split; [vm_compute; reflexivity |]. split; [reflexivity |].
  split; [reflexivity |]. split; [discriminate |].
  eexists; eexists. split; [reflexivity |]. split; [reflexivity |].
  split; [reflexivity |]. split; [reflexivity |].
  intros Hne. apply Hne. reflexivity.
Qed.

(** ** Pixel plane copier *)

Lemma memcpy_spec (dst src : list byte) (pd ps n : Z) :
  0 <= n -> 0 <= pd -> 0 <= ps ->
  pd + n <= Z.of_nat (length dst) ->
  ps + n <= Z.of_nat (length src) ->
  exists dst',
    memcpy dst pd src ps n = Some dst' /\
    length dst' = length dst /\
    (forall x, 0 <= x < n ->
       dst' !! Z.to_nat (pd + x) = src !! Z.to_nat (ps + x)) /\
    (forall i : nat, ~ (pd <= Z.of_nat i < pd + n) -> dst' !! i = dst !! i).
Proof.
  intros Hn Hpd Hps Hd Hs. unfold memcpy.
  rewrite decide_True by tauto.
  eexists. split; [reflexivity |].
  assert (length (take (Z.to_nat pd) dst) = Z.to_nat pd) as Ltake
    by (rewrite length_take; lia).
  assert (length (take (Z.to_nat n) (drop (Z.to_nat ps) src)) = Z.to_nat n)
    as Lmid by (rewrite length_take, length_drop; lia).
  split; [| split].
  - rewrite !length_app, Ltake, Lmid, length_drop. lia.
  - intros x Hx.
    rewrite lookup_app_r by (rewrite Ltake; lia).
    rewrite lookup_app_l by (rewrite Ltake, Lmid; lia).
    rewrite lookup_take_lt by (rewrite Ltake; lia).
    rewrite lookup_drop, Ltake. f_equal. lia.
  - intros i Hi.
    destruct (decide (Z.of_nat i < pd)) as [Hlt | Hge].
    + rewrite lookup_app_l by (rewrite Ltake; lia).
      apply lookup_take_lt. lia.
    + rewrite lookup_app_r by (rewrite Ltake; lia).
      rewrite lookup_app_r by (rewrite Ltake, Lmid; lia).
      rewrite lookup_drop, Ltake, Lmid. f_equal. lia.
Qed.

Lemma row_bytes_min pic frame plane :
  row_bytes pic frame plane =
    Z.min (frame_rowsize frame plane) (pic_rowsize pic plane).
Proof.
  unfold row_bytes.
  destruct (Z.ltb_spec (frame_rowsize frame plane) (pic_rowsize pic plane));
    lia.
Qed.

(** The row loop from row [y0] on. *)
Lemma copy_rows_spec (rows : nat) : forall (y0 : Z) (dst src : list byte)
    (pr fr bytes : Z),
  0 <= y0 -> 0 <= bytes -> bytes <= pr -> bytes <= fr ->
  (y0 + Z.of_nat rows) * pr <= INT_MAX ->
  (y0 + Z.of_nat rows) * fr <= INT_MAX ->
  ((0 < rows)%nat ->
     (y0 + Z.of_nat rows - 1) * pr + bytes <= Z.of_nat (length dst) /\
     (y0 + Z.of_nat rows - 1) * fr + bytes <= Z.of_nat (length src)) ->
  exists dst',
    copy_rows rows y0 dst src pr fr bytes = Some dst' /\
    length dst' = length dst /\
    (forall y x, y0 <= y < y0 + Z.of_nat rows -> 0 <= x < bytes ->
       is_Some (src !! Z.to_nat (y * fr + x)) /\
       dst' !! Z.to_nat (y * pr + x) = src !! Z.to_nat (y * fr + x)) /\
    (forall i : nat,
       (forall y x, y0 <= y < y0 + Z.of_nat rows -> 0 <= x < bytes ->
          Z.of_nat i <> y * pr + x) ->
       dst' !! i = dst !! i).
Proof.
  induction rows as [| rows IH];
    intros y0 dst src pr fr bytes Hy Hb Hbp Hbf Hpr Hfr Hfit.
  - exists dst. simpl. split; [reflexivity |]. split; [reflexivity |].
    split; [intros; lia | reflexivity].
  - destruct Hfit as [Hfd Hfs]; [lia |].
    assert (0 <= pr) as Hpr0 by lia. assert (0 <= fr) as Hfr0 by lia.
    assert (y0 * pr <= (y0 + Z.of_nat (S rows) - 1) * pr) as Hrow_p by nia.
    assert (y0 * fr <= (y0 + Z.of_nat (S rows) - 1) * fr) as Hrow_f by nia.
    assert (0 <= y0 * pr) as Hyp by nia. assert (0 <= y0 * fr) as Hyf by nia.
    assert (y0 * pr <= INT_MAX) as Hip by nia.
    assert (y0 * fr <= INT_MAX) as Hif by nia.
    simpl copy_rows.
    rewrite (to_int_id (y0 * fr)) by (unfold INT_MIN, INT_MAX in *; lia).
    rewrite (to_int_id (y0 * pr)) by (unfold INT_MIN, INT_MAX in *; lia).
    destruct (memcpy_spec dst src (y0 * pr) (y0 * fr) bytes)
      as (dst1 & Hcp & Hlen1 & Hin1 & Hout1); try lia.
    rewrite Hcp. simpl.
    assert ((0 < rows)%nat ->
            (y0 + 1 + Z.of_nat rows - 1) * pr + bytes
              <= Z.of_nat (length dst1) /\
            (y0 + 1 + Z.of_nat rows - 1) * fr + bytes
              <= Z.of_nat (length src)) as Hfit'.
    { intros _. rewrite Hlen1.
      replace (y0 + 1 + Z.of_nat rows - 1)
        with (y0 + Z.of_nat (S rows) - 1) by lia.
      split; assumption. }
    destruct (IH (y0 + 1) dst1 src pr fr bytes
                ltac:(lia) Hb Hbp Hbf
                ltac:(replace (y0 + 1 + Z.of_nat rows)
                        with (y0 + Z.of_nat (S rows)) by lia; exact Hpr)
                ltac:(replace (y0 + 1 + Z.of_nat rows)
                        with (y0 + Z.of_nat (S rows)) by lia; exact Hfr)
                Hfit')
      as (dst' & Hrec & Hlen' & Hin' & Hout').
    exists dst'. split; [exact Hrec |]. split; [congruence |]. split.
    + intros y x Hyr Hx.
      destruct (decide (y = y0)) as [-> | Hne].
      * split.
        -- apply lookup_lt_is_Some. nia.
        -- rewrite Hout'.
           ++ apply Hin1. exact Hx.
           ++ intros y' x' Hy' Hx'. rewrite Z2Nat.id by lia. nia.
      * apply Hin'; lia.
    + intros i Hi. rewrite Hout'.
      * apply Hout1. intros Hrange.
        apply (Hi y0 (Z.of_nat i - y0 * pr)); lia.
      * intros y x Hyr Hx. apply Hi; lia.
Qed.

Lemma plane_rows_copied (dst src : list byte) (pr fr ph : Z) :
  plane_fits dst src pr fr ph ->
  exists dst',
    copy_rows (Z.to_nat ph) 0 dst src pr fr (Z.min fr pr) = Some dst' /\
    plane_copied dst' dst src pr fr (Z.min fr pr) ph.
Proof.
  intros (Hfr & Hpr & Hif & Hip & Hfit).
  assert (0 <= INT_MAX) as Hmax by (unfold INT_MAX; lia).
  assert ((0 + Z.of_nat (Z.to_nat ph)) * pr <= INT_MAX) as Hp.
  { destruct (Z.le_gt_cases ph 0).
    - rewrite Z2Nat.nonpos by lia. simpl. exact Hmax.
    - rewrite Z2Nat.id by lia. exact Hip. }
  assert ((0 + Z.of_nat (Z.to_nat ph)) * fr <= INT_MAX) as Hf.
  { destruct (Z.le_gt_cases ph 0).
    - rewrite Z2Nat.nonpos by lia. simpl. exact Hmax.
    - rewrite Z2Nat.id by lia. exact Hif. }
  assert ((0 < Z.to_nat ph)%nat ->
          (0 + Z.of_nat (Z.to_nat ph) - 1) * pr + Z.min fr pr
            <= Z.of_nat (length dst) /\
          (0 + Z.of_nat (Z.to_nat ph) - 1) * fr + Z.min fr pr
            <= Z.of_nat (length src)) as Hroom.
  { intros Hpos. assert (0 < ph) as Hph by lia.
    rewrite Z2Nat.id by lia. simpl. apply Hfit. exact Hph. }
  destruct (copy_rows_spec (Z.to_nat ph) 0 dst src pr fr (Z.min fr pr)
              ltac:(lia) ltac:(lia) ltac:(lia) ltac:(lia) Hp Hf Hroom)
    as (dst' & Hcp & Hlen & Hin & Hout).
  exists dst'. split; [exact Hcp |]. split; [exact Hlen |]. split.
  - intros y x Hy Hx. apply Hin; lia.
  - intros i Hi. apply Hout. intros y x Hy Hx. apply Hi; lia.
Qed.

(** The plane loop from plane [plane] on. *)
Lemma copy_planes_spec (frame : encoder_frame) (height v : Z) (planes : nat) :
  forall (plane : nat) (pic : AVFrame),
  (forall q src, (plane <= q < plane + planes)%nat ->
     ef_data frame !! q = Some (Some src) ->
     plane_fits (default [] (vf_data pic !! q)) src
       (pic_rowsize pic q) (frame_rowsize frame q)
       (plane_height height q v)) ->
  exists pic',
    copy_planes planes plane pic frame height v = Some pic' /\
    vf_linesize pic' = vf_linesize pic /\
    (forall q src, (plane <= q < plane + planes)%nat ->
       ef_data frame !! q = Some (Some src) ->
       plane_copied (default [] (vf_data pic' !! q))
         (default [] (vf_data pic !! q)) src
         (pic_rowsize pic q) (frame_rowsize frame q)
         (row_bytes pic frame q) (plane_height height q v)) /\
    (forall q,
       ~ (plane <= q < plane + planes)%nat \/
       ef_data frame !! q = None \/ ef_data frame !! q = Some None ->
       vf_data pic' !! q = vf_data pic !! q).
Proof.
  induction planes as [| planes IH]; intros plane pic Hfits.
  - exists pic. simpl. split; [reflexivity |]. split; [reflexivity |].
    split; [intros; lia | reflexivity].
  - simpl copy_planes.
    destruct (ef_data frame !! plane) as [[src |] |] eqn:Hsrc.
    + destruct (plane_rows_copied _ _ _ _ _ (Hfits plane src ltac:(lia) Hsrc))
        as (dst1 & Hcp & Hcopied).
      rewrite row_bytes_min, Hcp. simpl.
      set (pic1 := set_vf_data (<[plane:=dst1]> (vf_data pic)) pic).
      destruct (IH (S plane) pic1) as (pic' & Hrec & Hls & Hin & Hout).
      { intros q src' Hq Hq'. unfold pic1. simpl.
        rewrite list_lookup_insert_ne by lia.
        apply Hfits; [lia | exact Hq']. }
      exists pic'. split; [exact Hrec |]. split; [exact Hls |]. split.
      * intros q src' Hq Hq'.
        destruct (decide (q = plane)) as [-> | Hne].
        -- assert (src' = src) as -> by congruence.
           rewrite (Hout plane) by (left; lia).
           assert (default [] (vf_data pic1 !! plane) = dst1) as ->.
           { unfold pic1. simpl.
             destruct (decide (plane < length (vf_data pic))%nat) as [Hl | Hl].
             - rewrite list_lookup_insert_eq by exact Hl. reflexivity.
             - rewrite list_insert_ge by lia.
               rewrite (lookup_ge_None_2 (vf_data pic) plane) by lia. simpl.
               destruct Hcopied as (Hlen & _).
               rewrite (lookup_ge_None_2 (vf_data pic) plane) in Hlen by lia.
               simpl in Hlen. symmetry. apply nil_length_inv. exact Hlen. }
           rewrite row_bytes_min. exact Hcopied.
        -- specialize (Hin q src' ltac:(lia) Hq').
           unfold pic1 in Hin. simpl in Hin.
           rewrite list_lookup_insert_ne in Hin by lia. exact Hin.
      * intros q Hq. rewrite Hout.
        -- unfold pic1. simpl. apply list_lookup_insert_ne.
           intros ->. destruct Hq as [Hq | [Hq | Hq]]; [lia | congruence ..].
        -- destruct Hq as [Hq | Hq]; [left; lia | right; exact Hq].
    + destruct (IH (S plane) pic) as (pic' & Hrec & Hls & Hin & Hout).
      { intros q src' Hq Hq'. apply Hfits; [lia | exact Hq']. }
      exists pic'. split; [exact Hrec |]. split; [exact Hls |]. split.
      * intros q src' Hq Hq'. apply Hin; [| exact Hq'].
        destruct (decide (q = plane)) as [-> | Hne]; [congruence | lia].
      * intros q Hq. apply Hout.
        destruct (decide (q = plane)) as [-> | Hne]; [left; lia |].
        destruct Hq as [Hq | Hq]; [left; lia | right; exact Hq].
    + destruct (IH (S plane) pic) as (pic' & Hrec & Hls & Hin & Hout).
      { intros q src' Hq Hq'. apply Hfits; [lia | exact Hq']. }
      exists pic'. split; [exact Hrec |]. split; [exact Hls |]. split.
      * intros q src' Hq Hq'. apply Hin; [| exact Hq'].
        destruct (decide (q = plane)) as [-> | Hne]; [congruence | lia].
      * intros q Hq. apply Hout.
        destruct (decide (q = plane)) as [-> | Hne]; [left; lia |].
        destruct Hq as [Hq | Hq]; [left; lia | right; exact Hq].
Qed.

Lemma plane_height_luma height v : plane_height height 0 v = height.
Proof. unfold plane_height. apply Z.shiftr_0_r. Qed.

Lemma plane_height_chroma height plane v :
  plane_height height (S plane) v = Z.shiftr height v.
Proof. reflexivity. Qed.

Section copier_facts.
Context {St : Type} `{Ext : Externals St}.

(** C5.  For a destination format libavutil knows, and buffers that hold
    the rows to be copied, [copy_data] has a result.  For each of the
    [MAX_AV_PLANES] planes the source has, and with [bytes] the smaller of
    the two row strides, it copies [bytes] bytes a row for [plane_height]
    rows, the full height for plane 0 and the height shifted by the
    vertical chroma shift of the format for the others: the destination
    holds the bytes of the source in every such row, and every byte of the
    destination outside these rows of [bytes] bytes is as it was.  A
    plane the source does not have is left alone.  The buffers need not
    reach beyond the last byte copied, so nothing beyond it is read or
    written. *)
Theorem copy_data_copies_planes (pic : AVFrame) (frame : encoder_frame)
    (height : Z) (format : AVPixelFormat) (h_shift v_shift : Z) :
  av_pix_fmt_get_chroma_sub_sample format = Some (h_shift, v_shift) ->
  frame_fits pic frame height v_shift ->
  exists pic',
    copy_data pic frame height format = Some pic' /\
    vf_linesize pic' = vf_linesize pic /\
    (forall plane src, (plane < MAX_AV_PLANES)%nat ->
       ef_data frame !! plane = Some (Some src) ->
       plane_copied (default [] (vf_data pic' !! plane))
         (default [] (vf_data pic !! plane)) src
         (pic_rowsize pic plane) (frame_rowsize frame plane)
         (Z.min (frame_rowsize frame plane) (pic_rowsize pic plane))
         (plane_height height plane v_shift)) /\
    (forall plane,
       ef_data frame !! plane = None \/ ef_data frame !! plane = Some None \/
       (MAX_AV_PLANES <= plane)%nat ->
       vf_data pic' !! plane = vf_data pic !! plane).
Proof.
  intros Hfmt Hfits. unfold copy_data. rewrite Hfmt. simpl.
  destruct (copy_planes_spec frame height v_shift MAX_AV_PLANES 0%nat pic)
    as (pic' & Hcp & Hls & Hin & Hout).
  { intros q src Hq Hsrc. apply Hfits; [lia | exact Hsrc]. }
  exists pic'. split; [exact Hcp |]. split; [exact Hls |]. split.
  - intros plane src Hp Hsrc. rewrite <- row_bytes_min.
    apply Hin; [lia | exact Hsrc].
  - intros plane Hp. apply Hout.
    destruct Hp as [Hp | [Hp | Hp]]; [tauto | tauto | left; lia].
Qed.

End copier_facts.

Lemma nv12_frame_fits :
  @frame_fits script (scripted [] no_script) nv12_pic nv12_frame 2 1.
Proof.
  intros plane src Hplane Hsrc.
  destruct plane as [| [| plane]].
  - injection Hsrc as <-. vm_compute. repeat split; discriminate.
  - injection Hsrc as <-. vm_compute. repeat split; discriminate.
  - destruct plane as [| plane]; [discriminate |].
    simpl in Hsrc. rewrite lookup_nil in Hsrc. discriminate.
Qed.

Lemma copy_data_copies_planes_witness :
  exists pic',
    @copy_data script (scripted [] no_script) nv12_pic nv12_frame 2 23
      = Some pic' /\
    vf_data pic' =
      [ [Byte.x01; Byte.x02; Byte.x03; Byte.x04;
         Byte.x00; Byte.x00; Byte.x00; Byte.x00;
         Byte.x05; Byte.x06; Byte.x07; Byte.x08;
         Byte.x00; Byte.x00; Byte.x00; Byte.x00];
        [Byte.x09; Byte.x0a; Byte.x0b; Byte.x0c;
         Byte.x00; Byte.x00; Byte.x00; Byte.x00] ].
Proof.
  destruct (@copy_data_copies_planes script (scripted [] no_script)
              nv12_pic nv12_frame 2 23 1 1 eq_refl nv12_frame_fits)
    as (pic' & Hcp & _).
  exists pic'. split; [exact Hcp |].
  vm_compute in Hcp. injection Hcp as <-. reflexivity.
Defined.

(** ** Encode loop *)

Section encode_facts.
Context {St : Type} `{Ext : Externals St}.

(** [ffmpeg_amf_encode] by what submission and retrieval answered. *)
Lemma encode_cases enc frame packet received (ctx : AVCodecContext St)
    pic pic1 ret got av_pkt ctx1 :
  context enc = Some ctx ->
  vframe enc = Some pic ->
  copy_data pic frame (enc_height enc) (pix_fmt ctx) = Some pic1 ->
  submit_and_receive ctx (set_vf_pts (ef_pts frame) pic1)
    = (ret, got, av_pkt, ctx1) ->
  let enc1 :=
    with_vframe (Some (set_vf_pts (ef_pts frame) pic1))
      (with_context (Some ctx1) enc) in
  let enc2 :=
    with_buffer (pkt_data av_pkt)
      (if first_packet enc then
         with_first_packet false
           (if negb (Z.of_nat (length (extradata ctx1)) =? 0)
            then with_header (extradata ctx1) enc1 else enc1)
       else enc1) in
  ffmpeg_amf_encode enc frame packet received =
    Some
      (if ret <? 0 then (false, enc1, packet, received)
       else if got && negb (pkt_size av_pkt =? 0) then
         (true, enc2,
          {| ep_data := pkt_data av_pkt;
             ep_size := Z.of_nat (length (pkt_data av_pkt));
             ep_pts := pkt_pts av_pkt;
             ep_dts := pkt_dts av_pkt;
             ep_type := OBS_ENCODER_VIDEO;
             ep_keyframe :=
               negb (Z.land (pkt_flags av_pkt) AV_PKT_FLAG_KEY =? 0) |},
          true)
       else (true, enc1, packet, false)).
Proof.
  intros Hctx Hpic Hcopy Hsr enc1 enc2.
  unfold ffmpeg_amf_encode. rewrite Hctx, Hpic. simpl.
  rewrite Hcopy. simpl. rewrite Hsr.
  destruct (ret <? 0); [reflexivity |].
  destruct (got && negb (pkt_size av_pkt =? 0)); [| reflexivity].
  unfold enc2, enc1. destruct (first_packet enc); reflexivity.
Qed.

Lemma encode_inv enc frame packet received r :
  ffmpeg_amf_encode enc frame packet received = Some r ->
  exists (ctx : AVCodecContext St) pic pic1 ret got av_pkt ctx1,
    context enc = Some ctx /\
    vframe enc = Some pic /\
    copy_data pic frame (enc_height enc) (pix_fmt ctx) = Some pic1 /\
    submit_and_receive ctx (set_vf_pts (ef_pts frame) pic1)
      = (ret, got, av_pkt, ctx1).
Proof.
  unfold ffmpeg_amf_encode. intros Henc.
  destruct (context enc) as [ctx |] eqn:Hctx; [| discriminate].
  destruct (vframe enc) as [pic |] eqn:Hpic; [| discriminate].
  simpl in Henc.
  destruct (copy_data pic frame (enc_height enc) (pix_fmt ctx))
    as [pic1 |] eqn:Hcopy; [| discriminate].
  destruct (submit_and_receive ctx (set_vf_pts (ef_pts frame) pic1))
    as [[[ret got] av_pkt] ctx1] eqn:Hsr.
  exists ctx, pic, pic1, ret, got, av_pkt, ctx1.
  repeat split; first [assumption | reflexivity].
Qed.

(** What the two calls of the send/receive build answer, by cases. *)
Lemma submit_and_receive_cases (ctx : AVCodecContext St) vf :
  send_receive_api = true ->
  let sent := avcodec_send_frame ctx vf in
  let got := avcodec_receive_packet sent.2 in
  let quiet ret := (ret =? AVERROR_EOF) || (ret =? AVERROR EAGAIN) in
  submit_and_receive ctx vf =
    if sent.1 =? 0
    then (if quiet got.1.1 then 0 else got.1.1,
          got.1.1 =? 0, got.1.2, got.2)
    else (if quiet sent.1 then 0 else sent.1, false, blank_packet, sent.2).
Proof.
  intros Hapi sent got quiet. unfold submit_and_receive. rewrite Hapi.
  fold sent. destruct sent as [s ctx1] eqn:Hsent. simpl.
  subst got. simpl.
  destruct (Z.eqb_spec s 0) as [-> | Hs].
  - destruct (avcodec_receive_packet ctx1) as [[r pkt] ctx2]. reflexivity.
  - destruct (Z.eqb_spec s 0) as [| _]; [contradiction | reflexivity].
Qed.

(** C4, amended.  In a build with the send/receive interface, an answer
    "no packet ready yet" ([AVERROR(EAGAIN)]) or "session drained"
    ([AVERROR_EOF]), of the retrieval or of the submission, is no error:
    [ffmpeg_amf_encode] answers [true] with [*received_packet] false and
    the caller's packet untouched.  Any other negative answer of the
    submission or of the retrieval makes it answer [false].  A retrieved
    packet of size zero gives [true] with [*received_packet] false.  In a
    build without that interface every negative answer of the one call
    that submits and retrieves, these two included, makes it answer
    [false]; an answer that is not negative and comes without a packet or
    with a packet of size zero gives [true] with [*received_packet]
    false. *)
Theorem encode_treats_answers enc frame packet received
    (ctx : AVCodecContext St) pic pic1 :
  context enc = Some ctx ->
  vframe enc = Some pic ->
  copy_data pic frame (enc_height enc) (pix_fmt ctx) = Some pic1 ->
  let sent := avcodec_send_frame ctx (set_vf_pts (ef_pts frame) pic1) in
  let got := avcodec_receive_packet sent.2 in
  let both :=
    avcodec_encode_video2 ctx (Some (set_vf_pts (ef_pts frame) pic1)) in
  let benign ret := ret = AVERROR_EOF \/ ret = AVERROR EAGAIN in
  exists r,
    ffmpeg_amf_encode enc frame packet received = Some r /\
    (send_receive_api = true ->
       ((sent.1 < 0 /\ benign sent.1) \/
        (sent.1 = 0 /\ got.1.1 < 0 /\ benign got.1.1) ->
          answer_ok r = true /\ answer_received r = false /\
          answer_packet r = packet) /\
       ((sent.1 < 0 /\ ~ benign sent.1) \/
        (sent.1 = 0 /\ got.1.1 < 0 /\ ~ benign got.1.1) ->
          answer_ok r = false /\ answer_received r = received /\
          answer_packet r = packet) /\
       (sent.1 = 0 -> got.1.1 = 0 -> pkt_size got.1.2 = 0 ->
          answer_ok r = true /\ answer_received r = false /\
          answer_packet r = packet)) /\
    (send_receive_api = false ->
       (both.1.1.1 < 0 ->
          answer_ok r = false /\ answer_received r = received /\
          answer_packet r = packet) /\
       (0 <= both.1.1.1 -> both.1.2 = 0 \/ pkt_size both.1.1.2 = 0 ->
          answer_ok r = true /\ answer_received r = false /\
          answer_packet r = packet)).
Proof.
  intros Hctx Hpic Hcopy sent got both benign.
  destruct send_receive_api eqn:Hapi.
  - pose proof (submit_and_receive_cases ctx
                  (set_vf_pts (ef_pts frame) pic1) Hapi) as Hsr.
    simpl in Hsr. fold sent got in Hsr.
    destruct (submit_and_receive ctx (set_vf_pts (ef_pts frame) pic1))
      as [[[ret g] av_pkt] ctx1] eqn:Hans.
    rewrite (encode_cases enc frame packet received ctx pic pic1
               ret g av_pkt ctx1 Hctx Hpic Hcopy Hans).
    eexists. split; [reflexivity |]. split; [intros _ | discriminate].
    assert (forall x, benign x ->
              (x =? AVERROR_EOF) || (x =? AVERROR EAGAIN) = true) as Hquiet.
    { intros x [-> | ->]; rewrite Z.eqb_refl; [reflexivity |].
      apply orb_true_r. }
    assert (forall x, ~ benign x ->
              (x =? AVERROR_EOF) || (x =? AVERROR EAGAIN) = false) as Hloud.
    { intros x Hx. unfold benign in Hx.
      destruct (Z.eqb_spec x AVERROR_EOF); [tauto |].
      destruct (Z.eqb_spec x (AVERROR EAGAIN)); [tauto | reflexivity]. }
    split; [| split].
    + intros [[Hneg Hb] | [Hz [Hneg Hb]]].
      * destruct (Z.eqb_spec sent.1 0) as [| _]; [lia |].
        rewrite (Hquiet _ Hb) in Hsr. injection Hsr as -> -> -> ->.
        simpl. repeat split; reflexivity.
      * rewrite Hz in Hsr. simpl in Hsr.
        rewrite (Hquiet _ Hb) in Hsr. injection Hsr as -> -> -> ->.
        destruct (Z.eqb_spec got.1.1 0) as [| _]; [lia |].
        simpl. repeat split; reflexivity.
    + intros [[Hneg Hb] | [Hz [Hneg Hb]]].
      * destruct (Z.eqb_spec sent.1 0) as [| _]; [lia |].
        rewrite (Hloud _ Hb) in Hsr. injection Hsr as -> -> -> ->.
        destruct (Z.ltb_spec sent.1 0); [| lia].
        simpl. repeat split; reflexivity.
      * rewrite Hz in Hsr. simpl in Hsr.
        rewrite (Hloud _ Hb) in Hsr. injection Hsr as -> -> -> ->.
        destruct (Z.ltb_spec got.1.1 0); [| lia].
        simpl. repeat split; reflexivity.
    + intros Hz Hr Hsize.
      assert (forall b : bool, (if b then 0 else 0) = 0) as Hzero
        by (intros []; reflexivity).
      rewrite Hz, Z.eqb_refl, Hr, Hzero in Hsr.
      injection Hsr as -> -> -> ->.
      rewrite Hsize. simpl. repeat split; reflexivity.
  - assert (submit_and_receive ctx (set_vf_pts (ef_pts frame) pic1)
            = (both.1.1.1, negb (both.1.2 =? 0), both.1.1.2, both.2))
      as Hsr.
    { unfold submit_and_receive. rewrite Hapi. fold both.
      destruct both as [[[ret pkt] g] ctx1]. reflexivity. }
    rewrite (encode_cases enc frame packet received ctx pic pic1
               _ _ _ _ Hctx Hpic Hcopy Hsr).
    eexists. split; [reflexivity |]. split; [discriminate | intros _].
    split.
    + intros Hneg. destruct (Z.ltb_spec both.1.1.1 0); [| lia].
      simpl. repeat split; reflexivity.
    + intros Hpos Hnone. destruct (Z.ltb_spec both.1.1.1 0); [lia |].
      destruct Hnone as [-> | ->]; simpl;
        rewrite ?andb_false_r; simpl; repeat split; reflexivity.
Qed.

End encode_facts.

Lemma encode_treats_answers_witness :
  (exists r,
     @ffmpeg_amf_encode script ffmpeg_5_1 busy_session nv12_frame
       no_packet true = Some r /\
     answer_ok r = true /\ answer_received r = false /\
     answer_packet r = no_packet) /\
  (exists r,
     @ffmpeg_amf_encode script (legacy_build no_script) busy_session
       nv12_frame no_packet true = Some r /\
     answer_ok r = false /\ answer_received r = true /\
     answer_packet r = no_packet).
Proof.
  split.
  - edestruct (@encode_treats_answers script ffmpeg_5_1 busy_session
                 nv12_frame no_packet true) as (r & Henc & Hnew & _).
    + reflexivity.
    + reflexivity.
    + vm_compute. reflexivity.
    + exists r. split; [exact Henc |].
      destruct (Hnew eq_refl) as (Hquiet & _). apply Hquiet.
      right. vm_compute. repeat split; try discriminate. right. reflexivity.
  - edestruct (@encode_treats_answers script (legacy_build no_script)
                 busy_session nv12_frame no_packet true)
      as (r & Henc & _ & Hold).
    + reflexivity.
    + reflexivity.
    + vm_compute. reflexivity.
    + exists r. split; [exact Henc |].
      destruct (Hold eq_refl) as (Hfail & _). apply Hfail.
      vm_compute. reflexivity.
Defined.

(** C4 as the spec has it fails twice.  For the submission: when
    [avcodec_send_frame] answers [AVERROR(EAGAIN)], a negative answer that
    is not one of the retrieval, [ffmpeg_amf_encode] answers [true].  For
    the build: without the send/receive interface an answer
    [AVERROR(EAGAIN)] of the call that retrieves makes
    [ffmpeg_amf_encode] answer [false]. *)
Lemma encode_accepts_refused_submission :
  (exists ctx pic1 r,
     context refusing_session = Some ctx /\
     (@avcodec_send_frame script ffmpeg_5_1 ctx pic1).1
       = AVERROR (@EAGAIN script ffmpeg_5_1) /\
     AVERROR (@EAGAIN script ffmpeg_5_1) < 0 /\
     @ffmpeg_amf_encode script ffmpeg_5_1 refusing_session nv12_frame
       no_packet true = Some r /\
     answer_ok r = true /\
     answer_ok r <> false) /\
  (exists ctx pic1 r,
     context busy_session = Some ctx /\
     (@avcodec_encode_video2 script (legacy_build no_script) ctx
        (Some pic1)).1.1.1
       = AVERROR (@EAGAIN script (legacy_build no_script)) /\
     @ffmpeg_amf_encode script (legacy_build no_script) busy_session
       nv12_frame no_packet true = Some r /\
     answer_ok r = false /\
     answer_ok r <> true).
Proof.
  split.
  - eexists; exists nv12_pic; eexists.
    split; [reflexivity |]. split; [reflexivity |]. split; [reflexivity |].
    split; [vm_compute; reflexivity |]. split; [reflexivity | discriminate].
  - eexists; exists nv12_pic; eexists.
    split; [reflexivity |]. split; [reflexivity |].
    split; [vm_compute; reflexivity |]. split; [reflexivity | discriminate].
Qed.

(** ** The header buffer *)

Section header_facts.
Context {St : Type} `{Ext : Externals St}.

(** One call and the header: a call that hands no packet to the caller
    leaves the header and the first-packet flag alone; a call that hands
    one out clears the flag and, when the flag was set, takes the header
    from the extradata the session then shows. *)
Lemma encode_header_step enc frame packet received (r : encode_answer) :
  ffmpeg_amf_encode enc frame packet received = Some r ->
  (produced r = false ->
     header (answer_session r) = header enc /\
     first_packet (answer_session r) = first_packet enc) /\
  (produced r = true ->
     first_packet (answer_session r) = false /\
     header (answer_session r) =
       if first_packet enc
       then (if Z.of_nat (length (shown_extradata r)) =? 0
             then header enc else shown_extradata r)
       else header enc).
Proof.
  intros Henc.
  destruct (encode_inv _ _ _ _ _ Henc)
    as (ctx & pic & pic1 & ret & got & av_pkt & ctx1 & Hctx & Hpic & Hcopy
        & Hsr).
  rewrite (encode_cases enc frame packet received ctx pic pic1
             ret got av_pkt ctx1 Hctx Hpic Hcopy Hsr) in Henc.
  injection Henc as <-.
  destruct (ret <? 0).
  { split; [intros _; split; reflexivity | discriminate]. }
  destruct (got && negb (pkt_size av_pkt =? 0)).
  - split; [discriminate |]. intros _.
    unfold shown_extradata, answer_session. simpl.
    destruct (first_packet enc) eqn:Hfp; simpl.
    + destruct (Z.of_nat (length (extradata ctx1)) =? 0) eqn:Hlen;
        simpl; rewrite ?Hlen; split; reflexivity.
    + rewrite Hfp. split; reflexivity.
  - split; [intros _; split; reflexivity | discriminate].
Qed.

Lemma encode_sequence_cons enc frame packet received calls
    (rs : list encode_answer) :
  encode_sequence enc ((frame, packet, received) :: calls) = Some rs ->
  exists r rs',
    ffmpeg_amf_encode enc frame packet received = Some r /\
    encode_sequence (answer_session r) calls = Some rs' /\
    rs = r :: rs'.
Proof.
  simpl. intros Hseq.
  destruct (ffmpeg_amf_encode enc frame packet received) as [r |];
    [| discriminate].
  simpl in Hseq.
  destruct (encode_sequence (answer_session r) calls) as [rs' |] eqn:Hrest;
    [| discriminate].
  injection Hseq as <-. exists r, rs'.
  repeat split; first [assumption | reflexivity].
Qed.

(** Once the first-packet flag is cleared the header stays. *)
Lemma header_frozen calls : forall enc (rs : list encode_answer),
  first_packet enc = false ->
  encode_sequence enc calls = Some rs ->
  forall i r, rs !! i = Some r -> header (answer_session r) = header enc.
Proof.
  induction calls as [| [[frame packet] received] calls IH];
    intros enc rs Hfp Hseq i r Hr.
  - injection Hseq as <-. rewrite lookup_nil in Hr. discriminate.
  - destruct (encode_sequence_cons _ _ _ _ _ _ Hseq)
      as (r0 & rs' & Henc & Hrest & ->).
    destruct (encode_header_step _ _ _ _ _ Henc) as [Hquiet Hloud].
    assert (header (answer_session r0) = header enc /\
            first_packet (answer_session r0) = false) as [Hh Hf].
    { destruct (produced r0).
      - destruct (Hloud eq_refl) as [Hf Hh]. rewrite Hfp in Hh. tauto.
      - destruct (Hquiet eq_refl) as [Hh Hf]. rewrite Hfp in Hf. tauto. }
    destruct i as [| i].
    + injection Hr as <-. exact Hh.
    + rewrite <- Hh. apply (IH _ rs' Hf Hrest i r). exact Hr.
Qed.

(** C3.  Take a session whose first-packet flag is set and whose header
    buffer is empty, as [ffmpeg_amf_create] leaves it, and any sequence of
    encode calls on it.  As long as no call has handed out a packet the
    header buffer is empty.  The first call that hands out a packet fills
    it with the extradata the session shows at that call, and after every
    later call, whether or not it hands out a packet, the header buffer
    holds these same bytes. *)
Theorem header_captured_once enc calls (rs : list encode_answer) :
  first_packet enc = true ->
  header enc = [] ->
  encode_sequence enc calls = Some rs ->
  (forall i r, rs !! i = Some r ->
     (forall j rj, (j <= i)%nat -> rs !! j = Some rj -> produced rj = false) ->
     header (answer_session r) = []) /\
  (forall k rk, rs !! k = Some rk ->
     produced rk = true ->
     (forall j rj, (j < k)%nat -> rs !! j = Some rj -> produced rj = false) ->
     forall i r, (k <= i)%nat -> rs !! i = Some r ->
       header (answer_session r) = shown_extradata rk).
Proof.
  revert enc rs.
  induction calls as [| [[frame packet] received] calls IH];
    intros enc rs Hfp Hempty Hseq.
  { injection Hseq as <-.
    split; intros; rewrite lookup_nil in *; discriminate. }
  destruct (encode_sequence_cons _ _ _ _ _ _ Hseq)
    as (r0 & rs' & Henc & Hrest & ->).
  destruct (encode_header_step _ _ _ _ _ Henc) as [Hquiet Hloud].
  rewrite Hfp, Hempty in Hquiet, Hloud.
  split.
  - intros i r Hr Hnone.
    assert (produced r0 = false) as Hr0
      by (apply (Hnone 0%nat); [lia | reflexivity]).
    destruct (Hquiet Hr0) as [Hh Hf].
    destruct i as [| i].
    + injection Hr as <-. exact Hh.
    + destruct (IH _ rs' Hf Hh Hrest) as [Hbefore _].
      apply (Hbefore i r Hr).
      intros j rj Hj Hrj. apply (Hnone (S j)); [lia | exact Hrj].
  - intros k rk Hk Hprod Hfirst i r Hi Hr.
    destruct k as [| k].
    + injection Hk as <-.
      destruct (Hloud Hprod) as [Hf Hh].
      assert (header (answer_session r0) = shown_extradata r0) as Hcap.
      { rewrite Hh.
        destruct (Z.eqb_spec (Z.of_nat (length (shown_extradata r0))) 0)
          as [Hz | _]; [| reflexivity].
        symmetry. apply nil_length_inv. lia. }
      destruct i as [| i].
      * injection Hr as <-. exact Hcap.
      * rewrite <- Hcap. apply (header_frozen calls _ rs' Hf Hrest i r Hr).
    + assert (produced r0 = false) as Hr0
        by (apply (Hfirst 0%nat); [lia | reflexivity]).
      destruct (Hquiet Hr0) as [Hh Hf].
      destruct (IH _ rs' Hf Hh Hrest) as [_ Hafter].
      destruct i as [| i]; [lia |].
      apply (Hafter k rk Hk Hprod) with (i := i); [| lia | exact Hr].
      intros j rj Hj Hrj. apply (Hfirst (S j)); [lia | exact Hrj].
Qed.

End header_facts.

Lemma header_captured_once_witness :
  exists rs,
    @encode_sequence script ffmpeg_5_1 streaming_session three_calls
      = Some rs /\
    (produced <$> rs) = [false; true; true] /\
    (forall r, rs !! 0%nat = Some r -> header (answer_session r) = []) /\
    (forall i r, (1 <= i)%nat -> rs !! i = Some r ->
       header (answer_session r) = sps).
Proof.
  destruct (@encode_sequence script ffmpeg_5_1 streaming_session three_calls)
    as [rs |] eqn:Hseq; [| vm_compute in Hseq; discriminate].
  destruct (@header_captured_once script ffmpeg_5_1 streaming_session
              three_calls rs eq_refl eq_refl Hseq) as [Hbefore Hafter].
  vm_compute in Hseq. injection Hseq as Hrs.
  exists rs. split; [reflexivity |].
  split; [rewrite <- Hrs; reflexivity |]. split.
  - intros r Hr. apply (Hbefore 0%nat r Hr).
    intros j rj Hj Hrj. assert (j = 0%nat) as -> by lia.
    rewrite <- Hrs in Hrj. injection Hrj as <-. reflexivity.
  - intros i r Hi Hr.
    destruct (rs !! 1%nat) as [rk |] eqn:Hk;
      [| rewrite <- Hrs in Hk; discriminate].
    rewrite (Hafter 1%nat rk Hk) with (i := i) (r := r); try assumption.
    + rewrite <- Hrs in Hk. injection Hk as <-. reflexivity.
    + rewrite <- Hrs in Hk. injection Hk as <-. reflexivity.
    + intros j rj Hj Hrj. assert (j = 0%nat) as -> by lia.
      rewrite <- Hrs in Hrj. injection Hrj as <-. reflexivity.
Defined.

(** ** Teardown *)

Section teardown_facts.
Context {St : Type} `{Ext : Externals St}.

Lemma flush_stops_after_next n (ctx : AVCodecContext St) :
  flush_stops_after (S n) ctx ->
  has_output (poll ctx) = true /\ flush_stops_after n (poll ctx).2.
Proof.
  intros [Hout Hend]. split.
  - apply (Hout 0%nat). lia.
  - split; [| exact Hend].
    intros i Hi. apply (Hout (S i)). lia.
Qed.

(** The flush loop drops the packets it is handed up to the first answer
    without output, and stops there. *)
Lemma flush_packets_stops n : forall (ctx : AVCodecContext St) fuel r_pkt,
  r_pkt <> 0 ->
  flush_stops_after n ctx ->
  (n + 2 <= fuel)%nat ->
  exists ctx', flush_packets fuel ctx r_pkt = Some (polled n ctx, ctx').
Proof.
  induction n as [| n IH]; intros ctx fuel r_pkt Hr Hstop Hfuel.
  - destruct Hstop as [_ Hend]. simpl in Hend.
    destruct fuel as [| [| fuel]]; [lia | lia |].
    unfold has_output, poll in Hend. simpl polled.
    cbn [flush_packets].
    destruct (Z.eqb_spec r_pkt 0) as [| _]; [contradiction |].
    destruct send_receive_api.
    + destruct (avcodec_receive_packet ctx) as [[ret pkt] ctx1].
      simpl in Hend. destruct (ret <? 0); [| discriminate].
      eexists. reflexivity.
    + destruct (avcodec_encode_video2 ctx None) as [[[ret pkt] r'] ctx1].
      simpl in Hend. destruct (ret <? 0); [eexists; reflexivity |].
      simpl in Hend. destruct (r' =? 0); [| discriminate].
      simpl. eexists. reflexivity.
  - destruct (flush_stops_after_next n ctx Hstop) as [Hout Hrest].
    destruct fuel as [| fuel]; [lia |].
    specialize (IH (poll ctx).2 fuel).
    unfold has_output in Hout. unfold poll in Hout, Hrest, IH.
    simpl polled. unfold poll at 1 2. cbn [flush_packets].
    destruct (Z.eqb_spec r_pkt 0) as [| _]; [contradiction |].
    destruct send_receive_api.
    + destruct (avcodec_receive_packet ctx) as [[ret pkt] ctx1].
      simpl in *. destruct (ret <? 0); [discriminate |].
      destruct (IH r_pkt Hr Hrest ltac:(lia)) as [ctx' ->].
      simpl. eexists. reflexivity.
    + destruct (avcodec_encode_video2 ctx None) as [[[ret pkt] r'] ctx1].
      simpl in *. destruct (ret <? 0); [discriminate |].
      destruct (Z.eqb_spec r' 0) as [| Hr']; [discriminate |].
      destruct (IH r' Hr' Hrest ltac:(lia)) as [ctx' ->].
      simpl. eexists. reflexivity.
Qed.

(** What the releases leave of a ledger: nothing of the adapter's own
    structure and arrays, and nothing of a frame the session points to. *)
Lemma destroy_ledger fuel (enc : ffmpeg_amf_encoder St)
    (heap heap' : gset resource) dropped :
  ffmpeg_amf_destroy fuel enc heap = Some (dropped, heap') ->
  heap' ⊆ heap /\
  (forall r, r ∈ heap' ->
     r = R_context \/
     (vframe enc = None /\ (r = R_vframe \/ r = R_vframe_data))) /\
  (R_context ∈ heap -> R_context ∈ heap').
Proof.
  unfold ffmpeg_amf_destroy. intros Hd.
  destruct (if initialized enc
            then ctx ← context enc;
                 '(dropped, _) ← flush_packets fuel ctx 1; Some dropped
            else Some []) as [d |]; [| discriminate].
  simpl in Hd. injection Hd as _ <-.
  destruct (vframe enc) as [vf |].
  - split; [| split].
    + intros r Hr.
      repeat (apply elem_of_difference in Hr; destruct Hr as [Hr _]).
      exact Hr.
    + intros r Hr. left.
      repeat (apply elem_of_difference in Hr; destruct Hr as [Hr ?]).
      rewrite !not_elem_of_singleton in *. destruct r; congruence.
    + intros Hc.
      repeat (apply elem_of_difference;
              split; [| apply not_elem_of_singleton; discriminate]).
      exact Hc.
  - split; [| split].
    + intros r Hr.
      repeat (apply elem_of_difference in Hr; destruct Hr as [Hr _]).
      exact Hr.
    + intros r Hr.
      repeat (apply elem_of_difference in Hr; destruct Hr as [Hr ?]).
      rewrite !not_elem_of_singleton in *.
      destruct r; first [congruence | left; reflexivity
                        | right; split; [reflexivity |]; tauto].
    + intros Hc.
      repeat (apply elem_of_difference;
              split; [| apply not_elem_of_singleton; discriminate]).
      exact Hc.
Qed.

(** C7, amended.  On a session that was opened, [ffmpeg_amf_destroy] asks
    the session for packets and drops each one it is handed, up to the
    first answer that is negative or, in the older build, comes without a
    packet: none of the dropped packets reaches the caller, and what the
    session would hand out after that answer is not asked for.  On every
    session, opened or not, it then releases the frame with its buffers
    when the session points to one, the output buffer, the header buffer
    and the structure of the adapter: whatever the ledger still holds is
    the structure of the session handle, or a frame the session does not
    point to. *)
Theorem destroy_flushes_and_releases fuel (enc : ffmpeg_amf_encoder St)
    (heap : gset resource) (ctx : AVCodecContext St) (n : nat) :
  (initialized enc = true ->
     context enc = Some ctx /\ flush_stops_after n ctx /\
     (n + 2 <= fuel)%nat) ->
  exists heap',
    ffmpeg_amf_destroy fuel enc heap =
      Some (if initialized enc then polled n ctx else [], heap') /\
    heap' ⊆ heap /\
    (forall r, r ∈ heap' ->
       r = R_context \/
       (vframe enc = None /\ (r = R_vframe \/ r = R_vframe_data))).
Proof.
  intros Hinit.
  assert (exists heap',
            ffmpeg_amf_destroy fuel enc heap =
              Some (if initialized enc then polled n ctx else [], heap'))
    as [heap' Hd].
  { unfold ffmpeg_amf_destroy.
    destruct (initialized enc); [| eexists; reflexivity].
    destruct (Hinit eq_refl) as (Hctx & Hstop & Hfuel).
    rewrite Hctx. simpl.
    destruct (flush_packets_stops n ctx fuel 1 ltac:(lia) Hstop Hfuel)
      as [ctx' ->].
    eexists. reflexivity. }
  exists heap'. split; [exact Hd |].
  destruct (destroy_ledger _ _ _ _ _ Hd) as (Hsub & Hleft & _).
  split; assumption.
Qed.

End teardown_facts.

Lemma loaded_session_stops :
  exists ctx,
    context loaded_session = Some ctx /\
    @flush_stops_after script ffmpeg_5_1 2 ctx.
Proof.
  eexists. split; [reflexivity |]. split.
  - intros [| [| i]] Hi; [reflexivity | reflexivity | lia].
  - reflexivity.
Qed.

Lemma destroy_flushes_and_releases_witness :
  exists heap',
    @ffmpeg_amf_destroy script ffmpeg_5_1 4 loaded_session session_resources
      = Some ([key_packet; delta_packet], heap') /\
    heap' ⊆ session_resources /\
    (forall r, r ∈ heap' ->
       r = R_context \/
       (vframe loaded_session = None /\
        (r = R_vframe \/ r = R_vframe_data))).
Proof.
  destruct loaded_session_stops as (ctx & Hctx & Hstop).
  destruct (@destroy_flushes_and_releases script ffmpeg_5_1 4 loaded_session
              session_resources ctx 2) as (heap' & Hd & Hrest).
  - intros _. split; [exact Hctx |]. split; [exact Hstop | lia].
  - exists heap'. split; [| exact Hrest].
    injection Hctx as <-. exact Hd.
Defined.

(** C7 as the spec has it fails twice on an open session whose first
    answer is [AVERROR(EAGAIN)] and which has two packets behind it.  The
    flush loop stops at that first answer and drops nothing, although the
    session reports output the next time it is asked; and after the
    releases the ledger still holds the structure of the session handle. *)
Lemma destroy_stops_short :
  exists ctx ctx',
    initialized streaming_session = true /\
    context streaming_session = Some ctx /\
    @flush_packets script ffmpeg_5_1 9 ctx 1 = Some ([], ctx') /\
    has_output (@poll script ffmpeg_5_1 ctx') = true /\
    @polled script ffmpeg_5_1 2 ctx' = [key_packet; delta_packet] /\
    @ffmpeg_amf_destroy script ffmpeg_5_1 9 streaming_session
      session_resources = Some ([], {[ R_context ]}) /\
    ({[ R_context ]} : gset resource) <> ∅.
Proof.
  eexists; eexists.
  split; [reflexivity |]. split; [reflexivity |].
  split; [vm_compute; reflexivity |].
  split; [reflexivity |]. split; [reflexivity |].
  split; [| set_solver].
  unfold ffmpeg_amf_destroy. simpl. f_equal.
Qed.

(** ** Creation *)

Section creation_facts.
Context {St : Type} `{Ext : Externals St}.

(** The three ways [ffmpeg_amf_init_codec] fails, and what the session and
    the ledger hold of a frame afterwards. *)
Lemma init_codec_fails (enc : ffmpeg_amf_encoder St) (heap : gset resource)
    (ctx : AVCodecContext St) (vf : AVFrame) :
  context enc = Some ctx ->
  initialized enc = false ->
  vframe enc = None ->
  let opened :=
    avcodec_open2
      (set_flags (Z.lor (flags ctx) AV_CODEC_FLAG_GLOBAL_HEADER) ctx)
      (ffmpeg_amf enc) in
  let framed :=
    av_frame_get_buffer (prepared_vframe opened.2 vf) base_get_alignment in
  opened.1 < 0 \/
  (0 <= opened.1 /\ av_frame_alloc = None) \/
  (0 <= opened.1 /\ av_frame_alloc = Some vf /\ framed.1 < 0) ->
  exists enc' heap',
    ffmpeg_amf_init_codec enc heap = Some (false, enc', heap') /\
    initialized enc' = false /\
    is_Some (context enc') /\
    ((vframe enc' = None /\ heap' = heap) \/
     (is_Some (vframe enc') /\ heap' = {[ R_vframe ]} ∪ heap)).
Proof.
  intros Hctx Hinit Hvf opened framed Hfail.
  unfold ffmpeg_amf_init_codec. rewrite Hctx. simpl. fold opened.
  destruct opened as [ret ctx1] eqn:Hopen. simpl in *.
  destruct Hfail as [Hneg | [[Hpos Hnone] | (Hpos & Hsome & Hneg)]].
  - destruct (Z.ltb_spec ret 0); [| lia].
    destruct (obs_encoder_get_last_error (encoder enc));
      eexists; eexists;
      (split; [reflexivity |]; split; [exact Hinit |];
       split; [eexists; reflexivity |]; left; split;
       [exact Hvf | reflexivity]).
  - destruct (Z.ltb_spec ret 0); [lia |]. rewrite Hnone.
    eexists; eexists. split; [reflexivity |]. split; [exact Hinit |].
    split; [eexists; reflexivity |]. left. split; reflexivity.
  - destruct (Z.ltb_spec ret 0); [lia |]. rewrite Hsome.
    unfold prepared_vframe in framed. fold framed.
    destruct framed as [ret' vf']. simpl in Hneg.
    destruct (Z.ltb_spec ret' 0); [| lia].
    eexists; eexists. split; [reflexivity |]. split; [exact Hinit |].
    split; [eexists; reflexivity |]. right.
    split; [eexists; reflexivity | reflexivity].
Qed.

(** The [fail] label on a session that is not marked as initialized: the
    session is not asked for packets, and the answer is [NULL]. *)
Lemma fail_label_partial fuel (enc : ffmpeg_amf_encoder St)
    (heap : gset resource) :
  initialized enc = false ->
  exists rest,
    ffmpeg_amf_destroy fuel enc heap = Some ([], rest) /\
    fail_label fuel enc heap = Some (None, rest).
Proof.
  intros Hinit. unfold fail_label, ffmpeg_amf_destroy. rewrite Hinit.
  simpl. eexists. split; reflexivity.
Qed.

(** C8.  When the codec is not found, when no context can be allocated,
    when the session does not open, when no frame can be allocated or when
    the frame gets no buffers, [ffmpeg_amf_create] goes to its [fail]
    label with the session it has built so far.  That session is not
    marked as initialized, [ffmpeg_amf_destroy] has a result on it
    without asking the session for packets, and the answer of
    [ffmpeg_amf_create] is [NULL].  Of what was built nothing is left when
    the failure comes before a context is allocated; after that, the
    structure of the context is what the ledger still holds. *)
Theorem create_failure_tears_down fuel settings encoder hevc
    (codec : AVCodec) (ctx : AVCodecContext St)
    (enc1 : ffmpeg_amf_encoder St) (ctx1 : AVCodecContext St)
    (vf : AVFrame) :
  let enc0 := new_encoder encoder hevc in
  let opened :=
    avcodec_open2
      (set_flags (Z.lor (flags ctx1) AV_CODEC_FLAG_GLOBAL_HEADER) ctx1)
      (ffmpeg_amf enc1) in
  let framed :=
    av_frame_get_buffer (prepared_vframe opened.2 vf) base_get_alignment in
  ffmpeg_amf enc0 = None \/
  (ffmpeg_amf enc0 = Some codec /\ avcodec_alloc_context3 codec = None) \/
  (ffmpeg_amf enc0 = Some codec /\
   avcodec_alloc_context3 codec = Some ctx /\
   ffmpeg_amf_update_settings (with_context (Some ctx) enc0) settings
     = Some enc1 /\
   context enc1 = Some ctx1 /\
   (opened.1 < 0 \/
    (0 <= opened.1 /\ av_frame_alloc = None) \/
    (0 <= opened.1 /\ av_frame_alloc = Some vf /\ framed.1 < 0))) ->
  exists (partial : ffmpeg_amf_encoder St) (built rest : gset resource),
    ffmpeg_amf_create fuel settings encoder hevc
      = fail_label fuel partial built /\
    initialized partial = false /\
    ffmpeg_amf_destroy fuel partial built = Some ([], rest) /\
    fail_label fuel partial built = Some (None, rest) /\
    rest = match context partial with
           | Some _ => {[ R_context ]}
           | None => ∅
           end.
Proof.
  intros enc0 opened framed Hfail.
  unfold ffmpeg_amf_create. fold enc0.
  destruct Hfail as [Hnone | [[Hsome Hnone] | (Hsome & Hctx & Hup & Hc1 & Hf)]].
  - rewrite Hnone. eexists; eexists; eexists. split; [reflexivity |].
    split; [reflexivity |]. unfold fail_label, ffmpeg_amf_destroy. simpl.
    split; [reflexivity |]. split; [reflexivity |].
    apply set_eq. intros r. destruct r; set_solver.
  - rewrite Hsome, Hnone. eexists; eexists; eexists. split; [reflexivity |].
    split; [reflexivity |]. unfold fail_label, ffmpeg_amf_destroy. simpl.
    split; [reflexivity |]. split; [reflexivity |].
    apply set_eq. intros r. destruct r; set_solver.
  - rewrite Hsome, Hctx. unfold ffmpeg_amf_update. rewrite Hup. simpl.
    assert (initialized enc1 = false /\ vframe enc1 = None) as [Hinit Hvf].
    { revert Hup. unfold ffmpeg_amf_update_settings. simpl.
      destruct (update_rate_control _ _ _ _) as [b c].
      destruct (update_gop_size _ _ _); [| discriminate].
      simpl. intros [= <-]. split; reflexivity. }
    destruct (init_codec_fails enc1 ({[R_context]} ∪ {[R_enc]})
                ctx1 vf Hc1 Hinit Hvf Hf)
      as (enc' & heap' & -> & Hinit' & [c' Hc'] & Hframe).
    simpl. exists enc', heap'.
    destruct (fail_label_partial fuel enc' heap' Hinit') as (rest & Hd & Hl).
    exists rest. split; [reflexivity |]. split; [exact Hinit' |].
    split; [exact Hd |]. split; [exact Hl |]. rewrite Hc'.
    revert Hd. unfold ffmpeg_amf_destroy. rewrite Hinit'. simpl.
    destruct Hframe as [[-> ->] | [[vf' ->] ->]]; intros [= <-];
      apply set_eq; intros r; destruct r; set_solver.
Qed.

(** A session [ffmpeg_amf_create] hands out is initialized, awaits its
    first packet and has an empty header buffer. *)
Lemma create_fresh fuel settings encoder hevc (heap' : gset resource)
    (enc : ffmpeg_amf_encoder St) :
  ffmpeg_amf_create fuel settings encoder hevc = Some (Some enc, heap') ->
  initialized enc = true /\ first_packet enc = true /\ header enc = [] /\
  heap' =
    {[ R_vframe_data ]} ∪ ({[ R_vframe ]} ∪ ({[ R_context ]} ∪ {[ R_enc ]})).
Proof.
  assert (forall (e : ffmpeg_amf_encoder St) h,
            fail_label fuel e h <> Some (Some enc, heap')) as Hfail.
  { intros e h. unfold fail_label.
    destruct (ffmpeg_amf_destroy fuel e h) as [[? ?] |]; discriminate. }
  unfold ffmpeg_amf_create.
  destruct (ffmpeg_amf (new_encoder encoder hevc)) as [codec |];
    [| intros H; destruct (Hfail _ _ H)].
  destruct (avcodec_alloc_context3 codec) as [ctx |];
    [| intros H; destruct (Hfail _ _ H)].
  unfold ffmpeg_amf_update, ffmpeg_amf_update_settings. simpl.
  destruct (update_rate_control _ _ _ _) as [b c].
  destruct (update_gop_size _ _ _) as [c' |]; [| discriminate]. simpl.
  unfold ffmpeg_amf_init_codec. simpl.
  destruct (avcodec_open2 _ _) as [ret ctx1].
  destruct (ret <? 0).
  { destruct (obs_encoder_get_last_error encoder); simpl;
      intros H; destruct (Hfail _ _ H). }
  destruct av_frame_alloc as [vf |];
    [| simpl; intros H; destruct (Hfail _ _ H)].
  destruct (av_frame_get_buffer _ _) as [ret' vf'].
  destruct (ret' <? 0); simpl; [intros H; destruct (Hfail _ _ H) |].
  intros [= <- <-]. repeat split; reflexivity.
Qed.

End creation_facts.


Lemma create_failure_tears_down_witness :
  (exists (partial : ffmpeg_amf_encoder script) (built rest : gset resource),
     @ffmpeg_amf_create script no_amf 0 cbr_2500 ntsc_encoder false
       = @fail_label script no_amf 0 partial built /\
     initialized partial = false /\
     @ffmpeg_amf_destroy script no_amf 0 partial built = Some ([], rest) /\
     @fail_label script no_amf 0 partial built = Some (None, rest) /\
     rest = match context partial with
            | Some _ => {[ R_context ]}
            | None => ∅
            end) /\
  (exists (partial : ffmpeg_amf_encoder script) (built rest : gset resource),
     @ffmpeg_amf_create script no_driver 0 cbr_2500 ntsc_encoder false
       = @fail_label script no_driver 0 partial built /\
     initialized partial = false /\
     @ffmpeg_amf_destroy script no_driver 0 partial built
       = Some ([], rest) /\
     @fail_label script no_driver 0 partial built = Some (None, rest) /\
     rest = match context partial with
            | Some _ => {[ R_context ]}
            | None => ∅
            end).
Proof.
  split.
  - apply (@create_failure_tears_down script no_amf 0 cbr_2500 ntsc_encoder
             false {| codec_name := "h264_amf" |}
             (scripted_context no_script) (allocated_encoder no_script)
             (scripted_context no_script) blank_frame).
    left. reflexivity.
  - apply (@create_failure_tears_down script no_driver 0 cbr_2500
             ntsc_encoder false {| codec_name := "h264_amf" |}
             (scripted_context no_script) cbr_session cbr_context
             blank_frame).
    right. right. split; [reflexivity |]. split; [reflexivity |].
    split; [vm_compute; reflexivity |]. split; [reflexivity |].
    left. vm_compute. reflexivity.
Defined.

(** With a driver that does not open the session, [ffmpeg_amf_create]
    answers [NULL] and the structure of the context it allocated is still
    on the ledger. *)
Lemma create_failure_keeps_context :
  @ffmpeg_amf_create script no_driver 0 cbr_2500 ntsc_encoder false
    = Some (None, {[ R_context ]}).
Proof.
  unfold ffmpeg_amf_create, fail_label, ffmpeg_amf_destroy. simpl.
  f_equal.
Qed.

(** * Further properties *)

(** ** Mode names *)

Lemma nat_of_ascii_inj a b : nat_of_ascii a = nat_of_ascii b -> a = b.
Proof.
  intros Hab. rewrite <- (ascii_nat_embedding a), <- (ascii_nat_embedding b).
  rewrite Hab. reflexivity.
Qed.

(** [astrcmpi] answers zero exactly for strings that agree once their
    letters are in upper case. *)
Lemma astrcmpi_zero_iff s : forall t, astrcmpi s t = 0 <-> upper s = upper t.
Proof.
  induction s as [| c s IH]; intros [| d t]; simpl.
  - tauto.
  - split; discriminate.
  - split; discriminate.
  - destruct (Nat.ltb_spec (nat_of_ascii (toupper c))
                (nat_of_ascii (toupper d))) as [Hlt | Hge].
    + split; [discriminate |]. intros [= Hcd _]. rewrite Hcd in Hlt. lia.
    + destruct (Nat.ltb_spec (nat_of_ascii (toupper d))
                  (nat_of_ascii (toupper c))) as [Hgt | Hle].
      * split; [discriminate |]. intros [= Hcd _]. rewrite Hcd in Hgt. lia.
      * rewrite IH. split.
        -- intros ->. f_equal. apply nat_of_ascii_inj. lia.
        -- intros [= _ Hst]. exact Hst.
Qed.

Lemma astrcmpi_same_upper s t t' :
  upper t = upper t' -> (astrcmpi s t =? 0) = (astrcmpi s t' =? 0).
Proof.
  intros Htt.
  destruct (Z.eqb_spec (astrcmpi s t) 0) as [H0 | H0];
    destruct (Z.eqb_spec (astrcmpi s t') 0) as [H1 | H1]; try reflexivity.
  - apply astrcmpi_zero_iff in H0. exfalso. apply H1.
    apply astrcmpi_zero_iff. congruence.
  - apply astrcmpi_zero_iff in H1. exfalso. apply H0.
    apply astrcmpi_zero_iff. congruence.
Qed.

Lemma astrcmpi_other_upper s t t' :
  upper t <> upper t' -> astrcmpi s t = 0 -> astrcmpi s t' <> 0.
Proof.
  intros Hne H0 H1. apply astrcmpi_zero_iff in H0, H1. congruence.
Qed.


(** ** Session configurator: formats, colours, geometry and options *)

Section configurator_more.
Context {St : Type} `{Ext : Externals St}.

(** The whole of what [ffmpeg_amf_update] assigns, in the order of the
    source. *)
Lemma update_settings_form enc settings (ctx : AVCodecContext St) :
  context enc = Some ctx ->
  divisible enc settings ->
  let rc := obs_data_get_string settings "rate_control" in
  let bitrate := to_int (obs_data_get_int settings "bitrate") in
  let cqp := to_int (obs_data_get_int settings "cqp") in
  let keyint_sec := to_int (obs_data_get_int settings "keyint_sec") in
  let voi := obs_encoder_video (encoder enc) in
  let rc_out :=
    update_rate_control rc bitrate cqp
      (av_opt_set "preset" (obs_data_get_string settings "preset")
         (av_opt_set "profile" (obs_data_get_string settings "profile")
            ctx)) in
  let rate := to_int (rc_out.1 * 1000) in
  let ctx' :=
    set_gop_size
      (if keyint_sec =? 0 then 250
       else to_int (to_uint32 (to_uint32 keyint_sec * fps_num voi)
                    / fps_den voi))
      (update_colorspace (voi_colorspace voi)
         (set_color_range
            (match voi_range voi with
             | VIDEO_RANGE_FULL => AVCOL_RANGE_JPEG
             | _ => AVCOL_RANGE_MPEG
             end)
            (set_pix_fmt (obs_to_ffmpeg_video_format (resolved_format enc))
               (set_time_base (to_int (fps_den voi), to_int (fps_num voi))
                  (set_height (to_int (obs_encoder_get_height (encoder enc)))
                     (set_width
                        (to_int (obs_encoder_get_width (encoder enc)))
                        (set_rc_buffer_size rate
                           (set_bit_rate rate
                              (av_opt_set_int "2pass" 0
                                 (av_opt_set "level" "auto"
                                    rc_out.2)))))))))) in
  ffmpeg_amf_update_settings enc settings =
    Some (with_enc_height (to_int (obs_encoder_get_height (encoder enc)))
            (with_context (Some ctx') enc)).
Proof.
  intros Hctx Hdiv rc bitrate cqp keyint_sec voi rc_out rate ctx'.
  unfold ffmpeg_amf_update_settings. rewrite Hctx. simpl.
  fold rc bitrate cqp keyint_sec voi rc_out.
  destruct rc_out as [b c] eqn:Hrc. simpl in rate, ctx'. simpl.
  match goal with
  | |- context [update_gop_size keyint_sec voi ?c0] =>
      destruct (update_gop_size_some keyint_sec voi c0 Hdiv)
        as (g & Hg & ->);
      rewrite Hg
  end.
  simpl. unfold ctx', rate, resolved_format.
  destruct (voi_colorspace voi); reflexivity.
Qed.

End configurator_more.

Section format_facts.
Context {St : Type} `{Ext : Externals St}.

(** X1.  [ffmpeg_amf_video_info] always settles on I420 or NV12: on the
    format the encoder prefers when that is one of the two, else on the
    format it is given when that is one of the two, else on NV12.  It
    keeps the range and the colour space, and settling again changes
    nothing. *)
Theorem video_info_settles (enc : ffmpeg_amf_encoder St)
    (info : video_scale_info) :
  let pref := obs_encoder_get_preferred_video_format (encoder enc) in
  let out := ffmpeg_amf_video_info enc info in
  valid_format (info_format out) = true /\
  (valid_format pref = true -> info_format out = pref) /\
  (valid_format pref = false -> valid_format (info_format info) = true ->
     info_format out = info_format info) /\
  (valid_format pref = false -> valid_format (info_format info) = false ->
     info_format out = VIDEO_FORMAT_NV12) /\
  info_range out = info_range info /\
  info_colorspace out = info_colorspace info /\
  ffmpeg_amf_video_info enc out = out.
Proof.
  intros pref out. unfold out, ffmpeg_amf_video_info. fold pref. simpl.
  destruct (valid_format pref) eqn:Hpref; simpl.
  - rewrite ?Hpref.
    repeat split; first [reflexivity | discriminate | assumption].
  - destruct (valid_format (info_format info)) eqn:Hinfo; simpl.
    + rewrite ?Hpref, ?Hinfo.
      repeat split; first [reflexivity | discriminate | assumption].
    + repeat split; first [reflexivity | discriminate | assumption].
Qed.

(** X2.  The pixel format of the configured context is the libavutil
    format of I420 or of NV12, never of another format: that of the
    format the encoder prefers when it is one of the two, else that of
    the output's format when it is one of the two, else that of NV12. *)
Theorem update_pix_fmt_is_planar_420 enc settings (ctx : AVCodecContext St) :
  context enc = Some ctx ->
  divisible enc settings ->
  let pref := obs_encoder_get_preferred_video_format (encoder enc) in
  let native := voi_format (obs_encoder_video (encoder enc)) in
  exists enc' ctx',
    ffmpeg_amf_update_settings enc settings = Some enc' /\
    context enc' = Some ctx' /\
    (pix_fmt ctx' = obs_to_ffmpeg_video_format VIDEO_FORMAT_I420 \/
     pix_fmt ctx' = obs_to_ffmpeg_video_format VIDEO_FORMAT_NV12) /\
    (valid_format pref = true ->
       pix_fmt ctx' = obs_to_ffmpeg_video_format pref) /\
    (valid_format pref = false -> valid_format native = true ->
       pix_fmt ctx' = obs_to_ffmpeg_video_format native) /\
    (valid_format pref = false -> valid_format native = false ->
       pix_fmt ctx' = obs_to_ffmpeg_video_format VIDEO_FORMAT_NV12).
Proof.
  intros Hctx Hdiv pref native.
  pose proof (update_settings_form enc settings ctx Hctx Hdiv) as Hform.
  cbv zeta in Hform.
  eexists; eexists. split; [exact Hform |]. split; [reflexivity |].
  assert (forall cs g (c : AVCodecContext St),
            pix_fmt (set_gop_size g (update_colorspace cs c)) = pix_fmt c)
    as Hpix by (intros [] ? ?; reflexivity).
  rewrite Hpix. simpl.
  unfold resolved_format, ffmpeg_amf_video_info. fold pref native. simpl.
  destruct (valid_format pref) eqn:Hpref; simpl.
  - repeat split; try reflexivity; try discriminate.
    destruct pref; try discriminate; [left | right]; reflexivity.
  - destruct (valid_format native) eqn:Hnative; simpl.
    + repeat split; try reflexivity; try discriminate.
      destruct native; try discriminate; [left | right]; reflexivity.
    + repeat split; try reflexivity; try discriminate. right. reflexivity.
Qed.

(** X3.  Configuration takes the colour metadata of the context from the
    colour space of the output: SMPTE170M transfer, primaries and matrix
    for 601; BT709 for the default and for 709; the IEC 61966-2-1
    transfer with BT709 primaries and matrix for sRGB.  For any other
    colour space the three fields stay as they were.  The colour range is
    JPEG for a full range and MPEG otherwise. *)
Theorem update_colour_metadata enc settings (ctx : AVCodecContext St) :
  context enc = Some ctx ->
  divisible enc settings ->
  let voi := obs_encoder_video (encoder enc) in
  exists enc' ctx',
    ffmpeg_amf_update_settings enc settings = Some enc' /\
    context enc' = Some ctx' /\
    (color_trc ctx', color_primaries ctx', colorspace ctx') =
      match voi_colorspace voi with
      | VIDEO_CS_601 =>
          (AVCOL_TRC_SMPTE170M, AVCOL_PRI_SMPTE170M, AVCOL_SPC_SMPTE170M)
      | VIDEO_CS_DEFAULT | VIDEO_CS_709 =>
          (AVCOL_TRC_BT709, AVCOL_PRI_BT709, AVCOL_SPC_BT709)
      | VIDEO_CS_SRGB =>
          (AVCOL_TRC_IEC61966_2_1, AVCOL_PRI_BT709, AVCOL_SPC_BT709)
      | VIDEO_CS_unlisted _ =>
          (color_trc ctx, color_primaries ctx, colorspace ctx)
      end /\
    color_range ctx' =
      match voi_range voi with
      | VIDEO_RANGE_FULL => AVCOL_RANGE_JPEG
      | _ => AVCOL_RANGE_MPEG
      end.
Proof.
  intros Hctx Hdiv voi.
  pose proof (update_settings_form enc settings ctx Hctx Hdiv) as Hform.
  cbv zeta in Hform. fold voi in Hform.
  eexists; eexists. split; [exact Hform |]. split; [reflexivity |].
  assert (forall rc b q (c : AVCodecContext St),
            let out := (update_rate_control rc b q c).2 in
            color_trc out = color_trc c /\
            color_primaries out = color_primaries c /\
            colorspace out = colorspace c) as Hrc.
  { intros rc b q c. unfold update_rate_control.
    destruct (astrcmpi rc "cqp" =? 0); [repeat split; reflexivity |].
    destruct (astrcmpi rc "vbr" =? 0); repeat split; reflexivity. }
  match goal with
  | |- context [update_rate_control ?rc ?b ?q ?c] =>
      destruct (Hrc rc b q c) as (H1 & H2 & H3)
  end.
  simpl in H1, H2, H3.
  split.
  - destruct (voi_colorspace voi); simpl; try reflexivity.
    rewrite H1, H2, H3. reflexivity.
  - destruct (voi_colorspace voi); reflexivity.
Qed.

End format_facts.

Lemma update_pix_fmt_is_planar_420_witness :
  exists enc' ctx',
    @ffmpeg_amf_update_settings script (scripted [] no_script)
      (allocated_encoder no_script) cbr_2500 = Some enc' /\
    context enc' = Some ctx' /\
    pix_fmt ctx' = 23.
Proof.
  destruct (@update_pix_fmt_is_planar_420 script (scripted [] no_script)
              (allocated_encoder no_script) cbr_2500
              (scripted_context no_script))
    as (enc' & ctx' & Hup & Hc & _ & Hpref & _).
  - reflexivity.
  - right. vm_compute. discriminate.
  - exists enc', ctx'. split; [exact Hup |]. split; [exact Hc |].
    apply Hpref. reflexivity.
Defined.

Lemma update_colour_metadata_witness :
  exists enc' ctx',
    @ffmpeg_amf_update_settings script (scripted [] no_script)
      (allocated_encoder no_script) cbr_2500 = Some enc' /\
    context enc' = Some ctx' /\
    (color_trc ctx', color_primaries ctx', colorspace ctx') =
      (AVCOL_TRC_BT709, AVCOL_PRI_BT709, AVCOL_SPC_BT709) /\
    color_range ctx' = AVCOL_RANGE_MPEG.
Proof.
  apply (@update_colour_metadata script (scripted [] no_script)
           (allocated_encoder no_script) cbr_2500
           (scripted_context no_script)).
  - reflexivity.
  - right. vm_compute. discriminate.
Defined.

Section geometry_facts.
Context {St : Type} `{Ext : Externals St}.

Lemma update_rate_control_frame rc b q (c : AVCodecContext St) :
  let out := (update_rate_control rc b q c).2 in
  flags out = flags c /\ extradata out = extradata c /\
  internal out = internal c /\ width out = width c /\
  height out = height c /\ time_base out = time_base c /\
  pix_fmt out = pix_fmt c /\ gop_size out = gop_size c /\
  color_range out = color_range c.
Proof.
  unfold update_rate_control.
  destruct (astrcmpi rc "cqp" =? 0); [repeat split; reflexivity |].
  destruct (astrcmpi rc "vbr" =? 0); repeat split; reflexivity.
Qed.

(** X4.  Configuration gives the context the width and the height of the
    encoder and the inverse of the frame rate as its time base, each
    converted to the [int] field that takes it, and keeps the height of the
    context in the session, where [copy_data] reads it.  A value up to
    [INT_MAX] arrives as it is; a larger one arrives with [2 ^ 32] taken
    off. *)
Theorem update_geometry enc settings (ctx : AVCodecContext St) :
  context enc = Some ctx ->
  divisible enc settings ->
  let voi := obs_encoder_video (encoder enc) in
  let as_int x := if x <=? INT_MAX then x else x - 2 ^ 32 in
  0 <= obs_encoder_get_width (encoder enc) <= UINT32_MAX ->
  0 <= obs_encoder_get_height (encoder enc) <= UINT32_MAX ->
  0 <= fps_num voi <= UINT32_MAX ->
  0 <= fps_den voi <= UINT32_MAX ->
  exists enc' ctx',
    ffmpeg_amf_update_settings enc settings = Some enc' /\
    context enc' = Some ctx' /\
    width ctx' = as_int (obs_encoder_get_width (encoder enc)) /\
    height ctx' = as_int (obs_encoder_get_height (encoder enc)) /\
    time_base ctx' = (as_int (fps_den voi), as_int (fps_num voi)) /\
    enc_height enc' = height ctx'.
Proof.
  intros Hctx Hdiv voi as_int Hw Hh Hnum Hden.
  pose proof (update_settings_form enc settings ctx Hctx Hdiv) as Hform.
  cbv zeta in Hform. fold voi in Hform.
  eexists; eexists. split; [exact Hform |]. split; [reflexivity |].
  unfold as_int. rewrite <- !to_int_of_uint32 by assumption.
  destruct (voi_colorspace voi); repeat split; reflexivity.
Qed.

(** X5.  After configuration the private options of the session hold the
    profile and the preset of the settings, level "auto", two-pass off,
    and as rate control "cqp" in mode cqp, "vbr_peak" in mode vbr and
    "cbr" in every other mode. *)
Theorem update_private_options enc settings (ctx : AVCodecContext St) :
  context enc = Some ctx ->
  divisible enc settings ->
  let rc := obs_data_get_string settings "rate_control" in
  exists enc' ctx',
    ffmpeg_amf_update_settings enc settings = Some enc' /\
    context enc' = Some ctx' /\
    option_lookup "profile" (priv_data ctx') =
      Some (opt_string (obs_data_get_string settings "profile")) /\
    option_lookup "preset" (priv_data ctx') =
      Some (opt_string (obs_data_get_string settings "preset")) /\
    option_lookup "level" (priv_data ctx') = Some (opt_string "auto") /\
    option_lookup "2pass" (priv_data ctx') = Some (opt_int 0) /\
    option_lookup "rc" (priv_data ctx') =
      Some (opt_string
              (if astrcmpi rc "cqp" =? 0 then "cqp"
               else if astrcmpi rc "vbr" =? 0 then "vbr_peak"
               else "cbr")).
Proof.
  intros Hctx Hdiv rc.
  pose proof (update_settings_form enc settings ctx Hctx Hdiv) as Hform.
  cbv zeta in Hform. fold rc in Hform.
  eexists; eexists. split; [exact Hform |]. split; [reflexivity |].
  assert (forall cs g (c : AVCodecContext St),
            priv_data (set_gop_size g (update_colorspace cs c))
              = priv_data c) as Hpd by (intros [] ? ?; reflexivity).
  rewrite Hpd. simpl. unfold update_rate_control.
  destruct (astrcmpi rc "cqp" =? 0); [repeat split; reflexivity |].
  destruct (astrcmpi rc "vbr" =? 0); repeat split; reflexivity.
Qed.

(** X6.  Configuration writes the context and the height of the session
    and nothing else of it: the host encoder, the codec, the frame, the
    two byte arrays and the two flags stay as they were, and so do the
    flags, the extradata and the internals of the context. *)
Theorem update_frame enc settings (ctx : AVCodecContext St) :
  context enc = Some ctx ->
  divisible enc settings ->
  exists enc' ctx',
    ffmpeg_amf_update_settings enc settings = Some enc' /\
    context enc' = Some ctx' /\
    encoder enc' = encoder enc /\ ffmpeg_amf enc' = ffmpeg_amf enc /\
    vframe enc' = vframe enc /\ buffer enc' = buffer enc /\
    header enc' = header enc /\ first_packet enc' = first_packet enc /\
    initialized enc' = initialized enc /\
    flags ctx' = flags ctx /\ extradata ctx' = extradata ctx /\
    internal ctx' = internal ctx.
Proof.
  intros Hctx Hdiv.
  pose proof (update_settings_form enc settings ctx Hctx Hdiv) as Hform.
  cbv zeta in Hform.
  eexists; eexists. split; [exact Hform |]. split; [reflexivity |].
  match goal with
  | |- context [update_rate_control ?rc ?b ?q ?c] =>
      destruct (update_rate_control_frame rc b q c)
        as (H1 & H2 & H3 & _)
  end.
  simpl in H1, H2, H3.
  destruct (voi_colorspace (obs_encoder_video (encoder enc))); simpl;
    rewrite H1, H2, H3; repeat split; reflexivity.
Qed.


(** X8.  With a frame-rate denominator of two or more the configured
    keyframe interval is never negative, whatever [keyint_sec] and the
    numerator are: a negative [keyint_sec] is taken as an [unsigned int]
    and yields a large interval. *)
Theorem update_gop_size_not_negative enc settings (ctx : AVCodecContext St) :
  context enc = Some ctx ->
  2 <= fps_den (obs_encoder_video (encoder enc)) ->
  exists enc' ctx',
    ffmpeg_amf_update_settings enc settings = Some enc' /\
    context enc' = Some ctx' /\
    0 <= gop_size ctx' <= INT_MAX.
Proof.
  intros Hctx Hden.
  assert (divisible enc settings) as Hdiv by (right; lia).
  destruct (update_settings_fields enc settings ctx Hctx Hdiv)
    as (enc' & ctx' & Hup & Hc & _ & _ & _ & _ & _ & _ & Hgop).
  exists enc', ctx'. split; [exact Hup |]. split; [exact Hc |].
  rewrite Hgop. clear Hgop.
  destruct (to_int (obs_data_get_int settings "keyint_sec") =? 0).
  { unfold INT_MAX. lia. }
  set (den := fps_den (obs_encoder_video (encoder enc))) in *.
  set (x := to_uint32 _).
  assert (0 <= x < 4294967296) as Hx
    by (unfold x, to_uint32; rewrite two_32; apply Z.mod_pos_bound; lia).
  assert (0 <= x / den) as Hq0 by (apply Z.div_pos; lia).
  assert (x / den <= INT_MAX) as Hq1.
  { unfold INT_MAX. change (2 ^ 31 - 1) with 2147483647.
    assert (x / den <= x / 2) by (apply Z.div_le_compat_l; lia).
    assert (x / 2 <= 4294967295 / 2) by (apply Z.div_le_mono; lia).
    change (4294967295 / 2) with 2147483647 in *. lia. }
  rewrite to_int_id by (unfold INT_MIN; lia). lia.
Qed.

End geometry_facts.

Lemma update_geometry_witness :
  (exists enc' ctx',
     @ffmpeg_amf_update_settings script (scripted [] no_script)
       (allocated_encoder no_script) cbr_2500 = Some enc' /\
     context enc' = Some ctx' /\
     width ctx' = 4 /\ height ctx' = 2 /\
     time_base ctx' = (1001, 30000) /\
     enc_height enc' = height ctx') /\
  (exists enc' ctx',
     @ffmpeg_amf_update_settings script (scripted [] no_script)
       (with_encoder wide_rate_encoder (allocated_encoder no_script))
       cbr_2500 = Some enc' /\
     context enc' = Some ctx' /\
     width ctx' = 4 /\ height ctx' = 2 /\
     time_base ctx' = (-1294967296, -1) /\
     enc_height enc' = height ctx').
Proof.
  split.
  - apply (@update_geometry script (scripted [] no_script)
             (allocated_encoder no_script) cbr_2500
             (scripted_context no_script)).
    + reflexivity.
    + right. vm_compute. discriminate.
    + vm_compute. split; discriminate.
    + vm_compute. split; discriminate.
    + vm_compute. split; discriminate.
    + vm_compute. split; discriminate.
  - apply (@update_geometry script (scripted [] no_script)
             (with_encoder wide_rate_encoder (allocated_encoder no_script))
             cbr_2500 (scripted_context no_script)).
    + reflexivity.
    + right. vm_compute. discriminate.
    + vm_compute. split; discriminate.
    + vm_compute. split; discriminate.
    + vm_compute. split; discriminate.
    + vm_compute. split; discriminate.
Defined.


Lemma update_private_options_witness :
  exists enc' ctx',
    @ffmpeg_amf_update_settings script (scripted [] no_script)
      (allocated_encoder no_script) cbr_2500 = Some enc' /\
    context enc' = Some ctx' /\
    option_lookup "profile" (priv_data ctx') = Some (opt_string "high") /\
    option_lookup "preset" (priv_data ctx') = Some (opt_string "quality") /\
    option_lookup "level" (priv_data ctx') = Some (opt_string "auto") /\
    option_lookup "2pass" (priv_data ctx') = Some (opt_int 0) /\
    option_lookup "rc" (priv_data ctx') = Some (opt_string "cbr").
Proof.
  apply (@update_private_options script (scripted [] no_script)
           (allocated_encoder no_script) cbr_2500
           (scripted_context no_script)).
  - reflexivity.
  - right. vm_compute. discriminate.
Defined.

Lemma update_frame_witness :
  exists enc' ctx',
    @ffmpeg_amf_update_settings script (scripted [] no_script)
      (allocated_encoder no_script) cbr_2500 = Some enc' /\
    context enc' = Some ctx' /\
    encoder enc' = ntsc_encoder /\
    ffmpeg_amf enc' = Some {| codec_name := "h264_amf" |} /\
    vframe enc' = None /\ buffer enc' = [] /\
    header enc' = [] /\ first_packet enc' = true /\
    initialized enc' = false /\
    flags ctx' = 0 /\ extradata ctx' = [] /\
    internal ctx' = no_script.
Proof.
  apply (@update_frame script (scripted [] no_script)
           (allocated_encoder no_script) cbr_2500
           (scripted_context no_script)).
  - reflexivity.
  - right. vm_compute. discriminate.
Defined.

Lemma update_gop_size_not_negative_witness :
  to_int (obs_data_get_int negative_keyint "keyint_sec") = -1 /\
  exists enc' ctx',
    @ffmpeg_amf_update_settings script (scripted [] no_script)
      (allocated_encoder no_script) negative_keyint = Some enc' /\
    context enc' = Some ctx' /\
    0 <= gop_size ctx' <= INT_MAX.
Proof.
  split; [reflexivity |].
  apply (@update_gop_size_not_negative script (scripted [] no_script)
           (allocated_encoder no_script) negative_keyint
           (scripted_context no_script)).
  - reflexivity.
  - vm_compute. discriminate.
Defined.

(** ** Opening the session *)

Section init_codec_facts.
Context {St : Type} `{Ext : Externals St}.

(** [ffmpeg_amf_init_codec] on a session with a context, by what the
    three library calls answer. *)
Lemma init_codec_form (enc : ffmpeg_amf_encoder St) (heap : gset resource)
    (ctx : AVCodecContext St) :
  context enc = Some ctx ->
  let asked :=
    set_flags (Z.lor (flags ctx) AV_CODEC_FLAG_GLOBAL_HEADER) ctx in
  let opened := avcodec_open2 asked (ffmpeg_amf enc) in
  let enc1 := with_context (Some opened.2) enc in
  ffmpeg_amf_init_codec enc heap =
    Some
      (if opened.1 <? 0 then
         (false,
          match obs_encoder_get_last_error (encoder enc) with
          | None =>
              with_encoder
                (obs_encoder_set_last_error (encoder enc)
                   (nvenc_error_text opened.1)) enc1
          | Some _ => enc1
          end, heap)
       else
         match av_frame_alloc with
         | None => (false, with_vframe None enc1, heap)
         | Some vf =>
             let framed :=
               av_frame_get_buffer (prepared_vframe opened.2 vf)
                 base_get_alignment in
             if framed.1 <? 0
             then (false, with_vframe (Some framed.2) enc1,
                   {[ R_vframe ]} ∪ heap)
             else (true,
                   with_initialized true (with_vframe (Some framed.2) enc1),
                   {[ R_vframe_data ]} ∪ ({[ R_vframe ]} ∪ heap))
         end).
Proof.
  intros Hctx asked opened enc1.
  unfold ffmpeg_amf_init_codec. rewrite Hctx. simpl. fold asked opened.
  subst enc1. destruct opened as [ret ctx1]. simpl.
  destruct (ret <? 0).
  { destruct (obs_encoder_get_last_error (encoder enc)); reflexivity. }
  destruct av_frame_alloc as [vf |]; [| reflexivity].
  unfold prepared_vframe.
  destruct (av_frame_get_buffer _ _) as [ret' vf']. simpl.
  destruct (ret' <? 0); reflexivity.
Qed.

(** X9.  [ffmpeg_amf_init_codec] opens the session on the context with the
    global-header flag, bit 22 of the flags, set and every other flag and
    field as configured; the context the session keeps is the one
    [avcodec_open2] leaves. *)
Theorem init_codec_forces_global_header (enc : ffmpeg_amf_encoder St)
    (heap : gset resource) (ctx : AVCodecContext St) :
  context enc = Some ctx ->
  exists (asked : AVCodecContext St) ok enc' heap',
    ffmpeg_amf_init_codec enc heap = Some (ok, enc', heap') /\
    context enc' = Some (avcodec_open2 asked (ffmpeg_amf enc)).2 /\
    Z.testbit (flags asked) 22 = true /\
    (forall i, i <> 22 ->
       Z.testbit (flags asked) i = Z.testbit (flags ctx) i) /\
    set_flags (flags ctx) asked = ctx.
Proof.
  intros Hctx.
  pose proof (init_codec_form enc heap ctx Hctx) as Hform.
  cbv zeta in Hform.
  set (asked := set_flags (Z.lor (flags ctx) AV_CODEC_FLAG_GLOBAL_HEADER) ctx)
    in *.
  assert (Z.testbit (flags asked) 22 = true /\
          (forall i, i <> 22 ->
             Z.testbit (flags asked) i = Z.testbit (flags ctx) i) /\
          set_flags (flags ctx) asked = ctx) as Hflags.
  { change (flags asked)
      with (Z.lor (flags ctx) AV_CODEC_FLAG_GLOBAL_HEADER).
    unfold AV_CODEC_FLAG_GLOBAL_HEADER. rewrite Z.shiftl_1_l.
    split; [| split].
    - rewrite Z.lor_spec, Z.pow2_bits_eqb by lia. apply orb_true_r.
    - intros i Hi. rewrite Z.lor_spec, Z.pow2_bits_eqb by lia.
      destruct (Z.eqb_spec 22 i); [congruence | apply orb_false_r].
    - unfold asked. destruct ctx; reflexivity. }
  exists asked.
  destruct (_ <? 0) in Hform.
  { destruct (obs_encoder_get_last_error (encoder enc));
      eexists; eexists; eexists; (split; [exact Hform |]);
      (split; [reflexivity | exact Hflags]). }
  destruct av_frame_alloc as [vf |].
  - cbv zeta in Hform. destruct (_ <? 0) in Hform;
      eexists; eexists; eexists; (split; [exact Hform |]);
      (split; [reflexivity | exact Hflags]).
  - eexists; eexists; eexists. split; [exact Hform |].
    split; [reflexivity | exact Hflags].
Qed.

End init_codec_facts.

Section init_codec_outcomes.
Context {St : Type} `{Ext : Externals St}.

(** X10.  [ffmpeg_amf_init_codec] answers [true] exactly when the session
    opens, a frame is allocated and the frame gets its buffers.  It then
    marks the session as initialized and keeps the frame; when it answers
    [false] the mark stays as it was. *)
Theorem init_codec_succeeds_iff (enc : ffmpeg_amf_encoder St)
    (heap : gset resource) (ctx : AVCodecContext St) :
  context enc = Some ctx ->
  let opened :=
    avcodec_open2
      (set_flags (Z.lor (flags ctx) AV_CODEC_FLAG_GLOBAL_HEADER) ctx)
      (ffmpeg_amf enc) in
  exists ok enc' heap',
    ffmpeg_amf_init_codec enc heap = Some (ok, enc', heap') /\
    (ok = true <->
       0 <= opened.1 /\
       exists vf,
         av_frame_alloc = Some vf /\
         0 <= (av_frame_get_buffer (prepared_vframe opened.2 vf)
                 base_get_alignment).1) /\
    (ok = true ->
       initialized enc' = true /\ is_Some (vframe enc') /\
       heap' = {[ R_vframe_data ]} ∪ ({[ R_vframe ]} ∪ heap)) /\
    (ok = false -> initialized enc' = initialized enc).
Proof.
  intros Hctx opened.
  pose proof (init_codec_form enc heap ctx Hctx) as Hform.
  cbv zeta in Hform. fold opened in Hform.
  destruct (Z.ltb_spec opened.1 0) as [Hneg | Hpos].
  { eexists; eexists; eexists. split; [exact Hform |].
    split; [| split]; try discriminate.
    - split; [discriminate | intros [? _]; lia].
    - intros _.
      destruct (obs_encoder_get_last_error (encoder enc)); reflexivity. }
  destruct av_frame_alloc as [vf |].
  - destruct (Z.ltb_spec
                (av_frame_get_buffer (prepared_vframe opened.2 vf)
                   base_get_alignment).1 0) as [Hbad | Hgood].
    + eexists; eexists; eexists. split; [exact Hform |].
      split; [| split]; try discriminate.
      * split; [discriminate |].
        intros (_ & vf' & [= <-] & Hge). lia.
      * intros _. reflexivity.
    + eexists; eexists; eexists. split; [exact Hform |].
      split; [| split]; try discriminate.
      * split; [| reflexivity]. intros _. split; [exact Hpos |].
        exists vf. split; [reflexivity | exact Hgood].
      * intros _. split; [reflexivity |]. split; [eexists |]; reflexivity.
  - eexists; eexists; eexists. split; [exact Hform |].
    split; [| split]; try discriminate.
    + split; [discriminate |]. intros (_ & vf' & Hvf & _). discriminate.
    + intros _. reflexivity.
Qed.

(** X11.  [ffmpeg_amf_init_codec] never replaces a last error the host
    encoder already holds.  It sets one, the driver text for the answer
    of [avcodec_open2], only when there is none and the session does not
    open; a failure to allocate the frame or its buffers sets none. *)
Theorem init_codec_last_error (enc : ffmpeg_amf_encoder St)
    (heap : gset resource) (ctx : AVCodecContext St) :
  context enc = Some ctx ->
  let opened :=
    avcodec_open2
      (set_flags (Z.lor (flags ctx) AV_CODEC_FLAG_GLOBAL_HEADER) ctx)
      (ffmpeg_amf enc) in
  let before := obs_encoder_get_last_error (encoder enc) in
  exists ok enc' heap',
    ffmpeg_amf_init_codec enc heap = Some (ok, enc', heap') /\
    obs_encoder_get_last_error (encoder enc') =
      match before with
      | Some message => Some message
      | None =>
          if opened.1 <? 0 then Some (nvenc_error_text opened.1) else None
      end.
Proof.
  intros Hctx opened before.
  pose proof (init_codec_form enc heap ctx Hctx) as Hform.
  cbv zeta in Hform. fold opened before in Hform.
  destruct (opened.1 <? 0).
  { eexists; eexists; eexists. split; [exact Hform |].
    unfold before. destruct (obs_encoder_get_last_error (encoder enc)) eqn:He;
      simpl; [exact He | reflexivity]. }
  assert (forall e : ffmpeg_amf_encoder St,
            encoder e = encoder enc ->
            obs_encoder_get_last_error (encoder e) =
              match before with Some m => Some m | None => None end) as Hsame.
  { intros e ->. unfold before.
    destruct (obs_encoder_get_last_error (encoder enc)); reflexivity. }
  destruct av_frame_alloc as [vf |].
  - cbv zeta in Hform. destruct (_ <? 0) in Hform;
      eexists; eexists; eexists; (split; [exact Hform |]);
      apply Hsame; reflexivity.
  - eexists; eexists; eexists. split; [exact Hform |].
    apply Hsame; reflexivity.
Qed.

End init_codec_outcomes.

Lemma init_codec_forces_global_header_witness :
  exists (asked : AVCodecContext script) ok enc' heap',
    @ffmpeg_amf_init_codec script ffmpeg_5_1 cbr_session ∅
      = Some (ok, enc', heap') /\
    context enc'
      = Some (@avcodec_open2 script ffmpeg_5_1 asked
                (ffmpeg_amf cbr_session)).2 /\
    Z.testbit (flags asked) 22 = true /\
    (forall i, i <> 22 ->
       Z.testbit (flags asked) i = Z.testbit (flags cbr_context) i) /\
    set_flags (flags cbr_context) asked = cbr_context.
Proof.
  apply (@init_codec_forces_global_header script ffmpeg_5_1 cbr_session ∅
           cbr_context).
  reflexivity.
Defined.

Lemma init_codec_succeeds_iff_witness :
  exists enc' heap',
    @ffmpeg_amf_init_codec script ffmpeg_5_1 cbr_session ∅
      = Some (true, enc', heap') /\
    initialized enc' = true /\ is_Some (vframe enc') /\
    heap' = {[ R_vframe_data ]} ∪ ({[ R_vframe ]} ∪ ∅).
Proof.
  destruct (@init_codec_succeeds_iff script ffmpeg_5_1 cbr_session ∅
              cbr_context eq_refl)
    as (ok & enc' & heap' & Hinit & Hiff & Hstate & _).
  assert (ok = true) as ->.
  { apply Hiff. split; [vm_compute; discriminate |].
    exists blank_frame. split; [reflexivity | vm_compute; discriminate]. }
  exists enc', heap'. split; [exact Hinit |]. apply Hstate. reflexivity.
Defined.

Lemma init_codec_last_error_witness :
  exists ok enc' heap',
    @ffmpeg_amf_init_codec script no_driver cbr_session ∅
      = Some (ok, enc', heap') /\
    obs_encoder_get_last_error (encoder enc') = Some "NVENC.Error".
Proof.
  apply (@init_codec_last_error script no_driver cbr_session ∅ cbr_context).
  reflexivity.
Defined.

(** ** Creation: the successful path *)

Section create_outcomes.
Context {St : Type} `{Ext : Externals St}.

Lemma fail_label_null fuel (e : ffmpeg_amf_encoder St) (h : gset resource)
    (enc : ffmpeg_amf_encoder St) (heap' : gset resource) :
  fail_label fuel e h <> Some (Some enc, heap').
Proof.
  unfold fail_label.
  destruct (ffmpeg_amf_destroy fuel e h) as [[? ?] |]; discriminate.
Qed.

(** X12.  [ffmpeg_amf_create] hands out a session exactly when the codec
    is found (under the name "hevc_amf" for HEVC and "h264_amf"
    otherwise), a context is allocated, configuration has a result, the
    session opens, a frame is allocated and the frame gets its buffers. *)
Theorem create_succeeds_iff fuel settings encoder hevc :
  (exists (enc : ffmpeg_amf_encoder St) heap',
     ffmpeg_amf_create fuel settings encoder hevc = Some (Some enc, heap'))
  <->
  (exists codec (ctx : AVCodecContext St) enc1 ctx1 vf,
     avcodec_find_encoder_by_name (if hevc then "hevc_amf" else "h264_amf")
       = Some codec /\
     avcodec_alloc_context3 codec = Some ctx /\
     ffmpeg_amf_update_settings
       (with_context (Some ctx) (new_encoder encoder hevc)) settings
       = Some enc1 /\
     context enc1 = Some ctx1 /\
     let opened :=
       avcodec_open2
         (set_flags (Z.lor (flags ctx1) AV_CODEC_FLAG_GLOBAL_HEADER) ctx1)
         (ffmpeg_amf enc1) in
     0 <= opened.1 /\
     av_frame_alloc = Some vf /\
     0 <= (av_frame_get_buffer (prepared_vframe opened.2 vf)
             base_get_alignment).1).
Proof.
  unfold ffmpeg_amf_create.
  change (ffmpeg_amf (new_encoder encoder hevc))
    with (avcodec_find_encoder_by_name
            (if hevc then "hevc_amf" else "h264_amf")).
  destruct (avcodec_find_encoder_by_name _) as [codec |].
  2: { split.
       - intros (enc & heap' & H'). destruct (fail_label_null _ _ _ _ _ H').
       - intros (? & ? & ? & ? & ? & Hf & _). discriminate. }
  destruct (avcodec_alloc_context3 codec) as [ctx |] eqn:Halloc.
  2: { split.
       - intros (enc & heap' & H'). destruct (fail_label_null _ _ _ _ _ H').
       - intros (c & ? & ? & ? & ? & [= <-] & Ha & _). congruence. }
  unfold ffmpeg_amf_update.
  destruct (ffmpeg_amf_update_settings
              (with_context (Some ctx) (new_encoder encoder hevc)) settings)
    as [enc1 |] eqn:Hup.
  2: { split.
       - intros (enc & heap' & H'). discriminate.
       - intros (c & x & ? & ? & ? & [= <-] & Ha & Hu & _).
         rewrite Halloc in Ha. injection Ha as <-. congruence. }
  simpl.
  assert (exists ctx1, context enc1 = Some ctx1) as [ctx1 Hc1].
  { revert Hup. unfold ffmpeg_amf_update_settings. simpl.
    destruct (update_rate_control _ _ _ _) as [b c].
    destruct (update_gop_size _ _ _) as [c' |]; [| discriminate].
    simpl. intros [= <-]. eexists. reflexivity. }
  rewrite (init_codec_form enc1 _ ctx1 Hc1). cbv zeta.
  set (opened := avcodec_open2 _ (ffmpeg_amf enc1)).
  assert ((exists codec0 (ctx0 : AVCodecContext St) e1 c1 vf,
             Some codec = Some codec0 /\
             avcodec_alloc_context3 codec0 = Some ctx0 /\
             ffmpeg_amf_update_settings
               (with_context (Some ctx0) (new_encoder encoder hevc)) settings
               = Some e1 /\
             context e1 = Some c1 /\
             let opened :=
               avcodec_open2
                 (set_flags (Z.lor (flags c1) AV_CODEC_FLAG_GLOBAL_HEADER) c1)
                 (ffmpeg_amf e1) in
             0 <= opened.1 /\
             av_frame_alloc = Some vf /\
             0 <= (av_frame_get_buffer (prepared_vframe opened.2 vf)
                     base_get_alignment).1)
          <->
          (0 <= opened.1 /\
           exists vf,
             av_frame_alloc = Some vf /\
             0 <= (av_frame_get_buffer (prepared_vframe opened.2 vf)
                     base_get_alignment).1)) as ->.
  { split.
    - intros (c & x & e1 & c1 & vf & Hf & Ha & Hu & Hc & Hrest).
      injection Hf as <-. rewrite Halloc in Ha. injection Ha as <-.
      rewrite Hup in Hu. injection Hu as <-.
      rewrite Hc1 in Hc. injection Hc as <-.
      cbv zeta in Hrest. fold opened in Hrest.
      destruct Hrest as (Hop & Hvf & Hge).
      split; [exact Hop |]. exists vf. split; assumption.
    - intros (Hop & vf & Hvf & Hge).
      exists codec, ctx, enc1, ctx1, vf.
      repeat split; try reflexivity; assumption. }
  destruct (Z.ltb_spec opened.1 0) as [Hneg | Hpos].
  { split.
    - intros (enc & heap' & H').
      destruct (obs_encoder_get_last_error _);
        destruct (fail_label_null _ _ _ _ _ H').
    - intros [Hop _]. lia. }
  destruct av_frame_alloc as [vf |].
  2: { split.
       - intros (enc & heap' & H'). destruct (fail_label_null _ _ _ _ _ H').
       - intros (_ & vf & Hvf & _). discriminate. }
  cbv zeta.
  destruct (Z.ltb_spec
              (av_frame_get_buffer (prepared_vframe opened.2 vf)
                 base_get_alignment).1 0) as [Hbad | Hgood].
  - split.
    + intros (enc & heap' & H'). destruct (fail_label_null _ _ _ _ _ H').
    + intros (_ & vf' & [= <-] & Hge). lia.
  - split.
    + intros _. split; [exact Hpos |]. exists vf.
      split; [reflexivity | exact Hgood].
    + intros _. eexists; eexists. reflexivity.
Qed.

End create_outcomes.

Section created_session.
Context {St : Type} `{Ext : Externals St}.

(** X13.  A session [ffmpeg_amf_create] hands out is marked as
    initialized and awaits its first packet; its output and header
    buffers are empty; it has a context and a frame; it carries the host
    encoder it was given, the codec that was looked up and the height of
    the encoder; and it holds its structure, its handle, its frame and
    the buffers of the frame, nothing else. *)
Theorem create_session_state fuel settings host hevc
    (enc : ffmpeg_amf_encoder St) (heap' : gset resource) :
  ffmpeg_amf_create fuel settings host hevc = Some (Some enc, heap') ->
  initialized enc = true /\ first_packet enc = true /\
  header enc = [] /\ buffer enc = [] /\
  is_Some (context enc) /\ is_Some (vframe enc) /\
  encoder enc = host /\
  ffmpeg_amf enc =
    avcodec_find_encoder_by_name (if hevc then "hevc_amf" else "h264_amf") /\
  enc_height enc = to_int (obs_encoder_get_height host) /\
  heap' =
    {[ R_vframe_data ]} ∪ ({[ R_vframe ]} ∪ ({[ R_context ]} ∪ {[ R_enc ]})).
Proof.
  unfold ffmpeg_amf_create.
  destruct (ffmpeg_amf (new_encoder host hevc)) as [codec |] eqn:Hcodec;
    [| intros H; destruct (fail_label_null _ _ _ _ _ H)].
  destruct (avcodec_alloc_context3 codec) as [ctx |];
    [| intros H; destruct (fail_label_null _ _ _ _ _ H)].
  unfold ffmpeg_amf_update, ffmpeg_amf_update_settings. simpl.
  destruct (update_rate_control _ _ _ _) as [b c].
  destruct (update_gop_size _ _ _) as [c' |] eqn:Hgop; [| discriminate].
  simpl.
  assert (height c' = to_int (obs_encoder_get_height host)) as Hheight.
  { revert Hgop. unfold update_gop_size.
    destruct (negb _).
    - destruct (_ =? 0); [discriminate |]. intros [= <-].
      destruct (voi_colorspace (obs_encoder_video host)); reflexivity.
    - intros [= <-].
      destruct (voi_colorspace (obs_encoder_video host)); reflexivity. }
  unfold ffmpeg_amf_init_codec. simpl.
  destruct (avcodec_open2 _ _) as [ret ctx1].
  destruct (ret <? 0).
  { destruct (obs_encoder_get_last_error host); simpl;
      intros H; destruct (fail_label_null _ _ _ _ _ H). }
  destruct av_frame_alloc as [vf |];
    [| simpl; intros H; destruct (fail_label_null _ _ _ _ _ H)].
  destruct (av_frame_get_buffer _ _) as [ret' vf'].
  destruct (ret' <? 0); simpl;
    [intros H; destruct (fail_label_null _ _ _ _ _ H) |].
  intros [= <- <-]. simpl. rewrite Hheight.
  repeat split; try reflexivity; eexists; reflexivity.
Qed.

End created_session.

Lemma create_session_state_witness :
  exists enc heap',
    @ffmpeg_amf_create script ffmpeg_5_1 0 cbr_2500 ntsc_encoder false
      = Some (Some enc, heap') /\
    initialized enc = true /\ first_packet enc = true /\
    header enc = [] /\ buffer enc = [] /\
    is_Some (context enc) /\ is_Some (vframe enc) /\
    encoder enc = ntsc_encoder /\
    ffmpeg_amf enc = Some {| codec_name := "h264_amf" |} /\
    enc_height enc = 2 /\
    heap' =
      {[ R_vframe_data ]} ∪ ({[ R_vframe ]} ∪ ({[ R_context ]} ∪ {[ R_enc ]})).
Proof.
  destruct (@ffmpeg_amf_create script ffmpeg_5_1 0 cbr_2500 ntsc_encoder false)
    as [[[enc |] heap'] |] eqn:Hcreate;
    try (exfalso; revert Hcreate;
         unfold ffmpeg_amf_create, ffmpeg_amf_update; simpl;
         discriminate).
  exists enc, heap'. split; [reflexivity |].
  apply (@create_session_state script ffmpeg_5_1 0 cbr_2500 ntsc_encoder
           false enc heap' Hcreate).
Defined.

(** ** Encode loop: the packet handed out *)

Lemma key_flag_is_bit_0 flags :
  negb (Z.land flags AV_PKT_FLAG_KEY =? 0) = Z.testbit flags 0.
Proof.
  unfold AV_PKT_FLAG_KEY. change 1 with (Z.ones 1).
  rewrite Z.land_ones by lia. change (2 ^ 1) with 2.
  rewrite Zmod_odd, Z.bit0_odd. destruct (Z.odd flags); reflexivity.
Qed.

Section packet_facts.
Context {St : Type} `{Ext : Externals St}.

(** X14.  When submission and retrieval leave no error and a packet of
    one byte or more, [ffmpeg_amf_encode] answers [true] with
    [*received_packet] set, replaces the contents of the output buffer by
    the bytes of the packet, and fills the caller's packet with a view of
    that buffer, its size, the two timestamps of the packet, the video
    type, and as keyframe mark bit 0 of the flags of the packet. *)
Theorem encode_fills_packet enc frame packet received
    (ctx : AVCodecContext St) pic pic1 ret av_pkt ctx1 :
  context enc = Some ctx ->
  vframe enc = Some pic ->
  copy_data pic frame (enc_height enc) (pix_fmt ctx) = Some pic1 ->
  submit_and_receive ctx (set_vf_pts (ef_pts frame) pic1)
    = (ret, true, av_pkt, ctx1) ->
  0 <= ret ->
  pkt_data av_pkt <> [] ->
  exists enc' packet',
    ffmpeg_amf_encode enc frame packet received
      = Some (true, enc', packet', true) /\
    buffer enc' = pkt_data av_pkt /\
    ep_data packet' = buffer enc' /\
    ep_size packet' = Z.of_nat (length (buffer enc')) /\
    ep_pts packet' = pkt_pts av_pkt /\
    ep_dts packet' = pkt_dts av_pkt /\
    ep_type packet' = OBS_ENCODER_VIDEO /\
    ep_keyframe packet' = Z.testbit (pkt_flags av_pkt) 0.
Proof.
  intros Hctx Hpic Hcopy Hsr Hret Hdata.
  rewrite (encode_cases enc frame packet received ctx pic pic1
             ret true av_pkt ctx1 Hctx Hpic Hcopy Hsr).
  destruct (Z.ltb_spec ret 0); [lia |].
  assert ((pkt_size av_pkt =? 0) = false) as ->.
  { apply Z.eqb_neq. unfold pkt_size.
    destruct (pkt_data av_pkt); [contradiction | simpl; lia]. }
  simpl. eexists; eexists. split; [reflexivity |].
  rewrite key_flag_is_bit_0.
  destruct (first_packet enc); repeat split; reflexivity.
Qed.

(** X15.  In a build with the send/receive interface a call hands out a
    packet exactly when the submission answers 0, the retrieval answers
    0 and the packet retrieved is not empty. *)
Theorem encode_produces_iff enc frame packet received
    (ctx : AVCodecContext St) pic pic1 :
  send_receive_api = true ->
  context enc = Some ctx ->
  vframe enc = Some pic ->
  copy_data pic frame (enc_height enc) (pix_fmt ctx) = Some pic1 ->
  let sent := avcodec_send_frame ctx (set_vf_pts (ef_pts frame) pic1) in
  let got := avcodec_receive_packet sent.2 in
  exists r,
    ffmpeg_amf_encode enc frame packet received = Some r /\
    (produced r = true <->
     sent.1 = 0 /\ got.1.1 = 0 /\ pkt_data got.1.2 <> []).
Proof.
  intros Hapi Hctx Hpic Hcopy sent got.
  pose proof (submit_and_receive_cases ctx
                (set_vf_pts (ef_pts frame) pic1) Hapi) as Hsr.
  simpl in Hsr. fold sent got in Hsr.
  destruct (submit_and_receive ctx (set_vf_pts (ef_pts frame) pic1))
    as [[[ret g] av_pkt] ctx1] eqn:Hans.
  rewrite (encode_cases enc frame packet received ctx pic pic1
             ret g av_pkt ctx1 Hctx Hpic Hcopy Hans).
  eexists. split; [reflexivity |]. unfold produced.
  assert (forall p : AVPacket, (pkt_size p =? 0) = false <-> pkt_data p <> [])
    as Hsize.
  { intros p. unfold pkt_size. destruct (pkt_data p); simpl.
    - split; [discriminate | contradiction].
    - split; [discriminate | intros _; reflexivity]. }
  destruct (Z.eqb_spec sent.1 0) as [Hz | Hnz].
  - injection Hsr as -> -> -> ->.
    destruct (Z.eqb_spec got.1.1 0) as [Hr | Hr].
    + rewrite Hr.
      assert (forall b : bool, ((if b then 0 else 0) <? 0) = false) as ->
        by (intros []; reflexivity).
      simpl. destruct (pkt_size got.1.2 =? 0) eqn:Hs; simpl.
      * split; [discriminate |]. intros (_ & _ & Hd).
        apply Hsize in Hd. congruence.
      * split; [| reflexivity]. intros _.
        repeat split; try assumption. apply Hsize. exact Hs.
    + simpl. destruct (_ <? 0); simpl;
        (split; [discriminate | intros (_ & ? & _); contradiction]).
  - injection Hsr as -> -> -> ->.
    simpl. destruct (_ <? 0); simpl;
      (split; [discriminate | intros (? & _); contradiction]).
Qed.

(** X16.  Whatever a call of [ffmpeg_amf_encode] answers, it leaves the
    height, the initialized mark, the host encoder and the codec of the
    session alone, and the internal frame carries the timestamp of the
    caller's frame and its old strides.  A call that hands out no packet
    also leaves the output buffer and the caller's packet alone. *)
Theorem encode_keeps enc frame packet received (r : encode_answer)
    (pic : AVFrame) :
  vframe enc = Some pic ->
  ffmpeg_amf_encode enc frame packet received = Some r ->
  enc_height (answer_session r) = enc_height enc /\
  initialized (answer_session r) = initialized enc /\
  encoder (answer_session r) = encoder enc /\
  ffmpeg_amf (answer_session r) = ffmpeg_amf enc /\
  (exists pic',
     vframe (answer_session r) = Some pic' /\
     vf_pts pic' = ef_pts frame /\
     vf_linesize pic' = vf_linesize pic) /\
  (produced r = false ->
     buffer (answer_session r) = buffer enc /\ answer_packet r = packet).
Proof.
  intros Hpic Henc.
  destruct (encode_inv _ _ _ _ _ Henc)
    as (ctx & pic0 & pic1 & ret & got & av_pkt & ctx1 & Hctx & Hpic0 & Hcopy
        & Hsr).
  assert (pic0 = pic) as -> by congruence.
  rewrite (encode_cases enc frame packet received ctx pic pic1
             ret got av_pkt ctx1 Hctx Hpic Hcopy Hsr) in Henc.
  injection Henc as <-.
  assert (vf_linesize pic1 = vf_linesize pic) as Hls.
  { revert Hcopy. unfold copy_data.
    destruct (av_pix_fmt_get_chroma_sub_sample (pix_fmt ctx))
      as [[h v] |]; [| discriminate]. simpl.
    generalize MAX_AV_PLANES 0%nat pic.
    intros n. induction n as [| n IH]; intros p pc; simpl.
    - intros [= <-]. reflexivity.
    - destruct (ef_data frame !! p) as [[src |] |]; try apply IH.
      destruct (copy_rows _ _ _ _ _ _ _) as [dst |]; [| discriminate].
      simpl. intros Hrec. apply IH in Hrec. exact Hrec. }
  destruct (ret <? 0).
  { unfold answer_session, answer_packet. simpl.
    repeat split; try reflexivity.
    eexists. split; [reflexivity |]. split; [reflexivity | exact Hls]. }
  destruct (got && negb (pkt_size av_pkt =? 0)).
  - unfold answer_session, answer_packet, produced. simpl.
    destruct (first_packet enc);
      [destruct (negb (Z.of_nat (length (extradata ctx1)) =? 0)) |];
      simpl; repeat split; try reflexivity; try discriminate;
      eexists; (split; [reflexivity |]); (split; [reflexivity | exact Hls]).
  - unfold answer_session, answer_packet. simpl.
    repeat split; try reflexivity.
    eexists. split; [reflexivity |]. split; [reflexivity | exact Hls].
Qed.

End packet_facts.

Lemma encode_fills_packet_witness :
  exists enc' packet',
    @ffmpeg_amf_encode script ffmpeg_5_1 ready_session nv12_frame
      no_packet false = Some (true, enc', packet', true) /\
    buffer enc' = [Byte.xaa; Byte.xbb; Byte.xcc] /\
    ep_data packet' = buffer enc' /\
    ep_size packet' = 3 /\
    ep_pts packet' = 7 /\ ep_dts packet' = 6 /\
    ep_type packet' = OBS_ENCODER_VIDEO /\
    ep_keyframe packet' = true.
Proof.
  edestruct (@encode_fills_packet script ffmpeg_5_1 ready_session nv12_frame
               no_packet false)
    as (enc' & packet' & Henc & Hbuf & Hdata & Hsize & Hrest).
  - reflexivity.
  - reflexivity.
  - vm_compute. reflexivity.
  - vm_compute. reflexivity.
  - lia.
  - discriminate.
  - exists enc', packet'. split; [exact Henc |]. split; [exact Hbuf |].
    split; [exact Hdata |]. split; [rewrite Hsize, Hbuf; reflexivity |].
    exact Hrest.
Defined.

Lemma encode_produces_iff_witness :
  exists r,
    @ffmpeg_amf_encode script ffmpeg_5_1 ready_session nv12_frame
      no_packet false = Some r /\
    produced r = true.
Proof.
  edestruct (@encode_produces_iff script ffmpeg_5_1 ready_session nv12_frame
               no_packet false) as (r & Henc & Hiff).
  - reflexivity.
  - reflexivity.
  - reflexivity.
  - vm_compute. reflexivity.
  - exists r. split; [exact Henc |]. apply Hiff.
    vm_compute. repeat split; discriminate.
Defined.

Lemma encode_keeps_witness :
  exists r,
    @ffmpeg_amf_encode script ffmpeg_5_1 busy_session nv12_frame
      no_packet false = Some r /\
    enc_height (answer_session r) = 2 /\
    initialized (answer_session r) = true /\
    (exists pic',
       vframe (answer_session r) = Some pic' /\
       vf_pts pic' = 7 /\ vf_linesize pic' = [8; 8]) /\
    buffer (answer_session r) = [] /\ answer_packet r = no_packet.
Proof.
  destruct (@ffmpeg_amf_encode script ffmpeg_5_1 busy_session nv12_frame
              no_packet false) as [r |] eqn:Henc;
    [| vm_compute in Henc; discriminate].
  destruct (@encode_keeps script ffmpeg_5_1 busy_session nv12_frame
              no_packet false r nv12_pic eq_refl Henc)
    as (Hh & Hi & _ & _ & Hpic & Hquiet).
  exists r. split; [reflexivity |]. split; [exact Hh |].
  split; [exact Hi |]. split; [exact Hpic |].
  apply Hquiet. vm_compute in Henc. injection Henc as <-. reflexivity.
Defined.

(** ** Older builds and sessions that never run dry *)

Section legacy_facts.
Context {St : Type} `{Ext : Externals St}.

(** X17.  In a build without the send/receive interface
    [ffmpeg_amf_encode] answers [false] exactly when
    [avcodec_encode_video2] answers a negative number, be it
    [AVERROR(EAGAIN)] or [AVERROR_EOF], and hands out a packet exactly
    when that call answers no error, reports a packet and the packet is
    not empty. *)
Theorem encode_legacy_answers enc frame packet received
    (ctx : AVCodecContext St) pic pic1 :
  send_receive_api = false ->
  context enc = Some ctx ->
  vframe enc = Some pic ->
  copy_data pic frame (enc_height enc) (pix_fmt ctx) = Some pic1 ->
  let answer :=
    avcodec_encode_video2 ctx (Some (set_vf_pts (ef_pts frame) pic1)) in
  exists r,
    ffmpeg_amf_encode enc frame packet received = Some r /\
    (answer_ok r = false <-> answer.1.1.1 < 0) /\
    (produced r = true <->
     0 <= answer.1.1.1 /\ answer.1.2 <> 0 /\ pkt_data answer.1.1.2 <> []).
Proof.
  intros Hapi Hctx Hpic Hcopy answer.
  assert (submit_and_receive ctx (set_vf_pts (ef_pts frame) pic1)
          = (answer.1.1.1, negb (answer.1.2 =? 0), answer.1.1.2, answer.2))
    as Hsr.
  { unfold submit_and_receive. rewrite Hapi. fold answer.
    destruct answer as [[[ret pkt] got] ctx1]. reflexivity. }
  rewrite (encode_cases enc frame packet received ctx pic pic1
             _ _ _ _ Hctx Hpic Hcopy Hsr).
  eexists. split; [reflexivity |]. unfold produced.
  destruct (Z.ltb_spec answer.1.1.1 0) as [Hneg | Hpos]; simpl.
  { split; [split; [intros _; exact Hneg | reflexivity] |].
    split; [discriminate | intros [? _]; lia]. }
  destruct (Z.eqb_spec answer.1.2 0) as [Hgot | Hgot]; simpl.
  { split; [split; [discriminate | lia] |].
    split; [discriminate | intros (_ & ? & _); contradiction]. }
  unfold pkt_size. destruct (pkt_data answer.1.1.2) as [| b l]; simpl.
  - split; [split; [discriminate | lia] |].
    split; [discriminate | intros (_ & _ & ?); contradiction].
  - split; [split; [discriminate | lia] |].
    split; [intros _; repeat split; [lia | exact Hgot | discriminate] |].
    reflexivity.
Qed.

Lemma flush_packets_endless fuel : forall (ctx : AVCodecContext St) r_pkt,
  r_pkt <> 0 ->
  (forall n, has_output (poll (after_polls n ctx)) = true) ->
  flush_packets fuel ctx r_pkt = None.
Proof.
  induction fuel as [| fuel IH]; intros ctx r_pkt Hr Hout; [reflexivity |].
  pose proof (Hout 0%nat) as H0. simpl in H0.
  assert (forall n, has_output (poll (after_polls n (poll ctx).2)) = true)
    as Hnext by (intros n; apply (Hout (S n))).
  specialize (IH (poll ctx).2).
  unfold has_output in H0. unfold poll in H0, Hnext, IH.
  cbn [flush_packets].
  destruct (Z.eqb_spec r_pkt 0) as [| _]; [contradiction |].
  destruct send_receive_api.
  - destruct (avcodec_receive_packet ctx) as [[ret pkt] ctx1].
    simpl in *. destruct (ret <? 0); [discriminate |].
    rewrite (IH r_pkt Hr Hnext). reflexivity.
  - destruct (avcodec_encode_video2 ctx None) as [[[ret pkt] r'] ctx1].
    simpl in *. destruct (ret <? 0); [discriminate |].
    destruct (Z.eqb_spec r' 0) as [| Hr']; [discriminate |].
    rewrite (IH r' Hr' Hnext). reflexivity.
Qed.

(** X18.  On an initialized session that reports output at every turn,
    the flush loop of [ffmpeg_amf_destroy] never ends: no number of turns
    is enough for the function to come to its releases. *)
Theorem destroy_never_ends (enc : ffmpeg_amf_encoder St)
    (heap : gset resource) (ctx : AVCodecContext St) :
  initialized enc = true ->
  context enc = Some ctx ->
  (forall n, has_output (poll (after_polls n ctx)) = true) ->
  forall fuel, ffmpeg_amf_destroy fuel enc heap = None.
Proof.
  intros Hinit Hctx Hout fuel. unfold ffmpeg_amf_destroy.
  rewrite Hinit, Hctx. simpl.
  rewrite (flush_packets_endless fuel ctx 1 ltac:(lia) Hout). reflexivity.
Qed.

End legacy_facts.

Lemma encode_legacy_answers_witness :
  exists r,
    @ffmpeg_amf_encode script (legacy_build no_script) busy_session
      nv12_frame no_packet false = Some r /\
    answer_ok r = false.
Proof.
  edestruct (@encode_legacy_answers script (legacy_build no_script)
               busy_session nv12_frame no_packet false)
    as (r & Henc & Hfail & _).
  - reflexivity.
  - reflexivity.
  - reflexivity.
  - vm_compute. reflexivity.
  - exists r. split; [exact Henc |]. apply Hfail. vm_compute. reflexivity.
Defined.

Lemma endless_output :
  exists ctx,
    context loaded_session = Some ctx /\
    forall n, @has_output script (@poll script endless_build
                                    (@after_polls script endless_build n ctx))
              = true.
Proof.
  eexists. split; [reflexivity |].
  intros n. induction n as [| n IH]; [reflexivity | exact IH].
Qed.

Lemma destroy_never_ends_witness :
  @ffmpeg_amf_destroy script endless_build 1000 loaded_session
    session_resources = None.
Proof.
  destruct endless_output as (ctx & Hctx & Hout).
  apply (@destroy_never_ends script endless_build loaded_session
           session_resources ctx eq_refl Hctx Hout 1000%nat).
Defined.

(** ** Pixel plane copier: shape, equal strides, repetition *)

Lemma memcpy_length (dst src dst' : list byte) (pd ps n : Z) :
  memcpy dst pd src ps n = Some dst' -> length dst' = length dst.
Proof.
  unfold memcpy. case_decide as Hok; [| discriminate].
  intros [= <-]. rewrite !length_app, !length_take, !length_drop. lia.
Qed.

Lemma copy_rows_length rows : forall y (dst src dst' : list byte) pr fr bytes,
  copy_rows rows y dst src pr fr bytes = Some dst' ->
  length dst' = length dst.
Proof.
  induction rows as [| rows IH]; intros y dst src dst' pr fr bytes; simpl.
  - intros [= <-]. reflexivity.
  - destruct (memcpy dst _ src _ bytes) as [dst1 |] eqn:Hcp; [| discriminate].
    simpl. intros Hrec. apply IH in Hrec. apply memcpy_length in Hcp.
    congruence.
Qed.

(** The plane loop touches the plane bytes only and keeps their
    number. *)
Lemma copy_planes_shape (frame : encoder_frame) (height v : Z) planes :
  forall plane pic pic',
  copy_planes planes plane pic frame height v = Some pic' ->
  pic' = set_vf_data (vf_data pic') pic /\
  length (vf_data pic') = length (vf_data pic) /\
  forall q, length (default [] (vf_data pic' !! q))
            = length (default [] (vf_data pic !! q)).
Proof.
  induction planes as [| planes IH]; intros plane pic pic'; simpl.
  - intros [= <-]. split; [destruct pic; reflexivity |].
    split; reflexivity.
  - destruct (ef_data frame !! plane) as [[src |] |]; try apply IH.
    destruct (copy_rows _ _ _ _ _ _ _) as [dst |] eqn:Hrows; [| discriminate].
    simpl. intros Hrec. apply IH in Hrec.
    destruct Hrec as (Heq & Hlen & Hq). simpl in *.
    apply copy_rows_length in Hrows.
    split; [rewrite Heq; reflexivity |].
    split; [rewrite Hlen; apply length_insert |].
    intros q. rewrite Hq.
    destruct (decide (q = plane)) as [-> | Hne].
    + destruct (decide (plane < length (vf_data pic))%nat) as [Hl | Hl].
      * rewrite list_lookup_insert_eq by exact Hl. simpl. exact Hrows.
      * rewrite list_insert_ge by lia. reflexivity.
    + rewrite list_lookup_insert_ne by congruence. reflexivity.
Qed.

Section copier_shape.
Context {St : Type} `{Ext : Externals St}.

(** X19.  Whenever [copy_data] has a result it has changed nothing of the
    internal frame but bytes of its planes: format, size, colour fields,
    timestamp and strides are as before, there are as many planes, and
    every plane has as many bytes. *)
Theorem copy_data_keeps_shape (pic pic' : AVFrame) (frame : encoder_frame)
    (height : Z) (format : AVPixelFormat) :
  copy_data pic frame height format = Some pic' ->
  pic' = set_vf_data (vf_data pic') pic /\
  length (vf_data pic') = length (vf_data pic) /\
  forall plane,
    length (default [] (vf_data pic' !! plane))
    = length (default [] (vf_data pic !! plane)).
Proof.
  unfold copy_data.
  destruct (av_pix_fmt_get_chroma_sub_sample format) as [[h v] |];
    [| discriminate].
  simpl. apply copy_planes_shape.
Qed.

End copier_shape.

Lemma copy_data_keeps_shape_witness :
  exists pic',
    @copy_data script ffmpeg_5_1 nv12_pic nv12_frame 2 23 = Some pic' /\
    pic' = set_vf_data (vf_data pic') nv12_pic /\
    length (vf_data pic') = 2%nat /\
    forall plane,
      length (default [] (vf_data pic' !! plane))
      = length (default [] (vf_data nv12_pic !! plane)).
Proof.
  destruct (@copy_data script ffmpeg_5_1 nv12_pic nv12_frame 2 23)
    as [pic' |] eqn:Hcopy; [| vm_compute in Hcopy; discriminate].
  exists pic'. split; [reflexivity |].
  apply (@copy_data_keeps_shape script ffmpeg_5_1 nv12_pic pic' nv12_frame
           2 23 Hcopy).
Defined.

(** A byte offset lies in one of the rows copied or in none. *)
Lemma footprint_dec (pr bytes ph : Z) (i : nat) :
  0 <= bytes <= pr ->
  (exists y x, 0 <= y < ph /\ 0 <= x < bytes /\ Z.of_nat i = y * pr + x) \/
  (forall y x, 0 <= y < ph -> 0 <= x < bytes -> Z.of_nat i <> y * pr + x).
Proof.
  intros Hb.
  destruct (Z.eq_dec pr 0) as [-> | Hpr]; [right; intros; lia |].
  assert (0 < pr) as Hpos by lia.
  pose proof (Z.div_mod (Z.of_nat i) pr ltac:(lia)) as Hdm.
  pose proof (Z.mod_pos_bound (Z.of_nat i) pr Hpos) as Hmod.
  assert (0 <= Z.of_nat i / pr) as Hq by (apply Z.div_pos; lia).
  destruct (Z_lt_dec (Z.of_nat i / pr) ph) as [Hy | Hy];
    [destruct (Z_lt_dec (Z.of_nat i mod pr) bytes) as [Hx | Hx] |].
  - left. exists (Z.of_nat i / pr), (Z.of_nat i mod pr).
    repeat split; lia.
  - right. intros y x Hyr Hxr Heq.
    assert (x = Z.of_nat i mod pr)
      by (apply (Z.mod_unique_pos _ _ y); lia).
    lia.
  - right. intros y x Hyr Hxr Heq.
    assert (y = Z.of_nat i / pr)
      by (apply (Z.div_unique_pos _ _ y x); lia).
    lia.
Qed.

(** Copying the same rows into a plane that already holds them changes
    nothing. *)
Lemma plane_copied_again (a a' a'' src : list byte) (pr fr bytes ph : Z) :
  0 <= bytes <= pr ->
  plane_copied a' a src pr fr bytes ph ->
  plane_copied a'' a' src pr fr bytes ph ->
  a'' = a'.
Proof.
  intros Hb (_ & Hin & _) (_ & Hin' & Hout').
  apply list_eq. intros i.
  destruct (footprint_dec pr bytes ph i Hb) as [(y & x & Hy & Hx & Hi) | Hno].
  - replace i with (Z.to_nat (y * pr + x)) by lia.
    destruct (Hin y x Hy Hx) as [_ ->].
    destruct (Hin' y x Hy Hx) as [_ ->]. reflexivity.
  - apply Hout'. exact Hno.
Qed.

Section copier_composition.
Context {St : Type} `{Ext : Externals St}.

(** X20.  When the caller's stride of a plane equals that of the internal
    frame, the copy is one block: the first [plane_height * stride] bytes
    of the destination plane are the first [plane_height * stride] bytes
    of the source plane. *)
Theorem copy_data_equal_strides (pic : AVFrame) (frame : encoder_frame)
    (height : Z) (format : AVPixelFormat) (h_shift v_shift : Z)
    (plane : nat) (src : list byte) (stride : Z) :
  av_pix_fmt_get_chroma_sub_sample format = Some (h_shift, v_shift) ->
  frame_fits pic frame height v_shift ->
  (plane < MAX_AV_PLANES)%nat ->
  ef_data frame !! plane = Some (Some src) ->
  frame_rowsize frame plane = stride ->
  pic_rowsize pic plane = stride ->
  exists pic',
    copy_data pic frame height format = Some pic' /\
    take (Z.to_nat (plane_height height plane v_shift * stride))
      (default [] (vf_data pic' !! plane))
    = take (Z.to_nat (plane_height height plane v_shift * stride)) src.
Proof.
  intros Hfmt Hfits Hplane Hsrc Hfr Hpr.
  unfold copy_data. rewrite Hfmt. simpl.
  destruct (copy_planes_spec frame height v_shift MAX_AV_PLANES 0%nat pic)
    as (pic' & Hcp & _ & Hin & _).
  { intros q s Hq Hs. apply Hfits; [lia | exact Hs]. }
  exists pic'. split; [exact Hcp |].
  destruct (Hin plane src ltac:(lia) Hsrc) as (_ & Hrows & _).
  rewrite row_bytes_min, Hfr, Hpr, Z.min_id in Hrows.
  destruct (Hfits plane src Hplane Hsrc) as (Hs0 & _).
  rewrite Hfr in Hs0.
  set (ph := plane_height height plane v_shift) in *.
  apply list_eq. intros i.
  destruct (decide (i < Z.to_nat (ph * stride))%nat) as [Hi | Hi].
  - rewrite !lookup_take_lt by exact Hi.
    assert (0 < stride) as Hpos.
    { destruct (Z.eq_dec stride 0) as [Hz | Hz]; [| lia].
      rewrite Hz, Z.mul_0_r in Hi. simpl in Hi. lia. }
    pose proof (Z.div_mod (Z.of_nat i) stride ltac:(lia)) as Hdm.
    pose proof (Z.mod_pos_bound (Z.of_nat i) stride Hpos) as Hmod.
    assert (0 <= Z.of_nat i / stride) as Hq by (apply Z.div_pos; lia).
    assert (Z.of_nat i / stride < ph) as Hy
      by (apply Z.div_lt_upper_bound; lia).
    destruct (Hrows (Z.of_nat i / stride) (Z.of_nat i mod stride)
                ltac:(lia) ltac:(lia)) as [_ Heq].
    replace (Z.to_nat (Z.of_nat i / stride * stride + Z.of_nat i mod stride))
      with i in Heq by lia.
    exact Heq.
  - rewrite !lookup_take_ge by lia. reflexivity.
Qed.

(** X21.  Copying the same frame a second time leaves the internal frame
    exactly as the first copy left it. *)
Theorem copy_data_twice (pic : AVFrame) (frame : encoder_frame)
    (height : Z) (format : AVPixelFormat) (h_shift v_shift : Z) :
  av_pix_fmt_get_chroma_sub_sample format = Some (h_shift, v_shift) ->
  frame_fits pic frame height v_shift ->
  exists pic',
    copy_data pic frame height format = Some pic' /\
    copy_data pic' frame height format = Some pic'.
Proof.
  intros Hfmt Hfits. unfold copy_data. rewrite Hfmt. simpl.
  destruct (copy_planes_spec frame height v_shift MAX_AV_PLANES 0%nat pic)
    as (pic' & Hcp & Hls & Hin & Hout).
  { intros q s Hq Hs. apply Hfits; [lia | exact Hs]. }
  exists pic'. split; [exact Hcp |].
  destruct (copy_planes_shape _ _ _ _ _ _ _ Hcp) as (Hshape & Hlen & Hplanes).
  assert (forall q, pic_rowsize pic' q = pic_rowsize pic q) as Hpr
    by (intros q; unfold pic_rowsize; rewrite Hls; reflexivity).
  assert (forall q, row_bytes pic' frame q = row_bytes pic frame q) as Hrb
    by (intros q; unfold row_bytes; rewrite Hpr; reflexivity).
  destruct (copy_planes_spec frame height v_shift MAX_AV_PLANES 0%nat pic')
    as (pic'' & Hcp' & Hls' & Hin' & Hout').
  { intros q s Hq Hs.
    destruct (Hfits q s ltac:(lia) Hs) as (H1 & H2 & H3 & H4 & H5).
    unfold plane_fits. rewrite Hpr, Hplanes.
    exact (conj H1 (conj H2 (conj H3 (conj H4 H5)))). }
  rewrite Hcp'. f_equal.
  destruct (copy_planes_shape _ _ _ _ _ _ _ Hcp') as (Hshape' & Hlen' & _).
  assert (vf_data pic'' = vf_data pic') as Hdata.
  { apply list_eq. intros q.
    destruct (decide (q < MAX_AV_PLANES)%nat) as [Hq | Hq];
      [| apply Hout'; left; lia].
    destruct (ef_data frame !! q) as [[s |] |] eqn:Hs;
      [| apply Hout'; tauto | apply Hout'; tauto].
    specialize (Hin q s ltac:(lia) Hs).
    specialize (Hin' q s ltac:(lia) Hs).
    rewrite Hpr, Hrb in Hin'.
    destruct (Hfits q s Hq Hs) as (H1 & H2 & _).
    assert (default [] (vf_data pic'' !! q) = default [] (vf_data pic' !! q))
      as Hsame.
    { assert (0 <= row_bytes pic frame q <= pic_rowsize pic q) as Hb
        by (rewrite row_bytes_min; lia).
      exact (plane_copied_again _ _ _ _ _ _ _ _ Hb Hin Hin'). }
    destruct (vf_data pic'' !! q) as [l'' |] eqn:H'';
      destruct (vf_data pic' !! q) as [l' |] eqn:H'; simpl in Hsame.
    - congruence.
    - apply lookup_lt_Some in H''. apply lookup_ge_None in H'. lia.
    - apply lookup_lt_Some in H'. apply lookup_ge_None in H''. lia.
    - reflexivity. }
  rewrite Hshape', Hdata. destruct pic'; reflexivity.
Qed.

End copier_composition.

Lemma packed_pic_fits :
  @frame_fits script ffmpeg_5_1 packed_pic nv12_frame 2 1.
Proof.
  intros plane src Hplane Hsrc.
  destruct plane as [| [| plane]].
  - injection Hsrc as <-. vm_compute. repeat split; discriminate.
  - injection Hsrc as <-. vm_compute. repeat split; discriminate.
  - destruct plane as [| plane]; [discriminate |].
    simpl in Hsrc. rewrite lookup_nil in Hsrc. discriminate.
Qed.

Lemma nv12_pic_fits :
  @frame_fits script ffmpeg_5_1 nv12_pic nv12_frame 2 1.
Proof.
  intros plane src Hplane Hsrc.
  destruct plane as [| [| plane]].
  - injection Hsrc as <-. vm_compute. repeat split; discriminate.
  - injection Hsrc as <-. vm_compute. repeat split; discriminate.
  - destruct plane as [| plane]; [discriminate |].
    simpl in Hsrc. rewrite lookup_nil in Hsrc. discriminate.
Qed.

Lemma copy_data_equal_strides_witness :
  exists pic',
    @copy_data script ffmpeg_5_1 packed_pic nv12_frame 2 23 = Some pic' /\
    take 8 (default [] (vf_data pic' !! 0%nat)) = take 8 luma.
Proof.
  exact (@copy_data_equal_strides script ffmpeg_5_1 packed_pic nv12_frame
           2 23 1 1 0%nat luma 4 eq_refl packed_pic_fits
           ltac:(vm_compute; lia) eq_refl eq_refl eq_refl).
Defined.

Lemma copy_data_twice_witness :
  exists pic',
    @copy_data script ffmpeg_5_1 nv12_pic nv12_frame 2 23 = Some pic' /\
    @copy_data script ffmpeg_5_1 pic' nv12_frame 2 23 = Some pic'.
Proof.
  exact (@copy_data_twice script ffmpeg_5_1 nv12_pic nv12_frame 2 23 1 1
           eq_refl nv12_pic_fits).
Defined.

(** ** Reconfiguration after configuration *)

Section reconfigure_composition.
Context {St : Type} `{Ext : Externals St}.

(** X22.  Reconfiguring a session with the very settings that configured
    it changes nothing, in every mode, as long as the bitrate times 1000 is
    an [int]: the rates [ffmpeg_amf_reconfigure] writes are those
    [ffmpeg_amf_update] has written. *)
Theorem reconfigure_same_settings enc settings (ctx : AVCodecContext St) :
  context enc = Some ctx ->
  divisible enc settings ->
  INT_MIN <= obs_data_get_int settings "bitrate" * 1000 <= INT_MAX ->
  exists enc0,
    ffmpeg_amf_update_settings enc settings = Some enc0 /\
    ffmpeg_amf_reconfigure enc0 settings = Some (true, enc0).
Proof.
  intros Hctx Hdiv Hrange.
  destruct (update_settings_fields enc settings ctx Hctx Hdiv)
    as (enc0 & ctx0 & Hup & Hc0 & _ & Hbr & _ & _ & Hmax & _).
  exists enc0. split; [exact Hup |].
  rewrite (reconfigure_unfold enc0 settings ctx0 Hc0).
  set (rc := obs_data_get_string settings "rate_control") in *.
  set (b := obs_data_get_int settings "bitrate") in *.
  destruct (dynamic_bitrate_api &&
            ((astrcmpi rc "CBR" =? 0) || (astrcmpi rc "VBR" =? 0)))
    eqn:Hmode; [| reflexivity].
  apply andb_true_iff in Hmode. destruct Hmode as [_ Hmode].
  assert (astrcmpi rc "cqp" <> 0) as Hq.
  { apply orb_true_iff in Hmode.
    destruct Hmode as [Hm | Hm]; apply Z.eqb_eq in Hm;
      refine (astrcmpi_other_upper rc _ "cqp" _ Hm); vm_compute; discriminate. }
  assert (to_int b = b) as Hb.
  { apply to_int_id. unfold INT_MIN, INT_MAX in *. lia. }
  assert (to_int64 (b * 1000) = b * 1000) as Hb64.
  { apply to_int64_id.
    unfold INT_MIN, INT_MAX, INT64_MIN, INT64_MAX in *.
    change (2 ^ 31) with 2147483648 in Hrange.
    change (2 ^ 63) with 9223372036854775808. lia. }
  unfold update_rate_control in Hbr, Hmax.
  destruct (Z.eqb_spec (astrcmpi rc "cqp") 0) as [Hz | _];
    [contradiction |].
  rewrite Hb in Hbr, Hmax. rewrite Hb64 in Hmax. rewrite Hb64.
  assert (bit_rate ctx0 = b * 1000) as Hbr'
    by (rewrite Hbr; apply to_int_id; exact Hrange).
  assert (rc_max_rate ctx0 = b * 1000) as Hmax'
    by (rewrite Hmax; destruct (astrcmpi rc "vbr" =? 0); reflexivity).
  do 2 f_equal.
  destruct enc0 as [e a c v bf hd eh fp ini]. simpl in Hc0. subst c.
  unfold with_context. simpl. do 2 f_equal.
  destruct ctx0. simpl in Hbr', Hmax'. subst.
  reflexivity.
Qed.

End reconfigure_composition.

Lemma reconfigure_same_settings_witness :
  exists enc0,
    @ffmpeg_amf_update_settings script (scripted [] no_script)
      (allocated_encoder no_script) cbr_2500 = Some enc0 /\
    @ffmpeg_amf_reconfigure script (scripted [] no_script) enc0 cbr_2500
      = Some (true, enc0).
Proof.
  apply (@reconfigure_same_settings script (scripted [] no_script)
           (allocated_encoder no_script) cbr_2500
           (scripted_context no_script)).
  - reflexivity.
  - right. vm_compute. discriminate.
  - vm_compute. split; discriminate.
Defined.

Section reconfigure_effect.
Context {St : Type} `{Ext : Externals St}.



End reconfigure_effect.


(** ** Defaults and property sheet *)

Lemma obs_properties_get_name props name q :
  obs_properties_get props name = Some q -> prop_name q = name.
Proof.
  induction props as [| r props IH]; simpl; [discriminate |].
  destruct (String.eqb_spec (prop_name r) name) as [Hr | Hr].
  - intros [= <-]. exact Hr.
  - exact IH.
Qed.

Lemma obs_properties_get_handle_spec props name :
  obs_properties_get_handle props name
  = (fun _ => name) <$> obs_properties_get props name.
Proof.
  unfold obs_properties_get_handle.
  destruct (obs_properties_get props name) as [q |] eqn:Hq; simpl;
    [| reflexivity].
  rewrite (obs_properties_get_name _ _ _ Hq). reflexivity.
Qed.

(** A change through a handle reaches the property of that name and no
    other. *)
Lemma obs_properties_get_on_property f n props name :
  (forall q, prop_name (f q) = prop_name q) ->
  obs_properties_get (on_property (Some n) f props) name
  = (if String.eqb n name then f else id) <$> obs_properties_get props name.
Proof.
  intros Hf. induction props as [| r props IH]; simpl; [reflexivity |].
  destruct (String.eqb_spec (prop_name r) n) as [Hn | Hn].
  - rewrite Hf.
    destruct (String.eqb_spec (prop_name r) name) as [Hr | Hr].
    + rewrite <- Hn, Hr, String.eqb_refl. reflexivity.
    + exact IH.
  - destruct (String.eqb_spec (prop_name r) name) as [Hr | Hr].
    + destruct (String.eqb_spec n name) as [Heq | _]; [congruence |].
      reflexivity.
    + exact IH.
Qed.

Lemma obs_properties_get_set_visible props h v name :
  obs_properties_get
    (obs_property_set_visible ((fun _ => h) <$> obs_properties_get props h)
       v props) name
  = (if String.eqb h name
     then fun q =>
       {| prop_name := prop_name q; prop_desc := prop_desc q;
          prop_data := prop_data q; prop_visible := v;
          prop_modified := prop_modified q |}
     else id) <$> obs_properties_get props name.
Proof.
  unfold obs_property_set_visible.
  destruct (obs_properties_get props h) as [q |] eqn:Hq; simpl.
  - apply obs_properties_get_on_property. reflexivity.
  - destruct (String.eqb_spec h name) as [<- | _].
    + rewrite Hq. reflexivity.
    + destruct (obs_properties_get props name); reflexivity.
Qed.

Section sheet_facts.
Context {St : Type} `{Ext : Externals St}.

(** X24.  [rate_control_modified] answers [true] and, on any sheet, shows
    the quantiser field and hides the bitrate field exactly when the mode
    is the one [ffmpeg_amf_update] configures as constant quality, in
    which the bitrate is zeroed and the option [rc] is [cqp]; in every
    other mode it shows the bitrate field and hides the quantiser field.
    It touches no other property, and nothing but the visibility of these
    two. *)
Theorem rate_control_modified_follows_update (ppts : obs_properties_t)
    (p : option string) (settings : gmap string obs_data_item) :
  let rc := obs_data_get_string settings "rate_control" in
  let quality := astrcmpi rc "cqp" =? 0 in
  let show v q :=
    {| prop_name := prop_name q; prop_desc := prop_desc q;
       prop_data := prop_data q; prop_visible := v;
       prop_modified := prop_modified q |} in
  exists ppts',
    rate_control_modified ppts p settings = (true, ppts') /\
    obs_properties_get ppts' "bitrate"
      = show (negb quality) <$> obs_properties_get ppts "bitrate" /\
    obs_properties_get ppts' "cqp"
      = show quality <$> obs_properties_get ppts "cqp" /\
    (forall name, name <> "bitrate" -> name <> "cqp" ->
       obs_properties_get ppts' name = obs_properties_get ppts name) /\
    (forall bitrate cqp (ctx : AVCodecContext St),
       let out := update_rate_control rc bitrate cqp ctx in
       out.1 = (if quality then 0 else bitrate) /\
       (option_lookup "rc" (priv_data out.2) = Some (opt_string "cqp")
        <-> quality = true)).
Proof.
  intros rc quality show.
  unfold rate_control_modified. fold rc.
  rewrite (astrcmpi_same_upper rc "CQP" "cqp" eq_refl). fold quality.
  eexists. split; [reflexivity |].
  rewrite !obs_properties_get_handle_spec.
  split; [| split; [| split]].
  - rewrite !obs_properties_get_set_visible. simpl.
    destruct (obs_properties_get ppts "bitrate"); reflexivity.
  - rewrite !obs_properties_get_set_visible. simpl.
    destruct (obs_properties_get ppts "cqp"); reflexivity.
  - intros name Hb Hq. rewrite !obs_properties_get_set_visible.
    destruct (String.eqb_spec "cqp" name) as [Heq | _]; [congruence |].
    destruct (String.eqb_spec "bitrate" name) as [Heq | _]; [congruence |].
    destruct (obs_properties_get ppts name); reflexivity.
  - intros bitrate cqp ctx. unfold update_rate_control. fold quality.
    destruct quality; simpl.
    + split; [reflexivity |]. split; reflexivity.
    + split; [reflexivity |].
      destruct (astrcmpi rc "vbr" =? 0); simpl; split; discriminate.
Qed.

End sheet_facts.

(** The defaults [amf_defaults] leaves, whatever was there. *)
Lemma amf_defaults_values (settings : gmap string obs_data_item) :
  obs_data_get_int (amf_defaults settings) "bitrate" = 2500 /\
  obs_data_get_int (amf_defaults settings) "cqp" = 20 /\
  obs_data_get_string (amf_defaults settings) "rate_control" = "CBR" /\
  obs_data_get_string (amf_defaults settings) "preset" = "hq" /\
  obs_data_get_string (amf_defaults settings) "profile" = "high".
Proof.
  unfold amf_defaults, obs_data_get_int, obs_data_get_string,
    obs_data_set_default_int, obs_data_set_default_string.
  repeat split;
    repeat (first [rewrite lookup_insert_eq
                  | rewrite lookup_insert_ne by discriminate]);
    reflexivity.
Qed.

(** X25.  The defaults against the sheet, for both codecs and every
    locale.  The default mode is one of the modes the sheet offers, the
    default bitrate and quantiser lie within the bounds of their fields,
    and the default profile is one of the profiles the H.264 sheet offers;
    the H.265 sheet has no profile field.  The default preset, [hq], is
    none of the presets the sheet offers, which are [quality], [balanced]
    and [speed]. *)
Theorem defaults_against_sheet (obs_module_text : string -> string)
    (hevc : bool) (settings : gmap string obs_data_item) :
  let defaults := amf_defaults settings in
  let props := amf_properties_internal obs_module_text hevc in
  offers props "rate_control"
    (obs_data_get_string defaults "rate_control") = true /\
  admits props "bitrate" (obs_data_get_int defaults "bitrate") = true /\
  admits props "cqp" (obs_data_get_int defaults "cqp") = true /\
  (if hevc then obs_properties_get props "profile" = None
   else offers props "profile"
          (obs_data_get_string defaults "profile") = true) /\
  offered props "preset" = ["quality"; "balanced"; "speed"] /\
  offers props "preset" (obs_data_get_string defaults "preset") = false.
Proof.
  intros defaults props. subst defaults props.
  destruct (amf_defaults_values settings) as (Hb & Hq & Hrc & Hpre & Hpro).
  rewrite Hb, Hq, Hrc, Hpre.
  destruct hevc; [| rewrite Hpro]; vm_compute; repeat split; reflexivity.
Qed.
